(** * iCal-Timeshift: a shallow embedding of [script.py]

    The script fetches an iCalendar feed, rewrites the times of the
    events that start at 08:45 or 13:45 Europe/Amsterdam local time and
    publishes the result under [docs/].

    Layout of the development:
    - [datetime] values and their arithmetic ([datetime.astimezone],
      [datetime.replace]) on the proleptic Gregorian ordinal, with the
      pytz zone as a transition table;
    - the text sanitizer on sequences of code points;
    - icalendar components as property dictionaries;
    - [main] in a small state-and-exception monad over the standard
      output and the file system;
    - the properties of the specification.

    What the libraries do is modelled as far as the script relies on
    it.  [datetime] arithmetic raises [OverflowError] when the result
    leaves the years 1..9999, and [Component.add] encodes a list value
    as icalendar does: under RDATE and EXDATE it raises, under
    CATEGORIES it builds one value from the [str] of the items.  The
    network, the parser, the serializer, the zone table and the zone of
    the machine are fields of the environment [Env].  The file system
    knows directories and regular files; permissions and full disks
    are not part of the model. *)

From Stdlib Require Import ZArith Lia List String Ascii.
From stdpp Require Import base option list strings pretty gmap.

Local Open Scope Z_scope.
Set Warnings "-register-all".

(** ** Exceptions *)

Inductive exn :=
| RequestException (msg : string)
| ValueError (msg : string)
| AttributeError (msg : string)
| KeyError (msg : string)
| OSError (msg : string)
| OverflowError (msg : string).

(** [str(e)]. *)
Definition exn_str (e : exn) : string :=
  match e with
  | RequestException m | ValueError m | AttributeError m | KeyError m
  | OSError m | OverflowError m => m
  end.

(** What a call gives: a value, or an exception. *)
Inductive outcome (A : Type) :=
| Return (a : A)
| Raise (e : exn).

Arguments Return {A} a.
Arguments Raise {A} e.

#[global] Instance outcome_ret : MRet outcome := @Return.
#[global] Instance outcome_bind : MBind outcome :=
  fun A B k o =>
    match o with
    | Return a => k a
    | Raise e => Raise e
    end.

(** ** Time *)

(** A [timedelta] is a number of microseconds. *)
Definition timedelta := Z.

Definition US_PER_SECOND : Z := 1000000.
Definition US_PER_MINUTE : Z := 60 * US_PER_SECOND.
Definition US_PER_HOUR : Z := 60 * US_PER_MINUTE.
Definition US_PER_DAY : Z := 24 * US_PER_HOUR.

Definition minutes (n : Z) : timedelta := n * US_PER_MINUTE.
Definition hours (n : Z) : timedelta := n * US_PER_HOUR.

(** [datetime.datetime]: the date as its proleptic Gregorian ordinal
    ([date.toordinal]), the wall-clock fields, and the tzinfo.  The
    tzinfo of an aware value is represented by the offset its
    [utcoffset] method returns for this value ([Some 0] is
    [timezone.utc]); [None] is a naive value. *)
Record datetime := mk_datetime {
  toordinal : Z;
  hour : Z;
  minute : Z;
  second : Z;
  microsecond : Z;
  tzinfo : option timedelta
}.

(** The fields CPython guarantees for every [datetime] object. *)
Definition valid_datetime (dt : datetime) : Prop :=
  0 <= hour dt < 24 /\ 0 <= minute dt < 60 /\ 0 <= second dt < 60 /\
  0 <= microsecond dt < US_PER_SECOND.

(** [_days_before_year], [_is_leap], [_days_before_month] and
    [_ymd2ord] of CPython's [datetime]; used to write dates down. *)
Definition days_before_year (year : Z) : Z :=
  let y := year - 1 in y * 365 + y / 4 - y / 100 + y / 400.

Definition is_leap (year : Z) : bool :=
  (year mod 4 =? 0) && (negb (year mod 100 =? 0) || (year mod 400 =? 0)).

Definition DAYS_BEFORE_MONTH : list Z :=
  [0; 0; 31; 59; 90; 120; 151; 181; 212; 243; 273; 304; 334].

Definition days_before_month (year month : Z) : Z :=
  nth (Z.to_nat month) DAYS_BEFORE_MONTH 0 +
  (if (2 <? month) && is_leap year then 1 else 0).

Definition ymd2ord (year month day : Z) : Z :=
  days_before_year year + days_before_month year month + day.

(** [_MAXORDINAL], the ordinal of 9999-12-31. *)
Definition MAXORDINAL : Z := 3652059.

(** The position of the wall-clock reading on the time line, in
    microseconds since the midnight that starts ordinal 0; what
    [datetime.__add__] builds as a [timedelta] before adding. *)
Definition wall_us (dt : datetime) : Z :=
  toordinal dt * US_PER_DAY + hour dt * US_PER_HOUR +
  minute dt * US_PER_MINUTE + second dt * US_PER_SECOND + microsecond dt.

(** The [divmod] chain by which [datetime.__add__] rebuilds the
    fields. *)
Definition from_wall_us (n : Z) (tz : option timedelta) : datetime :=
  let days := n / US_PER_DAY in
  let rem := n mod US_PER_DAY in
  let secs := rem / US_PER_SECOND in
  {| toordinal := days;
     hour := secs / 3600;
     minute := (secs mod 3600) / 60;
     second := secs mod 60;
     microsecond := rem mod US_PER_SECOND;
     tzinfo := tz |}.

(** The exception of [datetime] arithmetic that leaves the years
    1..9999. *)
Definition out_of_range : exn := OverflowError "date value out of range".

(** [dt + delta], keeping the tzinfo: an [OverflowError] unless
    [0 < delta.days <= _MAXORDINAL] for the sum. *)
Definition dt_add (dt : datetime) (delta : timedelta) : outcome datetime :=
  let r := from_wall_us (wall_us dt + delta) (tzinfo dt) in
  if (0 <? toordinal r) && (toordinal r <=? MAXORDINAL) then Return r
  else Raise out_of_range.

(** [dt.replace(tzinfo=tz)]. *)
Definition replace_tzinfo (dt : datetime) (tz : option timedelta) : datetime :=
  {| toordinal := toordinal dt; hour := hour dt; minute := minute dt;
     second := second dt; microsecond := microsecond dt; tzinfo := tz |}.

(** [dt.replace(hour=h, minute=m)]: the date, the seconds, the
    microseconds and the tzinfo object are kept. *)
Definition replace_hm (dt : datetime) (h m : Z) : datetime :=
  {| toordinal := toordinal dt; hour := h; minute := m;
     second := second dt; microsecond := microsecond dt;
     tzinfo := tzinfo dt |}.

(** A pytz [DstTzInfo] zone: [first_info] is the offset of
    [_transition_info[0]], and [transitions] pairs every later entry of
    [_utc_transition_times] (as [wall_us] of the naive UTC value) with
    the offset of its [_transition_info]. *)
Record DstTzInfo := mk_zone {
  first_info : timedelta;
  transitions : list (Z * timedelta)
}.

(** The entry [fromutc] selects:
    [_transition_info[max(0, bisect_right(_utc_transition_times, dt) - 1)]],
    the info of the last transition that is not after [dt]. *)
Fixpoint info_at (cur : timedelta) (trs : list (Z * timedelta)) (utc : Z)
  : timedelta :=
  match trs with
  | [] => cur
  | (t, inf) :: rest => if utc <? t then cur else info_at inf rest utc
  end.

Definition zone_offset (tz : DstTzInfo) (utc : Z) : timedelta :=
  info_at (first_info tz) (transitions tz) utc.

(** [DstTzInfo.fromutc]: [(dt + inf[0]).replace(tzinfo=self._tzinfos[inf])].
    The tzinfo of the result is the fixed-offset instance of that
    period. *)
Definition pytz_fromutc (tz : DstTzInfo) (dt : datetime) : outcome datetime :=
  let inf := zone_offset tz (wall_us dt) in
  r ← dt_add dt inf ;
  Return (replace_tzinfo r (Some inf)).

(** The offset [astimezone] subtracts: [tzinfo.utcoffset(self)] of an
    aware value, the offset of the system's local zone for a naive
    one. *)
Definition utcoffset (local_zone : Z -> timedelta) (dt : datetime) : timedelta :=
  match tzinfo dt with
  | Some off => off
  | None => local_zone (wall_us dt)
  end.

(** The instant a value denotes, in microseconds of UTC. *)
Definition timestamp (local_zone : Z -> timedelta) (dt : datetime) : Z :=
  wall_us dt - utcoffset local_zone dt.

(** [dt.astimezone(tz)] for a pytz zone:
    [utc = (self - myoffset).replace(tzinfo=tz); tz.fromutc(utc)].
    (When [dt] already carries [tz] itself, CPython returns [dt]; the
    conversion gives the same value.) *)
Definition astimezone (local_zone : Z -> timedelta) (tz : DstTzInfo)
    (dt : datetime) : outcome datetime :=
  utc ← dt_add dt (- utcoffset local_zone dt) ;
  pytz_fromutc tz utc.

(** [dt.astimezone(timezone.utc)]; [timezone.fromutc] adds its zero
    offset. *)
Definition astimezone_utc (local_zone : Z -> timedelta) (dt : datetime)
  : outcome datetime :=
  utc ← dt_add dt (- utcoffset local_zone dt) ;
  dt_add (replace_tzinfo utc (Some 0)) 0.

(** The two readings of a local start that trigger a rule. *)
Definition is_0845 (dt : datetime) : Prop := hour dt = 8 /\ minute dt = 45.
Definition is_1345 (dt : datetime) : Prop := hour dt = 13 /\ minute dt = 45.

(** Lines 58-63: the two shift rules, tested in order on the hour and
    minute of the local start. *)
Definition adjust_shift (start_local end_local : datetime)
  : datetime * datetime :=
  if (hour start_local =? 8) && (minute start_local =? 45) then
    (replace_hm start_local 9 0, replace_hm end_local 13 0)
  else if (hour start_local =? 13) && (minute start_local =? 45) then
    (replace_hm start_local 13 0, replace_hm end_local 17 0)
  else (start_local, end_local).

(** Lines 53-67 on a decoded start and end: the adjusted local values
    and their conversions to UTC. *)
Record shifted := mk_shifted {
  sh_start_local : datetime;
  sh_end_local : datetime;
  new_start_utc : datetime;
  new_end_utc : datetime
}.

Definition shift_times (local_zone : Z -> timedelta) (tz : DstTzInfo)
    (start_utc end_utc : datetime) : outcome shifted :=
  start_local ← astimezone local_zone tz start_utc ;
  end_local ← astimezone local_zone tz end_utc ;
  let '(start_local, end_local) := adjust_shift start_local end_local in
  new_start_utc ← astimezone_utc local_zone start_local ;
  new_end_utc ← astimezone_utc local_zone end_local ;
  Return {| sh_start_local := start_local;
            sh_end_local := end_local;
            new_start_utc := new_start_utc;
            new_end_utc := new_end_utc |}.

(** What the conversions give when no [OverflowError] is raised: the
    reading of the instant of [dt] in the zone, and its reading in
    UTC. *)
Definition zone_reading (local_zone : Z -> timedelta) (tz : DstTzInfo)
    (dt : datetime) : datetime :=
  let off := zone_offset tz (timestamp local_zone dt) in
  from_wall_us (timestamp local_zone dt + off) (Some off).

Definition utc_reading (local_zone : Z -> timedelta) (dt : datetime)
  : datetime :=
  from_wall_us (timestamp local_zone dt) (Some 0).

(** Lines 53-67 in terms of these readings. *)
Definition shift_readings (local_zone : Z -> timedelta) (tz : DstTzInfo)
    (start_utc end_utc : datetime) : shifted :=
  let start_local := zone_reading local_zone tz start_utc in
  let end_local := zone_reading local_zone tz end_utc in
  let '(start_local, end_local) := adjust_shift start_local end_local in
  {| sh_start_local := start_local;
     sh_end_local := end_local;
     new_start_utc := utc_reading local_zone start_local;
     new_end_utc := utc_reading local_zone end_local |}.

(** The positions on the time line that [datetime] can hold: the days
    1 to [MAXORDINAL]. *)
Definition representable (n : Z) : Prop :=
  US_PER_DAY <= n < (MAXORDINAL + 1) * US_PER_DAY.

(** The conversions of lines 53-67 stay within these days: the two
    inputs as instants and as readings in the zone, and the two
    adjusted local values as instants. *)
Definition convertible (local_zone : Z -> timedelta) (tz : DstTzInfo)
    (start_utc end_utc : datetime) : Prop :=
  let r := shift_readings local_zone tz start_utc end_utc in
  representable (timestamp local_zone start_utc) /\
  representable (timestamp local_zone start_utc +
                 zone_offset tz (timestamp local_zone start_utc)) /\
  representable (timestamp local_zone end_utc) /\
  representable (timestamp local_zone end_utc +
                 zone_offset tz (timestamp local_zone end_utc)) /\
  representable (timestamp local_zone (sh_start_local r)) /\
  representable (timestamp local_zone (sh_end_local r)).

(** An aware UTC value written as in the feed, [YYYYMMDDTHHMMSSZ]. *)
Definition utc_datetime (y mo d h mi s : Z) : datetime :=
  mk_datetime (ymd2ord y mo d) h mi s 0 (Some 0).

(** The naive UTC value of a POSIX time, on the time line of
    [wall_us]: 1970-01-01 has the ordinal 719163. *)
Definition posix (seconds : Z) : Z :=
  (719163 * 86400 + seconds) * US_PER_SECOND.

(** [pytz.timezone("Europe/Amsterdam")] as pytz builds it from the tz
    database since release 2022b, in which the zone has the data of
    Europe/Brussels: the local mean time of [_transition_info[0]],
    0:17:30, which pytz rounds to the minute, and the 184 later entries
    of [_utc_transition_times], from 1901-12-13 to 2037-10-25, each as
    its POSIX time with the offset of its [_transition_info] in
    seconds. *)
Definition Europe_Amsterdam : DstTzInfo :=
  {| first_info := 1080 * US_PER_SECOND;
     transitions :=
       map (fun tr : Z * Z => (posix (fst tr), snd tr * US_PER_SECOND))
       [(-2147483648, 0); (-1740355200, 3600); (-1693702800, 7200);
       (-1680483600, 3600); (-1663455600, 7200); (-1650150000, 3600);
       (-1632006000, 7200); (-1618700400, 3600); (-1613826000, 0);
       (-1604278800, 3600); (-1585530000, 0); (-1574038800, 3600);
       (-1552266000, 0); (-1539997200, 3600); (-1520557200, 0);
       (-1507510800, 3600); (-1490576400, 0); (-1473642000, 3600);
       (-1459126800, 0); (-1444006800, 3600); (-1427677200, 0);
       (-1411952400, 3600); (-1396227600, 0); (-1379293200, 3600);
       (-1364778000, 0); (-1348448400, 3600); (-1333328400, 0);
       (-1316394000, 3600); (-1301263200, 0); (-1284328800, 3600);
       (-1269813600, 0); (-1253484000, 3600); (-1238364000, 0);
       (-1221429600, 3600); (-1206914400, 0); (-1191189600, 3600);
       (-1175464800, 0); (-1160344800, 3600); (-1143410400, 0);
       (-1127685600, 3600); (-1111960800, 0); (-1096840800, 3600);
       (-1080511200, 0); (-1063576800, 3600); (-1049061600, 0);
       (-1033336800, 3600); (-1017612000, 0); (-1002492000, 3600);
       (-986162400, 0); (-969228000, 3600); (-950479200, 0);
       (-942012000, 3600); (-934668000, 7200); (-857257200, 3600);
       (-844556400, 7200); (-828226800, 3600); (-812502000, 7200);
       (-798073200, 3600); (-781052400, 7200); (-766623600, 3600);
       (-745455600, 7200); (-733273200, 3600); (228877200, 7200);
       (243997200, 3600); (260326800, 7200); (276051600, 3600);
       (291776400, 7200); (307501200, 3600); (323830800, 7200);
       (338950800, 3600); (354675600, 7200); (370400400, 3600);
       (386125200, 7200); (401850000, 3600); (417574800, 7200);
       (433299600, 3600); (449024400, 7200); (465354000, 3600);
       (481078800, 7200); (496803600, 3600); (512528400, 7200);
       (528253200, 3600); (543978000, 7200); (559702800, 3600);
       (575427600, 7200); (591152400, 3600); (606877200, 7200);
       (622602000, 3600); (638326800, 7200); (654656400, 3600);
       (670381200, 7200); (686106000, 3600); (701830800, 7200);
       (717555600, 3600); (733280400, 7200); (749005200, 3600);
       (764730000, 7200); (780454800, 3600); (796179600, 7200);
       (811904400, 3600); (828234000, 7200); (846378000, 3600);
       (859683600, 7200); (877827600, 3600); (891133200, 7200);
       (909277200, 3600); (922582800, 7200); (941331600, 3600);
       (954032400, 7200); (972781200, 3600); (985482000, 7200);
       (1004230800, 3600); (1017536400, 7200); (1035680400, 3600);
       (1048986000, 7200); (1067130000, 3600); (1080435600, 7200);
       (1099184400, 3600); (1111885200, 7200); (1130634000, 3600);
       (1143334800, 7200); (1162083600, 3600); (1174784400, 7200);
       (1193533200, 3600); (1206838800, 7200); (1224982800, 3600);
       (1238288400, 7200); (1256432400, 3600); (1269738000, 7200);
       (1288486800, 3600); (1301187600, 7200); (1319936400, 3600);
       (1332637200, 7200); (1351386000, 3600); (1364691600, 7200);
       (1382835600, 3600); (1396141200, 7200); (1414285200, 3600);
       (1427590800, 7200); (1445734800, 3600); (1459040400, 7200);
       (1477789200, 3600); (1490490000, 7200); (1509238800, 3600);
       (1521939600, 7200); (1540688400, 3600); (1553994000, 7200);
       (1572138000, 3600); (1585443600, 7200); (1603587600, 3600);
       (1616893200, 7200); (1635642000, 3600); (1648342800, 7200);
       (1667091600, 3600); (1679792400, 7200); (1698541200, 3600);
       (1711846800, 7200); (1729990800, 3600); (1743296400, 7200);
       (1761440400, 3600); (1774746000, 7200); (1792890000, 3600);
       (1806195600, 7200); (1824944400, 3600); (1837645200, 7200);
       (1856394000, 3600); (1869094800, 7200); (1887843600, 3600);
       (1901149200, 7200); (1919293200, 3600); (1932598800, 7200);
       (1950742800, 3600); (1964048400, 7200); (1982797200, 3600);
       (1995498000, 7200); (2014246800, 3600); (2026947600, 7200);
       (2045696400, 3600); (2058397200, 7200); (2077146000, 3600);
       (2090451600, 7200); (2108595600, 3600); (2121901200, 7200);
       (2140045200, 3600)] |}.

(** A system zone for the examples: the machine runs in UTC. *)
Definition system_utc : Z -> timedelta := fun _ => 0.

(** The offsets a zone table holds. *)
Definition zone_offsets (tz : DstTzInfo) : list timedelta :=
  first_info tz :: map snd (transitions tz).

(** A transition at [t] cannot fall into the quarter of an hour after
    a reading of 08:45 nor into the three quarters before a reading of
    13:45, the readings being taken at the offset [off]: the time of
    day of [t], seen at that offset, lies neither strictly between
    08:45:00 and 09:01:00 nor strictly between 13:00:00 and
    13:46:00. *)
Definition harmless (t : Z) (off : timedelta) : bool :=
  let x := (t + off) mod US_PER_DAY in
  negb ((hours 8 + minutes 45 <? x) && (x <? hours 9 + minutes 1)) &&
  negb ((hours 13 <? x) && (x <? hours 13 + minutes 46)).

(** A zone whose transitions leave the two windows alone, whatever
    offset of the zone the readings are taken at, and whose offsets
    lie within three hours of UTC.  The transitions of
    Europe/Amsterdam fall between 20:45 and 02:00 UTC, but for the one
    of 1918-11-11 at 11:00 UTC, which is 13:00:00 at the latest at an
    offset of the zone; its offsets lie between zero and two hours. *)
Definition clear_windows (tz : DstTzInfo) : bool :=
  forallb (fun off => (- hours 3 <=? off) && (off <=? hours 3))
    (zone_offsets tz) &&
  forallb (fun tr => forallb (harmless (fst tr)) (zone_offsets tz))
    (transitions tz).

(** ** The sanitizer (lines 23-25) *)

(** A Python [str]: its sequence of code points. *)
Definition str := list Z.

Definition LF : Z := 10.
Definition CR : Z := 13.
Definition NBSP : Z := 160.

(** The line boundaries of [str.splitlines]. *)
Definition is_linebreak (c : Z) : bool :=
  (c =? 10) || (c =? 11) || (c =? 12) || (c =? 13) || (c =? 28) ||
  (c =? 29) || (c =? 30) || (c =? 133) || (c =? 8232) || (c =? 8233).

(** The characters [str.strip] removes when called without argument:
    those for which [str.isspace] holds. *)
Definition is_space (c : Z) : bool :=
  ((9 <=? c) && (c <=? 13)) || ((28 <=? c) && (c <=? 32)) ||
  (c =? 133) || (c =? 160) || (c =? 5760) ||
  ((8192 <=? c) && (c <=? 8202)) || (c =? 8232) || (c =? 8233) ||
  (c =? 8239) || (c =? 8287) || (c =? 12288).

(** [str.splitlines()]: [cur] is the line being read; a CR LF pair is
    one boundary; no empty last line is produced. *)
Fixpoint splitlines_from (cur : str) (s : str) : list str :=
  match s with
  | [] => match cur with [] => [] | _ => [cur] end
  | c :: rest =>
      if is_linebreak c then
        cur ::
        (if c =? CR then
           match rest with
           | c' :: rest' =>
               if c' =? LF then splitlines_from [] rest'
               else splitlines_from [] rest
           | [] => splitlines_from [] rest
           end
         else splitlines_from [] rest)
      else splitlines_from (cur ++ [c]) rest
  end.

Definition splitlines (s : str) : list str := splitlines_from [] s.

Fixpoint lstrip (s : str) : str :=
  match s with
  | c :: rest => if is_space c then lstrip rest else s
  | [] => []
  end.

Definition rstrip (s : str) : str := rev (lstrip (rev s)).

Definition strip (s : str) : str := rstrip (lstrip s).

(** [s.replace(ch, '')] for a one-character [ch]. *)
Definition remove_char (ch : Z) (s : str) : str :=
  filter (fun c => c <> ch) s.

(** [sep.join(parts)]. *)
Fixpoint join (sep : str) (parts : list str) : str :=
  match parts with
  | [] => []
  | [p] => p
  | p :: rest => p ++ sep ++ join sep rest
  end.

Definition sanitize (text : str) : str :=
  let lines := splitlines text in
  let clean_lines := map (fun line => remove_char NBSP (strip line)) lines in
  join [LF] clean_lines.

(** The contract of the specification for one line: [out] is [line]
    without its leading and trailing whitespace and without any
    non-breaking space. *)
Definition starts_with_space (s : str) : Prop :=
  exists c rest, s = c :: rest /\ is_space c = true.

Definition ends_with_space (s : str) : Prop :=
  exists front c, s = front ++ [c] /\ is_space c = true.



(** ** icalendar components *)

(** What [Component.decoded] returns for a temporal property: a
    [datetime], a [date] (an all-day value, by its ordinal), or a value
    of another class, kept by its type name. *)
Inductive decoded :=
| DDatetime (dt : datetime)
| DDate (ordinal : Z)
| DOther (type_name : string).

(** A property value as the parser stores it: a text-like value, a
    temporal value ([vDDDTypes], with what it decodes to), the dates of
    an RDATE or EXDATE line ([vDDDLists]), the texts of a CATEGORIES
    line ([vCategory]), or the Python list of the values of a property
    that occurs on several lines. *)
Inductive vprop :=
| vText (s : string)
| vDDDTypes (d : decoded)
| vDDDLists (dts : list decoded)
| vCategory (cats : list string)
| vList (l : list vprop).

(** [icalendar.Component]: a dictionary of properties and a list of
    subcomponents.  Keys are stored in upper case, as the script writes
    them. *)
Inductive Component :=
| mkComponent (name : string) (props : gmap string vprop)
    (subcomponents : list Component).

Definition comp_name (c : Component) : string :=
  match c with mkComponent n _ _ => n end.

Definition comp_props (c : Component) : gmap string vprop :=
  match c with mkComponent _ ps _ => ps end.

Definition subcomponents (c : Component) : list Component :=
  match c with mkComponent _ _ subs => subs end.

(** [Calendar()] and [Event()]. *)
Definition Calendar : Component := mkComponent "VCALENDAR" ∅ [].
Definition Event : Component := mkComponent "VEVENT" ∅ [].

(** [name in component] and [component.get(name)]. *)
Definition contains (name : string) (c : Component) : bool :=
  bool_decide (is_Some (comp_props c !! name)).

Definition get (name : string) (c : Component) : option vprop :=
  comp_props c !! name.

(** [Component.add_component]. *)
Definition add_component (sub : Component) (c : Component) : Component :=
  mkComponent (comp_name c) (comp_props c) (subcomponents c ++ [sub]).

(** [Component.walk(name)]: the component itself when its name
    matches, then the matches below it, in document order. *)
Fixpoint walk (name : string) (c : Component) : list Component :=
  match c with
  | mkComponent n _ subs =>
      (if bool_decide (n = name) then [c] else []) ++
      concat (map (walk name) subs)
  end.

(** [Component.decoded(name)] of a stored value, by the class of what
    it returns. *)
Definition decode (v : vprop) : decoded :=
  match v with
  | vDDDTypes d => d
  | vText _ => DOther "str"
  | vDDDLists _ => DOther "vDDDLists"
  | vCategory _ => DOther "vCategory"
  | vList _ => DOther "list"
  end.

(** [str.lower] on the ASCII letters of a property name. *)
Definition lower_ascii (a : ascii) : ascii :=
  let n := nat_of_ascii a in
  if ((65 <=? n) && (n <=? 90))%nat then ascii_of_nat (n + 32) else a.

Fixpoint lower (s : string) : string :=
  match s with
  | EmptyString => EmptyString
  | String a rest => String (lower_ascii a) (lower rest)
  end.

(** ** The run: standard output, file system, exceptions *)

Definition bytes := list Byte.byte.

Record world := mk_world {
  stdout : list string;
  dirs : gset string;
  files : gmap string bytes
}.

(** A computation of the script: it reads and writes the world and
    returns or raises. *)
Definition M (A : Type) : Type := world -> outcome A * world.

Definition ret {A} (a : A) : M A := fun w => (Return a, w).

Definition raise {A} (e : exn) : M A := fun w => (Raise e, w).

Definition bind {A B} (m : M A) (k : A -> M B) : M B :=
  fun w =>
    match m w with
    | (Return a, w') => k a w'
    | (Raise e, w') => (Raise e, w')
    end.

#[global] Instance M_ret : MRet M := @ret.
#[global] Instance M_bind : MBind M := fun A B k m => bind m k.

(** A call that does not touch the world. *)
Definition lift {A} (o : outcome A) : M A := fun w => (o, w).

(** [try: m  except ... as e: h e]. *)
Definition try_except {A} (m : M A) (h : exn -> M A) : M A :=
  fun w =>
    match m w with
    | (Raise e, w') => h e w'
    | r => r
    end.

Definition print (line : string) : M unit :=
  fun w => (Return tt, mk_world (stdout w ++ [line]) (dirs w) (files w)).

(** [os.makedirs(path, exist_ok=True)] for a one-level path: it fails
    when the path is a regular file. *)
Definition makedirs (path : string) : M unit :=
  fun w =>
    if bool_decide (is_Some (files w !! path)) then
      (Raise (OSError ("[Errno 17] File exists: '" +:+ path +:+ "'")), w)
    else (Return tt, mk_world (stdout w) ({[path]} ∪ dirs w) (files w)).

(** [with open(path, "wb") as f: f.write(data)]: the file is created
    or fully overwritten; it fails when the path is a directory. *)
Definition write_file (path : string) (data : bytes) : M unit :=
  fun w =>
    if bool_decide (path ∈ dirs w) then
      (Raise (OSError ("[Errno 21] Is a directory: '" +:+ path +:+ "'")), w)
    else (Return tt, mk_world (stdout w) (dirs w) (<[path := data]> (files w))).

(** [requests.Response], as far as the script reads it. *)
Record Response := mk_response {
  status_code : Z;
  reason : string;
  url : string;
  text : str
}.

(** What the script finds around it. *)
Record Env := mk_env {
  (** [os.environ.get("ICAL_URL")] *)
  URL : option string;
  (** what [requests.get(url, timeout=t)] meets on the network: an
      exception of the [RequestException] family, by its message, or a
      response *)
  network : string -> Z -> string + Response;
  (** [Calendar.from_ical]: a [ValueError], by its message, or the
      parsed calendar *)
  from_ical : str -> string + Component;
  (** [Component.to_ical] *)
  to_ical : Component -> bytes;
  (** [pytz.timezone("Europe/Amsterdam")] *)
  tz : DstTzInfo;
  (** the zone of the machine, for naive values *)
  local_zone : Z -> timedelta;
  (** [str(v)] of a property value that is not a text *)
  repr : vprop -> string
}.

(** [str(v)] for the f-strings. *)
Definition py_str (E : Env) (v : vprop) : string :=
  match v with
  | vText s => s
  | _ => repr E v
  end.

Definition str_option (o : option string) : string :=
  match o with Some s => s | None => "None" end.

(** The exception of [vDDDTypes] on a value that is no native date
    or time. *)
Definition not_a_date : exn :=
  ValueError
    "You must use datetime, date, timedelta, time or tuple (for periods)".

(** The encoding [Component.add] applies to a value that is already of
    a property type, as the values of [component.items()] are.  A
    single value is kept.  A list is kept, item by item, unless the
    name is RDATE, EXDATE or CATEGORIES: there the list as a whole goes
    to the class of the property.  [vDDDLists] wraps each item in
    [vDDDTypes], which raises on anything that is not a native date or
    time; [vCategory] takes [str] of each item. *)
Definition encode (E : Env) (name : string) (value : vprop) : outcome vprop :=
  match value with
  | vList l =>
      if bool_decide (lower name = "rdate") || bool_decide (lower name = "exdate")
      then
        match l with
        | [] => Return (vDDDLists [])
        | _ :: _ => Raise not_a_date
        end
      else if bool_decide (lower name = "categories")
      then Return (vCategory (map (py_str E) l))
      else Return (vList l)
  | _ => Return value
  end.

(** [Component.add]: the value is encoded, and appended to what the
    key holds when the key is there already. *)
Definition add (E : Env) (name : string) (value : vprop) (c : Component)
  : outcome Component :=
  value ← encode E name value ;
  let value :=
    match comp_props c !! name with
    | Some (vList oldval) =>
        match value with
        | vList l => vList (oldval ++ l)
        | _ => vList (oldval ++ [value])
        end
    | Some oldval => vList [oldval; value]
    | None => value
    end in
  Return (mkComponent (comp_name c) (<[name := value]> (comp_props c))
            (subcomponents c)).

(** [Component.add] on a native [datetime]: encoded as [vDDDTypes]. *)
Definition add_datetime (E : Env) (name : string) (dt : datetime)
    (c : Component) : outcome Component :=
  add E name (vDDDTypes (DDatetime dt)) c.

(** [requests.get(URL, timeout=15)]: without a URL the call raises
    [MissingSchema], one of the [RequestException] classes. *)
Definition requests_get (E : Env) (u : option string) (timeout : Z)
  : M Response :=
  match u with
  | None =>
      raise (RequestException
        "Invalid URL 'None': No scheme supplied. Perhaps you meant https://None?")
  | Some u =>
      match network E u timeout with
      | inl msg => raise (RequestException msg)
      | inr resp => ret resp
      end
  end.

(** [Response.raise_for_status]: an [HTTPError] for 4xx and 5xx. *)
Definition http_error_msg (resp : Response) : option string :=
  let line kind :=
    pretty (status_code resp) +:+ kind +:+ reason resp +:+ " for url: " +:+
    url resp in
  if (400 <=? status_code resp) && (status_code resp <? 500) then
    Some (line " Client Error: ")
  else if (500 <=? status_code resp) && (status_code resp <? 600) then
    Some (line " Server Error: ")
  else None.

Definition raise_for_status (resp : Response) : M unit :=
  match http_error_msg resp with
  | Some msg => raise (RequestException msg)
  | None => ret tt
  end.

(** [component.decoded(name)]: a [KeyError] without the key. *)
Definition decoded_value (name : string) (c : Component) : M decoded :=
  match get name c with
  | Some v => ret (decode v)
  | None => raise (KeyError name)
  end.

(** [value.astimezone(tz)] on a decoded value: only a [datetime] has
    the method. *)
Definition py_astimezone (E : Env) (value : decoded) : M datetime :=
  match value with
  | DDatetime dt => lift (astimezone (local_zone E) (tz E) dt)
  | DDate _ =>
      raise (AttributeError
        "'datetime.date' object has no attribute 'astimezone'")
  | DOther type_name =>
      raise (AttributeError
        ("'" +:+ type_name +:+ "' object has no attribute 'astimezone'"))
  end.

(** [dt.strftime('%H:%M')]. *)
Definition two_digits (n : Z) : string :=
  if n <? 10 then "0" +:+ pretty n else pretty n.

Definition strftime_HM (dt : datetime) : string :=
  two_digits (hour dt) +:+ ":" +:+ two_digits (minute dt).

Definition skip_message (E : Env) (component : Component) : string :=
  let uid :=
    match get "UID" component with
    | Some v => py_str E v
    | None => "N/A"
    end in
  "Skipping event with UID '" +:+ uid +:+
  "' because it's missing DTSTART or DTEND.".

(** The line printed for a processed event (line 78). *)
Definition adjusted_message (E : Env) (component : Component)
    (start_local end_local : datetime) : string :=
  "Shift " +:+
  match get "UID" component with
  | Some v => py_str E v
  | None => "None"
  end +:+
  " adjusted to: " +:+ strftime_HM start_local +:+ " - " +:+
  strftime_HM end_local +:+ " (Local Time)".

(** [for k, v in source.items(): if not skip(k): target.add(k, v)],
    the loop of lines 32-33 and of lines 71-73.  The first [add] that
    raises ends it.  The keys of a dictionary are distinct and every
    [add] that raises here raises the same exception, so the order in
    which the items come does not show in the result. *)
Definition add_items (E : Env) (skip : string -> bool)
    (source target : Component) : outcome Component :=
  map_fold
    (fun k v acc =>
       target ← acc ;
       if skip k then Return target else add E k v target)
    (Return target) (comp_props source).

(** The two keys the loop of lines 71-73 leaves out. *)
Definition is_time_key (k : string) : bool :=
  bool_decide (k = "DTSTART") || bool_decide (k = "DTEND").

(** Lines 70-73: the properties of the source event other than the two
    times, added to a new event. *)
Definition copy_properties (E : Env) (component : Component)
  : outcome Component :=
  add_items E is_time_key component Event.

(** Lines 70-75. *)
Definition rebuild_event (E : Env) (component : Component)
    (new_start_utc new_end_utc : datetime) : outcome Component :=
  new_event ← copy_properties E component ;
  new_event ← add_datetime E "DTSTART" new_start_utc new_event ;
  add_datetime E "DTEND" new_end_utc new_event.

(** The body of the loop of line 42 for one event. *)
Definition process_event (E : Env) (component new_cal : Component)
  : M Component :=
  if negb (contains "DTSTART" component) || negb (contains "DTEND" component)
  then
    print (skip_message E component) ;;
    ret new_cal
  else
    start_utc ← decoded_value "DTSTART" component ;
    end_utc ← decoded_value "DTEND" component ;
    start_local ← py_astimezone E start_utc ;
    end_local ← py_astimezone E end_utc ;
    let '(start_local, end_local) := adjust_shift start_local end_local in
    new_start_utc ← lift (astimezone_utc (local_zone E) start_local) ;
    new_end_utc ← lift (astimezone_utc (local_zone E) end_local) ;
    new_event ← lift (rebuild_event E component new_start_utc new_end_utc) ;
    let new_cal := add_component new_event new_cal in
    print (adjusted_message E component start_local end_local) ;;
    ret new_cal.

Fixpoint process_events (E : Env) (events : list Component)
    (new_cal : Component) : M Component :=
  match events with
  | [] => ret new_cal
  | component :: rest =>
      new_cal ← process_event E component new_cal ;
      process_events E rest new_cal
  end.

(** Lines 32-33. *)
Definition copy_metadata (E : Env) (cal new_cal : Component)
  : outcome Component :=
  add_items E (fun _ => false) cal new_cal.

Definition output_file_path : string := "docs/fixed_shifts.ics".
Definition nojekyll_path : string := "docs/.nojekyll".

(** Lines 80-94: the output directory, the calendar file and the
    marker file. *)
Definition publish (E : Env) (new_cal : Component) : M unit :=
  makedirs "docs" ;;
  write_file output_file_path (to_ical E new_cal) ;;
  print ("New iCal file saved to " +:+ output_file_path) ;;
  write_file nojekyll_path [] ;;
  print ("Created " +:+ nojekyll_path +:+ " for GitHub Pages.").

(** The line printed before the fetch (line 16). *)
Definition fetching_line (E : Env) : string :=
  "Fetching iCal from " +:+ str_option (URL E) +:+ "...".

(** Lines 16-94, the body of the [try]. *)
Definition main_body (E : Env) : M unit :=
  print (fetching_line E) ;;
  resp ← requests_get E (URL E) 15 ;
  raise_for_status resp ;;
  let clean_text := sanitize (text resp) in
  cal ← match from_ical E clean_text with
        | inl msg => raise (ValueError msg)
        | inr cal => ret cal
        end ;
  new_cal ← lift (copy_metadata E cal Calendar) ;
  print "Processing events and adjusting times..." ;;
  let events := walk "VEVENT" cal in
  print ("Found " +:+ pretty (length events) +:+ " events to process.") ;;
  new_cal ← process_events E events new_cal ;
  publish E new_cal.

(** Lines 96-101, the two handlers: both print and raise again. *)
Definition handler (e : exn) : M unit :=
  match e with
  | RequestException _ =>
      print ("Error fetching the iCal file: " +:+ exn_str e) ;;
      raise e
  | _ =>
      print ("An unexpected error occurred: " +:+ exn_str e) ;;
      raise e
  end.

Definition main (E : Env) : M unit := try_except (main_body E) handler.

(** The world after some more lines were printed. *)
Definition log (w : world) (lines : list string) : world :=
  mk_world (stdout w ++ lines) (dirs w) (files w).

(** The lines printed before the loop. *)
Definition prelude (E : Env) (cal : Component) : list string :=
  [fetching_line E; "Processing events and adjusting times...";
   "Found " +:+ pretty (length (walk "VEVENT" cal)) +:+ " events to process."].

(** The ways in which the fetch of lines 17-18 fails, with the message
    of the exception: no URL, a failure of the transport within the
    timeout of 15, a response with a 4xx or 5xx status. *)
Inductive fetch_fails (E : Env) : string -> Prop :=
| fetch_no_url :
    URL E = None ->
    fetch_fails E
      "Invalid URL 'None': No scheme supplied. Perhaps you meant https://None?"
| fetch_transport u msg :
    URL E = Some u -> network E u 15 = inl msg -> fetch_fails E msg
| fetch_status u resp msg :
    URL E = Some u -> network E u 15 = inr resp ->
    400 <= status_code resp < 600 -> http_error_msg resp = Some msg ->
    fetch_fails E msg.

(** The events whose step in the loop does not stop at the decoding:
    a time is missing, or both are [datetime] values. *)
Definition skipped (c : Component) : Prop :=
  get "DTSTART" c = None \/ get "DTEND" c = None.

Definition timed (c : Component) : Prop :=
  exists s e,
    get "DTSTART" c = Some (vDDDTypes (DDatetime s)) /\
    get "DTEND" c = Some (vDDDTypes (DDatetime e)).

(** An exception that goes to the second handler. *)
Definition unexpected (e : exn) : Prop :=
  forall msg, e <> RequestException msg.

(** What a copy loop stores for a property it does not leave out: the
    encoded value. *)
Definition kept (E : Env) (skip : string -> bool) (k : string) (v : vprop)
  : option vprop :=
  if skip k then None
  else match encode E k v with
       | Return v' => Some v'
       | Raise _ => None
       end.

(** A property whose [add] raises: a non-empty list under RDATE or
    EXDATE. *)
Definition list_of_dates (k : string) (v : vprop) : bool :=
  match v with
  | vList (_ :: _) =>
      bool_decide (lower k = "rdate") || bool_decide (lower k = "exdate")
  | _ => false
  end.

(** A property that [add] stores as it is: no list under RDATE,
    EXDATE or CATEGORIES. *)
Definition plain_value (k : string) (v : vprop) : bool :=
  match v with
  | vList _ =>
      negb (bool_decide (lower k = "rdate") || bool_decide (lower k = "exdate")
            || bool_decide (lower k = "categories"))
  | _ => true
  end.

(** An event that is written: both times are [datetime] values, the
    conversions stay within the years 1..9999, and no other property
    holds a non-empty list under RDATE or EXDATE. *)
Definition writable (E : Env) (c : Component) : Prop :=
  exists s e,
    get "DTSTART" c = Some (vDDDTypes (DDatetime s)) /\
    get "DTEND" c = Some (vDDDTypes (DDatetime e)) /\
    convertible (local_zone E) (tz E) s e /\
    forall k v, get k c = Some v -> k <> "DTSTART" -> k <> "DTEND" ->
      list_of_dates k v = false.

(** ** Example data *)

(** An aware value with a fixed offset, as the feed gives
    [2024-01-10T08:45:00+01:00]. *)
Definition local_datetime (y mo d h mi s : Z) (off : timedelta) : datetime :=
  mk_datetime (ymd2ord y mo d) h mi s 0 (Some off).

Definition event_with (uid : string) (dtstart dtend : datetime) : Component :=
  mkComponent "VEVENT"
    (<["UID" := vText uid]>
       (<["SUMMARY" := vText "Shift"]>
          (<["DTSTART" := vDDDTypes (DDatetime dtstart)]>
             (<["DTEND" := vDDDTypes (DDatetime dtend)]> ∅))))
    [].

(** The scenarios of the specification. *)
Definition event_E1 : Component :=
  event_with "E1" (local_datetime 2024 1 10 8 45 0 (hours 1))
    (local_datetime 2024 1 10 9 30 0 (hours 1)).

Definition event_E2 : Component :=
  event_with "E2" (local_datetime 2024 1 10 13 45 0 (hours 1))
    (local_datetime 2024 1 10 14 30 0 (hours 1)).

Definition event_E3 : Component :=
  mkComponent "VEVENT"
    (<["UID" := vText "E3"]>
       (<["DTSTART" :=
            vDDDTypes (DDatetime (local_datetime 2024 1 10 8 45 0 (hours 1)))]>
          ∅))
    [].

(** A meeting outside the two windows. *)
Definition event_E4 : Component :=
  event_with "E4" (local_datetime 2024 1 10 10 0 0 (hours 1))
    (local_datetime 2024 1 10 11 0 0 (hours 1)).

(** An all-day event: [DTSTART;VALUE=DATE:20240110]. *)
Definition event_allday : Component :=
  mkComponent "VEVENT"
    (<["UID" := vText "E5"]>
       (<["DTSTART" := vDDDTypes (DDate (ymd2ord 2024 1 10))]>
          (<["DTEND" := vDDDTypes (DDate (ymd2ord 2024 1 11))]> ∅)))
    [].

(** Events that start in a window on Saturday 2024-03-30 and end at
    01:30 CET on Sunday 2024-03-31, the day summer time begins. *)
Definition event_night_morning : Component :=
  event_with "N1" (utc_datetime 2024 3 30 7 45 0)
    (utc_datetime 2024 3 31 0 30 0).

Definition event_night_afternoon : Component :=
  event_with "N2" (utc_datetime 2024 3 30 12 45 0)
    (utc_datetime 2024 3 31 0 30 0).


(** The meeting with two CATEGORIES lines, and with two EXDATE lines:
    the parser stores the values of such a property as a list. *)
Definition two_categories : vprop :=
  vList [vCategory ["work"]; vCategory ["roster"]].

Definition two_exdates : vprop :=
  vList [vDDDLists [DDatetime (utc_datetime 2024 1 17 9 0 0)];
         vDDDLists [DDatetime (utc_datetime 2024 1 24 9 0 0)]].

Definition event_two_categories : Component :=
  mkComponent "VEVENT"
    (<["CATEGORIES" := two_categories]> (comp_props event_E4)) [].

Definition event_two_exdates : Component :=
  mkComponent "VEVENT"
    (<["EXDATE" := two_exdates]> (comp_props event_E4)) [].

Definition example_calendar (events : list Component) : Component :=
  mkComponent "VCALENDAR"
    (<["VERSION" := vText "2.0"]> (<["PRODID" := vText "-//roster//"]> ∅))
    events.

(** A calendar with two CATEGORIES lines of its own. *)
Definition calendar_two_categories : Component :=
  mkComponent "VCALENDAR"
    (<["VERSION" := vText "2.0"]> (<["CATEGORIES" := two_categories]> ∅))
    [event_E4].

(** An environment in which the feed is served as [resp] and parses to
    [cal]. *)
Definition example_env (resp : string + Response) (cal : Component) : Env :=
  {| URL := Some "https://example.org/shifts.ics";
     network := fun _ _ => resp;
     from_ical := fun _ => inr cal;
     to_ical := fun _ => [];
     tz := Europe_Amsterdam;
     local_zone := system_utc;
     repr := fun _ => "<value>" |}.

Definition ok_response : Response :=
  {| status_code := 200; reason := "OK";
     url := "https://example.org/shifts.ics"; text := [] |}.


Definition empty_world : world := mk_world [] ∅ ∅.

(** ** What the loop writes, event by event *)

(** The value under a key when it is a [datetime]. *)
Definition as_datetime (o : option vprop) : option datetime :=
  match o with
  | Some (vDDDTypes (DDatetime dt)) => Some dt
  | _ => None
  end.

(** The start and the end of an event that has both as [datetime]
    values. *)
Definition event_times (c : Component) : option (datetime * datetime) :=
  match as_datetime (get "DTSTART" c), as_datetime (get "DTEND" c) with
  | Some s, Some e => Some (s, e)
  | _, _ => None
  end.

(** The event lines 53-75 build for such an event, when they raise
    nothing. *)
Definition shifted_event (E : Env) (c : Component) : option Component :=
  match event_times c with
  | Some (s, e) =>
      match (r ← shift_times (local_zone E) (tz E) s e ;
             rebuild_event E c (new_start_utc r) (new_end_utc r)) with
      | Return out => Some out
      | Raise _ => None
      end
  | None => None
  end.

(** The line lines 46 and 78 print for an event, with the readings of
    its times in the zone. *)
Definition event_line (E : Env) (c : Component) : string :=
  match event_times c with
  | Some (s, e) =>
      let r := shift_readings (local_zone E) (tz E) s e in
      adjusted_message E c (sh_start_local r) (sh_end_local r)
  | None => skip_message E c
  end.

(** By how much the rules move the start of an event, from the reading
    of its converted start. *)
Definition start_delta (start_local : datetime) : timedelta :=
  if (hour start_local =? 8) && (minute start_local =? 45) then minutes 15
  else if (hour start_local =? 13) && (minute start_local =? 45)
  then - minutes 45
  else 0.

(** By how much they move its end, from the readings of its converted
    start and end: to 13:00 or 17:00 of the local day of the end. *)
Definition end_delta (start_local end_local : datetime) : timedelta :=
  if (hour start_local =? 8) && (minute start_local =? 45)
  then hours (13 - hour end_local) - minutes (minute end_local)
  else if (hour start_local =? 13) && (minute start_local =? 45)
  then hours (17 - hour end_local) - minutes (minute end_local)
  else 0.

(** The line a handler prints for an exception. *)
Definition error_line (e : exn) : string :=
  match e with
  | RequestException _ => "Error fetching the iCal file: " +:+ exn_str e
  | _ => "An unexpected error occurred: " +:+ exn_str e
  end.

(** A later world in which nothing was removed, nothing but the two
    output files was written, no directory but [docs] was made, and
    the standard output was only added to. *)
Definition touches_only_output (w w' : world) : Prop :=
  dirs w ⊆ dirs w' /\ dirs w' ⊆ {["docs"]} ∪ dirs w /\
  (forall p, p <> output_file_path -> p <> nojekyll_path ->
     files w' !! p = files w !! p) /\
  (forall p, is_Some (files w !! p) -> is_Some (files w' !! p)) /\
  exists lines, stdout w' = stdout w ++ lines.

(** A line without line boundary, non-breaking space, or whitespace
    at either end: what the sanitizer leaves of a line. *)
Definition clean_line (line : str) : Prop :=
  Forall (fun c => is_linebreak c = false) line /\
  Forall (fun c => c <> NBSP) line /\
  ~ starts_with_space line /\ ~ ends_with_space line.

(** The same as a test. *)
Definition head_is_space (s : str) : bool :=
  match s with c :: _ => is_space c | [] => false end.

Definition clean_lineb (line : str) : bool :=
  forallb (fun c => negb (is_linebreak c) && negb (c =? NBSP)) line &&
  negb (head_is_space line) && negb (head_is_space (rev line)).

(** More example data: a feed that does not parse, a [docs] that is a
    regular file, a marker path that is a directory. *)
Definition broken_feed_env : Env :=
  {| URL := Some "https://example.org/shifts.ics";
     network := fun _ _ => inr ok_response;
     from_ical := fun _ => inl "Content line could not be parsed into parts";
     to_ical := fun _ => [];
     tz := Europe_Amsterdam;
     local_zone := system_utc;
     repr := fun _ => "<value>" |}.

Definition world_docs_file : world :=
  mk_world [] ∅ (<["docs" := []]> ∅).

Definition world_marker_dir : world :=
  mk_world [] ({[nojekyll_path]} ∪ {["docs"]}) ∅.

(** A calendar with a time zone definition and an event that has an
    alarm. *)
Definition event_with_alarm : Component :=
  mkComponent "VEVENT" (comp_props event_E1) [mkComponent "VALARM" ∅ []].

Definition calendar_with_timezone : Component :=
  mkComponent "VCALENDAR" (<["VERSION" := vText "2.0"]> ∅)
    [mkComponent "VTIMEZONE" ∅ []; event_with_alarm; event_E4].

(** A computation every run of which leaves the world as
    [touches_only_output] says. *)
Definition keeps_world {A} (m : M A) : Prop :=
  forall w, touches_only_output w (snd (m w)).

(** * Properties *)

Lemma US_PER_DAY_eq : US_PER_DAY = 86400000000.
Proof. reflexivity. Qed.

Lemma US_PER_HOUR_eq : US_PER_HOUR = 3600000000.
Proof. reflexivity. Qed.

Lemma US_PER_MINUTE_eq : US_PER_MINUTE = 60000000.
Proof. reflexivity. Qed.

Ltac unfold_units :=
  rewrite ?US_PER_DAY_eq, ?US_PER_HOUR_eq, ?US_PER_MINUTE_eq in *;
  unfold US_PER_SECOND in *.

Lemma wall_us_from_wall_us n tz : wall_us (from_wall_us n tz) = n.
Proof.
  unfold wall_us, from_wall_us; simpl. unfold_units.
  pose proof (Z.div_mod n 86400000000 ltac:(lia)) as Hd.
  set (r := n mod 86400000000) in *.
  pose proof (Z.div_mod r 1000000 ltac:(lia)) as Hs.
  set (s := r / 1000000) in *.
  pose proof (Z.div_mod s 3600 ltac:(lia)) as Hh.
  pose proof (Z.div_mod (s mod 3600) 60 ltac:(lia)) as Hm.
  rewrite Z.mod_mod_divide in Hm by (exists 60; lia).
  lia.
Qed.

(** ** Arithmetic of [datetime] *)

Lemma valid_from_wall_us n tz : valid_datetime (from_wall_us n tz).
Proof.
  unfold valid_datetime, from_wall_us; simpl. unfold_units.
  pose proof (Z.mod_pos_bound n 86400000000 ltac:(lia)) as Hr.
  set (r := n mod 86400000000) in *.
  assert (0 <= r / 1000000 < 86400) as Hs.
  { split; [apply Z.div_pos; lia | apply Z.div_lt_upper_bound; lia]. }
  set (s := r / 1000000) in *.
  pose proof (Z.mod_pos_bound s 3600 ltac:(lia)).
  pose proof (Z.mod_pos_bound s 60 ltac:(lia)).
  pose proof (Z.mod_pos_bound r 1000000 ltac:(lia)).
  repeat split; try lia.
  - apply Z.div_pos; lia.
  - apply Z.div_lt_upper_bound; lia.
  - apply Z.div_pos; lia.
  - apply Z.div_lt_upper_bound; lia.
Qed.

Lemma from_wall_us_wall_us dt :
  valid_datetime dt -> from_wall_us (wall_us dt) (tzinfo dt) = dt.
Proof.
  destruct dt as [d h m s u tz]. unfold valid_datetime; simpl.
  intros (Hh & Hm & Hs & Hu). unfold_units.
  unfold wall_us, from_wall_us; simpl. unfold_units.
  set (q := h * 3600 + m * 60 + s).
  assert (0 <= q < 86400) as Hq by (unfold q; lia).
  replace (d * 86400000000 + h * 3600000000 + m * 60000000 + s * 1000000 + u)
    with ((u + q * 1000000) + d * 86400000000) by (unfold q; lia).
  rewrite Z.div_add, Z.mod_add by lia.
  rewrite (Z.div_small (u + q * 1000000)), (Z.mod_small (u + q * 1000000))
    by lia.
  rewrite Z.div_add, Z.mod_add by lia.
  rewrite (Z.div_small u), (Z.mod_small u) by lia.
  rewrite !Z.add_0_l.
  assert (q / 3600 = h) as ->.
  { symmetry. apply (Z.div_unique q 3600 h (m * 60 + s)); unfold q; lia. }
  assert (q mod 3600 = m * 60 + s) as ->.
  { symmetry. apply (Z.mod_unique q 3600 h (m * 60 + s)); unfold q; lia. }
  assert ((m * 60 + s) / 60 = m) as ->.
  { symmetry. apply (Z.div_unique (m * 60 + s) 60 m s); lia. }
  assert (q mod 60 = s) as ->.
  { symmetry. apply (Z.mod_unique q 60 (h * 60 + m) s); unfold q; lia. }
  reflexivity.
Qed.

Lemma wall_us_replace_hm dt h m :
  wall_us (replace_hm dt h m) =
  wall_us dt + (h - hour dt) * US_PER_HOUR + (m - minute dt) * US_PER_MINUTE.
Proof. unfold wall_us, replace_hm; simpl. lia. Qed.

Lemma valid_replace_hm dt h m :
  valid_datetime dt -> 0 <= h < 24 -> 0 <= m < 60 ->
  valid_datetime (replace_hm dt h m).
Proof. unfold valid_datetime, replace_hm; simpl. tauto. Qed.

Lemma wall_us_replace_tzinfo dt tz : wall_us (replace_tzinfo dt tz) = wall_us dt.
Proof. reflexivity. Qed.

Lemma replace_tzinfo_from_wall_us n a b :
  replace_tzinfo (from_wall_us n a) b = from_wall_us n b.
Proof. reflexivity. Qed.

Lemma timestamp_from_wall_us lz n off :
  timestamp lz (from_wall_us n (Some off)) = n - off.
Proof. unfold timestamp, utcoffset. rewrite wall_us_from_wall_us. reflexivity. Qed.

Lemma timestamp_zone_reading lz tz dt :
  timestamp lz (zone_reading lz tz dt) = timestamp lz dt.
Proof. unfold zone_reading. rewrite timestamp_from_wall_us. lia. Qed.

Lemma timestamp_utc_reading lz dt :
  timestamp lz (utc_reading lz dt) = timestamp lz dt.
Proof. unfold utc_reading. rewrite timestamp_from_wall_us. lia. Qed.

Lemma valid_zone_reading lz tz dt : valid_datetime (zone_reading lz tz dt).
Proof. apply valid_from_wall_us. Qed.

Lemma tzinfo_zone_reading lz tz dt :
  tzinfo (zone_reading lz tz dt) = Some (zone_offset tz (timestamp lz dt)).
Proof. reflexivity. Qed.

Lemma wall_us_zone_reading lz tz dt :
  wall_us (zone_reading lz tz dt) =
  timestamp lz dt + zone_offset tz (timestamp lz dt).
Proof. apply wall_us_from_wall_us. Qed.

Lemma timestamp_replace_hm lz dt off h m :
  tzinfo dt = Some off ->
  timestamp lz (replace_hm dt h m) =
  timestamp lz dt + (h - hour dt) * US_PER_HOUR + (m - minute dt) * US_PER_MINUTE.
Proof.
  intros Htz. unfold timestamp, utcoffset. rewrite wall_us_replace_hm.
  simpl. rewrite Htz. lia.
Qed.

(** Read in UTC and then in the zone again, an aware local value is
    the value itself when the zone still has the offset the value
    carries. *)
Lemma relocalize lz tz dt off :
  valid_datetime dt -> tzinfo dt = Some off ->
  zone_offset tz (timestamp lz dt) = off ->
  zone_reading lz tz (utc_reading lz dt) = dt.
Proof.
  intros Hv Htz Hoff. unfold zone_reading.
  rewrite timestamp_utc_reading, Hoff.
  unfold timestamp, utcoffset. rewrite Htz.
  replace (wall_us dt - off + off) with (wall_us dt) by lia.
  rewrite <- Htz. apply from_wall_us_wall_us, Hv.
Qed.

(** A value that is already in UTC is not changed by a reading in the
    zone and back. *)
Lemma utc_round_trip lz tz n :
  utc_reading lz (zone_reading lz tz (from_wall_us n (Some 0))) =
  from_wall_us n (Some 0).
Proof.
  unfold utc_reading.
  rewrite timestamp_zone_reading, timestamp_from_wall_us.
  f_equal. lia.
Qed.

(** ** The conversions and the years 1..9999 *)

Lemma representable_days n :
  representable n <-> 0 < n / US_PER_DAY <= MAXORDINAL.
Proof.
  unfold representable, MAXORDINAL. unfold_units.
  pose proof (Z.div_mod n 86400000000 ltac:(lia)) as Hd.
  pose proof (Z.mod_pos_bound n 86400000000 ltac:(lia)) as Hm.
  lia.
Qed.

Lemma dt_add_cases dt delta :
  (representable (wall_us dt + delta) /\
   dt_add dt delta = Return (from_wall_us (wall_us dt + delta) (tzinfo dt))) \/
  (~ representable (wall_us dt + delta) /\
   dt_add dt delta = Raise out_of_range).
Proof.
  unfold dt_add. cbn [toordinal from_wall_us].
  rewrite representable_days.
  destruct (0 <? _) eqn:E1, (_ <=? MAXORDINAL) eqn:E2; cbn [andb];
    [left|right..]; (split; [lia|reflexivity]).
Qed.

Lemma sub_utcoffset lz dt :
  wall_us dt + - utcoffset lz dt = timestamp lz dt.
Proof. unfold timestamp. lia. Qed.

Lemma pytz_fromutc_cases tz n tzi :
  (representable (n + zone_offset tz n) /\
   pytz_fromutc tz (from_wall_us n tzi) =
   Return (from_wall_us (n + zone_offset tz n) (Some (zone_offset tz n)))) \/
  (~ representable (n + zone_offset tz n) /\
   pytz_fromutc tz (from_wall_us n tzi) = Raise out_of_range).
Proof.
  unfold pytz_fromutc. rewrite wall_us_from_wall_us.
  destruct (dt_add_cases (from_wall_us n tzi) (zone_offset tz n))
    as [[R H]|[R H]]; rewrite wall_us_from_wall_us in R;
    rewrite ?wall_us_from_wall_us in H; rewrite H;
    cbn [mbind outcome_bind]; [left|right]; (split; [exact R|]);
    [|reflexivity].
  rewrite replace_tzinfo_from_wall_us. reflexivity.
Qed.

Lemma astimezone_cases lz tz dt :
  (representable (timestamp lz dt) /\
   representable (timestamp lz dt + zone_offset tz (timestamp lz dt)) /\
   astimezone lz tz dt = Return (zone_reading lz tz dt)) \/
  (~ (representable (timestamp lz dt) /\
      representable (timestamp lz dt + zone_offset tz (timestamp lz dt))) /\
   astimezone lz tz dt = Raise out_of_range).
Proof.
  unfold astimezone, zone_reading.
  destruct (dt_add_cases dt (- utcoffset lz dt)) as [[R1 H]|[R1 H]];
    rewrite sub_utcoffset in R1; rewrite ?sub_utcoffset in H; rewrite H;
    cbn [mbind outcome_bind];
    [|right; split; [tauto|reflexivity]].
  destruct (pytz_fromutc_cases tz (timestamp lz dt) (tzinfo dt))
    as [[R2 H2]|[R2 H2]]; rewrite H2; [left|right]; tauto.
Qed.

Lemma astimezone_utc_cases lz dt :
  (representable (timestamp lz dt) /\
   astimezone_utc lz dt = Return (utc_reading lz dt)) \/
  (~ representable (timestamp lz dt) /\
   astimezone_utc lz dt = Raise out_of_range).
Proof.
  unfold astimezone_utc, utc_reading.
  destruct (dt_add_cases dt (- utcoffset lz dt)) as [[R1 H]|[R1 H]];
    rewrite sub_utcoffset in R1; rewrite ?sub_utcoffset in H; rewrite H;
    cbn [mbind outcome_bind];
    [|right; split; [exact R1|reflexivity]].
  rewrite replace_tzinfo_from_wall_us.
  destruct (dt_add_cases (from_wall_us (timestamp lz dt) (Some 0)) 0)
    as [[R2 H2]|[R2 H2]];
    rewrite wall_us_from_wall_us, Z.add_0_r in R2;
    rewrite ?wall_us_from_wall_us, ?Z.add_0_r in H2; [|contradiction].
  left. split; [exact R1|exact H2].
Qed.

Lemma astimezone_Return lz tz dt x :
  astimezone lz tz dt = Return x ->
  x = zone_reading lz tz dt /\
  representable (timestamp lz dt) /\
  representable (timestamp lz dt + zone_offset tz (timestamp lz dt)).
Proof.
  destruct (astimezone_cases lz tz dt) as [(R1 & R2 & ->)|[_ ->]];
    [|discriminate].
  intros [= <-]. auto.
Qed.

Lemma astimezone_utc_Return lz dt x :
  astimezone_utc lz dt = Return x ->
  x = utc_reading lz dt /\ representable (timestamp lz dt).
Proof.
  destruct (astimezone_utc_cases lz dt) as [(R1 & ->)|[_ ->]]; [|discriminate].
  intros [= <-]. auto.
Qed.

(** ** The shift rules *)

Lemma adjust_shift_morning sl el :
  is_0845 sl -> adjust_shift sl el = (replace_hm sl 9 0, replace_hm el 13 0).
Proof. intros [Hh Hm]. unfold adjust_shift. rewrite Hh, Hm. reflexivity. Qed.

Lemma adjust_shift_afternoon sl el :
  is_1345 sl -> adjust_shift sl el = (replace_hm sl 13 0, replace_hm el 17 0).
Proof. intros [Hh Hm]. unfold adjust_shift. rewrite Hh, Hm. reflexivity. Qed.

Lemma adjust_shift_other sl el :
  ~ is_0845 sl -> ~ is_1345 sl -> adjust_shift sl el = (sl, el).
Proof.
  unfold is_0845, is_1345, adjust_shift. intros H1 H2.
  destruct (hour sl =? 8) eqn:E1, (minute sl =? 45) eqn:E2,
    (hour sl =? 13) eqn:E3; simpl; try reflexivity; exfalso; lia.
Qed.

(** Exactly one of the three branches applies, and which one depends
    on the hour and the minute of the local start only. *)
Lemma adjust_shift_cases sl el :
  (is_0845 sl /\ adjust_shift sl el = (replace_hm sl 9 0, replace_hm el 13 0)) \/
  (~ is_0845 sl /\ is_1345 sl /\
   adjust_shift sl el = (replace_hm sl 13 0, replace_hm el 17 0)) \/
  (~ is_0845 sl /\ ~ is_1345 sl /\ adjust_shift sl el = (sl, el)).
Proof.
  destruct (decide (hour sl = 8 /\ minute sl = 45)) as [H1|H1].
  - left. split; [exact H1 | apply adjust_shift_morning, H1].
  - destruct (decide (hour sl = 13 /\ minute sl = 45)) as [H2|H2].
    + right; left. repeat split; try apply H2; try exact H1.
      apply adjust_shift_afternoon, H2.
    + right; right. repeat split; try assumption.
      apply adjust_shift_other; assumption.
Qed.

Lemma shift_readings_other lz tz s e :
  ~ is_0845 (zone_reading lz tz s) -> ~ is_1345 (zone_reading lz tz s) ->
  shift_readings lz tz s e =
  {| sh_start_local := zone_reading lz tz s;
     sh_end_local := zone_reading lz tz e;
     new_start_utc := utc_reading lz (zone_reading lz tz s);
     new_end_utc := utc_reading lz (zone_reading lz tz e) |}.
Proof.
  intros H1 H2. unfold shift_readings.
  rewrite (adjust_shift_other _ _ H1 H2). reflexivity.
Qed.

Lemma shift_readings_morning lz tz s e :
  is_0845 (zone_reading lz tz s) ->
  shift_readings lz tz s e =
  {| sh_start_local := replace_hm (zone_reading lz tz s) 9 0;
     sh_end_local := replace_hm (zone_reading lz tz e) 13 0;
     new_start_utc := utc_reading lz (replace_hm (zone_reading lz tz s) 9 0);
     new_end_utc := utc_reading lz (replace_hm (zone_reading lz tz e) 13 0) |}.
Proof.
  intros H1. unfold shift_readings.
  rewrite (adjust_shift_morning _ _ H1). reflexivity.
Qed.

Lemma shift_readings_afternoon lz tz s e :
  is_1345 (zone_reading lz tz s) ->
  shift_readings lz tz s e =
  {| sh_start_local := replace_hm (zone_reading lz tz s) 13 0;
     sh_end_local := replace_hm (zone_reading lz tz e) 17 0;
     new_start_utc := utc_reading lz (replace_hm (zone_reading lz tz s) 13 0);
     new_end_utc := utc_reading lz (replace_hm (zone_reading lz tz e) 17 0) |}.
Proof.
  intros H1. unfold shift_readings.
  rewrite (adjust_shift_afternoon _ _ H1). reflexivity.
Qed.

Lemma shift_readings_utc lz tz s e :
  new_start_utc (shift_readings lz tz s e) =
    utc_reading lz (sh_start_local (shift_readings lz tz s e)) /\
  new_end_utc (shift_readings lz tz s e) =
    utc_reading lz (sh_end_local (shift_readings lz tz s e)).
Proof.
  unfold shift_readings. destruct (adjust_shift _ _) as [sl el].
  split; reflexivity.
Qed.

(** Lines 53-67 either raise the [OverflowError], or return the
    readings; they return exactly when every conversion stays within
    the days of [datetime]. *)
Lemma shift_times_cases lz tz s e :
  (convertible lz tz s e /\
   shift_times lz tz s e = Return (shift_readings lz tz s e)) \/
  (~ convertible lz tz s e /\ shift_times lz tz s e = Raise out_of_range).
Proof.
  unfold convertible, shift_times, shift_readings.
  destruct (astimezone_cases lz tz s) as [(R1 & R2 & ->)|[R1 ->]];
    cbn [mbind outcome_bind]; [|right; split; [tauto|reflexivity]].
  destruct (astimezone_cases lz tz e) as [(R3 & R4 & ->)|[R3 ->]];
    cbn [mbind outcome_bind]; [|right; split; [tauto|reflexivity]].
  destruct (adjust_shift (zone_reading lz tz s) (zone_reading lz tz e))
    as [sl el].
  cbn [sh_start_local sh_end_local].
  destruct (astimezone_utc_cases lz sl) as [(R5 & ->)|[R5 ->]];
    cbn [mbind outcome_bind]; [|right; split; [tauto|reflexivity]].
  destruct (astimezone_utc_cases lz el) as [(R6 & ->)|[R6 ->]];
    cbn [mbind outcome_bind]; [|right; split; [tauto|reflexivity]].
  left. split; [tauto|reflexivity].
Qed.

Lemma shift_times_Return lz tz s e r :
  shift_times lz tz s e = Return r ->
  r = shift_readings lz tz s e /\ convertible lz tz s e.
Proof.
  destruct (shift_times_cases lz tz s e) as [[Hc ->]|[_ ->]]; [|discriminate].
  intros [= <-]. auto.
Qed.

Lemma shift_times_Raise lz tz s e x :
  shift_times lz tz s e = Raise x -> x = out_of_range.
Proof.
  destruct (shift_times_cases lz tz s e) as [[_ ->]|[_ ->]]; [discriminate|].
  intros [= <-]. reflexivity.
Qed.

Lemma convertible_start lz tz s e :
  convertible lz tz s e ->
  astimezone lz tz s = Return (zone_reading lz tz s) /\
  astimezone lz tz e = Return (zone_reading lz tz e).
Proof.
  intros (R1 & R2 & R3 & R4 & _).
  destruct (astimezone_cases lz tz s) as [(_ & _ & Hs)|[N _]]; [|tauto].
  destruct (astimezone_cases lz tz e) as [(_ & _ & He)|[N _]]; [|tauto].
  auto.
Qed.

Example scenario_E1 :
  exists r,
    shift_times system_utc Europe_Amsterdam
      (utc_datetime 2024 1 10 7 45 0) (utc_datetime 2024 1 10 8 30 0) =
      Return r /\
    new_start_utc r = utc_datetime 2024 1 10 8 0 0 /\
    new_end_utc r = utc_datetime 2024 1 10 12 0 0.
Proof. eexists. vm_compute. repeat split; reflexivity. Qed.

(** The instants of a rewritten pair: the start moves by a quarter of
    an hour forward (morning) or by three quarters back (afternoon);
    the end moves to the target reading of its own local day, at the
    offset the converted end carries. *)
Lemma morning_instants lz tz s e :
  is_0845 (zone_reading lz tz s) ->
  timestamp lz (new_start_utc (shift_readings lz tz s e)) =
    timestamp lz s + minutes 15 /\
  timestamp lz (new_end_utc (shift_readings lz tz s e)) =
    timestamp lz e + (13 - hour (zone_reading lz tz e)) * US_PER_HOUR
      - minute (zone_reading lz tz e) * US_PER_MINUTE.
Proof.
  intros H. rewrite (shift_readings_morning _ _ _ _ H).
  cbn [new_start_utc new_end_utc].
  rewrite !timestamp_utc_reading.
  rewrite !(timestamp_replace_hm _ _ _ _ _ (tzinfo_zone_reading _ _ _)).
  rewrite !timestamp_zone_reading. destruct H as [-> ->].
  unfold minutes. unfold_units. lia.
Qed.

Lemma afternoon_instants lz tz s e :
  is_1345 (zone_reading lz tz s) ->
  timestamp lz (new_start_utc (shift_readings lz tz s e)) =
    timestamp lz s - minutes 45 /\
  timestamp lz (new_end_utc (shift_readings lz tz s e)) =
    timestamp lz e + (17 - hour (zone_reading lz tz e)) * US_PER_HOUR
      - minute (zone_reading lz tz e) * US_PER_MINUTE.
Proof.
  intros H. rewrite (shift_readings_afternoon _ _ _ _ H).
  cbn [new_start_utc new_end_utc].
  rewrite !timestamp_utc_reading.
  rewrite !(timestamp_replace_hm _ _ _ _ _ (tzinfo_zone_reading _ _ _)).
  rewrite !timestamp_zone_reading. destruct H as [-> ->].
  unfold minutes. unfold_units. lia.
Qed.

(** Seen again in the zone, a rewritten value reads as it was written
    whenever the zone has, at the new instant, the offset it had at the
    old one. *)
Lemma rewritten_local lz tz dt h m :
  0 <= h < 24 -> 0 <= m < 60 ->
  zone_offset tz (timestamp lz (replace_hm (zone_reading lz tz dt) h m)) =
    zone_offset tz (timestamp lz dt) ->
  zone_reading lz tz (utc_reading lz (replace_hm (zone_reading lz tz dt) h m)) =
  replace_hm (zone_reading lz tz dt) h m.
Proof.
  intros Hh Hm Hoff.
  apply (relocalize _ _ _ (zone_offset tz (timestamp lz dt))).
  - apply valid_replace_hm; [apply valid_zone_reading | assumption..].
  - reflexivity.
  - exact Hoff.
Qed.

(** ** Components *)

(** What [add] does to a value that is already of a property type:
    it raises on a non-empty list under RDATE or EXDATE and on nothing
    else, it keeps a value that is no list under one of the three
    names, and what it has stored once it stores again unchanged. *)
Lemma encode_cases E k v :
  (list_of_dates k v = true /\ encode E k v = Raise not_a_date) \/
  (list_of_dates k v = false /\
   exists v', encode E k v = Return v' /\
     list_of_dates k v' = false /\ encode E k v' = Return v' /\
     (plain_value k v = true -> v' = v)).
Proof.
  destruct v as [s|d|dts|cats|l]; try (right; split; [reflexivity|]; eauto).
  unfold encode, list_of_dates, plain_value.
  destruct (bool_decide (lower k = "rdate") || bool_decide (lower k = "exdate"))
    eqn:Hd.
  - destruct l as [|x l].
    + right. split; [reflexivity|]. eexists. repeat split. discriminate.
    + left. split; reflexivity.
  - cbn [orb negb]. destruct (bool_decide (lower k = "categories")) eqn:Hc.
    + right. split; [destruct l; reflexivity|]. eexists.
      repeat split. discriminate.
    + right. split; [destruct l; reflexivity|]. exists (vList l).
      split; [reflexivity|].
      split; [destruct l; reflexivity|]. split; reflexivity.
Qed.

Lemma encode_plain E k v :
  plain_value k v = true -> encode E k v = Return v.
Proof.
  intros Hp. destruct (encode_cases E k v) as [[Hl _]|[_ (v' & He & _ & _ & Hv)]].
  - destruct v as [| | | |[|x l]]; try discriminate.
    unfold list_of_dates in Hl. unfold plain_value in Hp.
    rewrite Hl in Hp. discriminate.
  - rewrite He, (Hv Hp). reflexivity.
Qed.

Lemma kept_skip E skip k (o : option vprop) :
  skip k = true -> o ≫= kept E skip k = None.
Proof. intros H. destruct o; simpl; [|reflexivity]. unfold kept. rewrite H. reflexivity. Qed.

(** The copy loops: they return when no property that is not left out
    holds a non-empty list under RDATE or EXDATE, and raise otherwise;
    what they return has, into a target without properties, the
    encoded value of each property that is not left out. *)
Lemma add_items_spec E skip source target :
  comp_props target = ∅ ->
  match add_items E skip source target with
  | Return r =>
      comp_name r = comp_name target /\
      subcomponents r = subcomponents target /\
      (forall k, comp_props r !! k = comp_props source !! k ≫= kept E skip k) /\
      (forall k v, comp_props source !! k = Some v -> skip k = false ->
         list_of_dates k v = false)
  | Raise x =>
      x = not_a_date /\
      exists k v, comp_props source !! k = Some v /\ skip k = false /\
        list_of_dates k v = true
  end.
Proof.
  intros Ht. unfold add_items.
  apply (map_fold_weak_ind
    (fun (r : outcome Component) (m : gmap string vprop) =>
       match r with
       | Return r =>
           comp_name r = comp_name target /\
           subcomponents r = subcomponents target /\
           (forall k, comp_props r !! k = m !! k ≫= kept E skip k) /\
           (forall k v, m !! k = Some v -> skip k = false ->
              list_of_dates k v = false)
       | Raise x =>
           x = not_a_date /\
           exists k v, m !! k = Some v /\ skip k = false /\
             list_of_dates k v = true
       end)).
  - repeat split.
    + intros k. rewrite Ht, !lookup_empty. reflexivity.
    + intros k v H. rewrite lookup_empty in H. discriminate.
  - intros i x m r Hi IH. destruct r as [r|e]; cbn [mbind outcome_bind].
    + destruct IH as (Hn & Hs & Hk & Hok).
      assert (comp_props r !! i = None) as Hri by (rewrite Hk, Hi; reflexivity).
      destruct (skip i) eqn:Hsk.
      * repeat split; try assumption.
        -- intros k. destruct (decide (i = k)) as [<-|Hne].
           ++ rewrite lookup_insert_eq, Hri. symmetry.
              apply kept_skip, Hsk.
           ++ rewrite lookup_insert_ne by assumption. apply Hk.
        -- intros k v Hkv Hskk. destruct (decide (i = k)) as [<-|Hne];
             [congruence|].
           rewrite lookup_insert_ne in Hkv by assumption. eauto.
      * unfold add.
        destruct (encode_cases E i x) as [[Hl He]|[Hl (v' & He & _)]];
          rewrite He; cbn [mbind outcome_bind].
        -- split; [reflexivity|]. exists i, x.
           rewrite lookup_insert_eq. auto.
        -- rewrite Hri. cbn [comp_name comp_props subcomponents].
           repeat split; try assumption.
           ++ intros k. destruct (decide (i = k)) as [<-|Hne].
              ** rewrite !lookup_insert_eq. simpl. unfold kept.
                 rewrite Hsk, He. reflexivity.
              ** rewrite !lookup_insert_ne by assumption. apply Hk.
           ++ intros k v Hkv Hskk. destruct (decide (i = k)) as [<-|Hne].
              ** rewrite lookup_insert_eq in Hkv. congruence.
              ** rewrite lookup_insert_ne in Hkv by assumption. eauto.
    + destruct IH as (-> & k & v & Hkv & Hsk & Hl). split; [reflexivity|].
      exists k, v. rewrite lookup_insert_ne by congruence. auto.
Qed.

Lemma is_time_key_spec k :
  is_time_key k = false <-> k <> "DTSTART" /\ k <> "DTEND".
Proof.
  unfold is_time_key. rewrite orb_false_iff, !bool_decide_eq_false. tauto.
Qed.

(** Lines 70-75 either raise in the copy of the other properties, or
    return an event without subcomponents that has the two new times
    and what the copy stored. *)
Lemma rebuild_event_cases E c a b :
  (exists ev,
     copy_properties E c = Return ev /\
     rebuild_event E c a b =
     Return (mkComponent "VEVENT"
               (<["DTEND" := vDDDTypes (DDatetime b)]>
                  (<["DTSTART" := vDDDTypes (DDatetime a)]> (comp_props ev)))
               [])) \/
  (copy_properties E c = Raise not_a_date /\
   rebuild_event E c a b = Raise not_a_date).
Proof.
  unfold rebuild_event.
  pose proof (add_items_spec E is_time_key c Event eq_refl) as H.
  fold (copy_properties E c) in H.
  destruct (copy_properties E c) as [ev|x]; cbn [mbind outcome_bind].
  - left. exists ev. split; [reflexivity|].
    destruct H as (Hn & Hs & Hk & _).
    unfold add_datetime, add. cbn [encode mbind outcome_bind].
    rewrite (Hk "DTSTART"), (kept_skip E is_time_key "DTSTART") by reflexivity.
    cbn [comp_props comp_name subcomponents].
    rewrite lookup_insert_ne by discriminate.
    rewrite (Hk "DTEND"), (kept_skip E is_time_key "DTEND") by reflexivity.
    rewrite Hn, Hs. reflexivity.
  - right. destruct H as [-> _]. split; reflexivity.
Qed.

Lemma copy_properties_Return E c ev :
  copy_properties E c = Return ev ->
  comp_name ev = "VEVENT" /\ subcomponents ev = [] /\
  (forall k, comp_props ev !! k = comp_props c !! k ≫= kept E is_time_key k) /\
  (forall k v, comp_props c !! k = Some v -> is_time_key k = false ->
     list_of_dates k v = false).
Proof.
  intros Hc.
  pose proof (add_items_spec E is_time_key c Event eq_refl) as H.
  fold (copy_properties E c) in H. rewrite Hc in H. exact H.
Qed.

Lemma copy_properties_Raise E c x :
  copy_properties E c = Raise x ->
  x = not_a_date /\
  exists k v, comp_props c !! k = Some v /\ is_time_key k = false /\
    list_of_dates k v = true.
Proof.
  intros Hc.
  pose proof (add_items_spec E is_time_key c Event eq_refl) as H.
  fold (copy_properties E c) in H. rewrite Hc in H. exact H.
Qed.

(** The copy returns when no other property holds a non-empty list
    under RDATE or EXDATE. *)
Lemma copy_properties_returns E c :
  (forall k v, comp_props c !! k = Some v -> is_time_key k = false ->
     list_of_dates k v = false) ->
  exists ev, copy_properties E c = Return ev.
Proof.
  intros Hok. destruct (copy_properties E c) as [ev|x] eqn:Hc; [eauto|].
  apply copy_properties_Raise in Hc as (_ & k & v & Hkv & Hsk & Hl).
  rewrite (Hok k v Hkv Hsk) in Hl. discriminate.
Qed.

Lemma rebuild_event_Return E c a b out :
  rebuild_event E c a b = Return out ->
  comp_name out = "VEVENT" /\ subcomponents out = [] /\
  get "DTSTART" out = Some (vDDDTypes (DDatetime a)) /\
  get "DTEND" out = Some (vDDDTypes (DDatetime b)) /\
  (forall k, k <> "DTSTART" -> k <> "DTEND" ->
     get k out = get k c ≫= kept E is_time_key k).
Proof.
  destruct (rebuild_event_cases E c a b) as [(ev & Hc & ->)|[_ ->]];
    [|discriminate].
  intros [= <-]. apply copy_properties_Return in Hc as (_ & _ & Hk & _).
  unfold get. cbn [comp_name subcomponents comp_props].
  split; [reflexivity|]. split; [reflexivity|]. split; [|split].
  - rewrite lookup_insert_ne by discriminate. apply lookup_insert_eq.
  - apply lookup_insert_eq.
  - intros k H1 H2. rewrite !lookup_insert_ne by congruence. apply Hk.
Qed.

Lemma rebuild_event_Raise E c a b x :
  rebuild_event E c a b = Raise x ->
  x = not_a_date /\
  exists k v, get k c = Some v /\ k <> "DTSTART" /\ k <> "DTEND" /\
    list_of_dates k v = true.
Proof.
  destruct (rebuild_event_cases E c a b) as [(ev & _ & ->)|[Hc ->]];
    [discriminate|].
  intros [= <-]. split; [reflexivity|].
  apply copy_properties_Raise in Hc as (_ & k & v & Hkv & Hsk & Hl).
  apply is_time_key_spec in Hsk as [H1 H2]. eauto 8.
Qed.

(** A property that is no list under RDATE, EXDATE or CATEGORIES is
    written as it is. *)
Lemma rebuild_event_plain E c a b out k v :
  rebuild_event E c a b = Return out ->
  k <> "DTSTART" -> k <> "DTEND" ->
  get k c = Some v -> plain_value k v = true ->
  get k out = Some v.
Proof.
  intros Hr H1 H2 Hk Hp.
  apply rebuild_event_Return in Hr as (_ & _ & _ & _ & Ho).
  rewrite (Ho k H1 H2), Hk. simpl. unfold kept.
  rewrite (proj2 (is_time_key_spec k)) by auto.
  rewrite (encode_plain E k v Hp). reflexivity.
Qed.

Lemma rebuild_event_absent E c a b out k :
  rebuild_event E c a b = Return out ->
  k <> "DTSTART" -> k <> "DTEND" ->
  get k c = None -> get k out = None.
Proof.
  intros Hr H1 H2 Hk.
  apply rebuild_event_Return in Hr as (_ & _ & _ & _ & Ho).
  rewrite (Ho k H1 H2), Hk. reflexivity.
Qed.

Lemma kept_stored E skip k (o : option vprop) v :
  o ≫= kept E skip k = Some v ->
  skip k = false /\ list_of_dates k v = false /\ encode E k v = Return v.
Proof.
  destruct o as [v0|]; [|discriminate]. simpl. unfold kept.
  destruct (skip k); [discriminate|].
  destruct (encode_cases E k v0) as [[_ He]|[_ (v' & He & Hl & Hs & _)]];
    rewrite He; [discriminate|].
  intros [= <-]. auto.
Qed.

Lemma kept_again E skip k (o : option vprop) :
  (o ≫= kept E skip k) ≫= kept E skip k = o ≫= kept E skip k.
Proof.
  destruct (o ≫= kept E skip k) as [v|] eqn:Hv; [|reflexivity].
  apply kept_stored in Hv as (Hsk & _ & He).
  simpl. unfold kept. rewrite Hsk, He. reflexivity.
Qed.

(** Rebuilt once more with the same times, a rebuilt event is not
    changed. *)
Lemma rebuild_event_again E c a b out :
  rebuild_event E c a b = Return out -> rebuild_event E out a b = Return out.
Proof.
  intros Hr.
  apply rebuild_event_Return in Hr as (Hn & Hs & Hst & Hen & Ho).
  destruct (rebuild_event_cases E out a b) as [(ev2 & Hc2 & ->)|[Hc2 _]].
  - apply copy_properties_Return in Hc2 as (_ & _ & Hk2 & _).
    destruct out as [n ps subs]. unfold get in *.
    cbn [comp_name subcomponents comp_props] in *. subst n subs.
    f_equal. f_equal. apply map_eq. intros k.
    destruct (decide (k = "DTEND")) as [->|H1];
      [rewrite lookup_insert_eq; symmetry; exact Hen|].
    rewrite lookup_insert_ne by congruence.
    destruct (decide (k = "DTSTART")) as [->|H2];
      [rewrite lookup_insert_eq; symmetry; exact Hst|].
    rewrite lookup_insert_ne by congruence.
    rewrite Hk2, (Ho k H2 H1). apply kept_again.
  - apply copy_properties_Raise in Hc2 as (_ & k & v & Hkv & Hsk & Hl).
    apply is_time_key_spec in Hsk as [H1 H2].
    pose proof (Ho k H1 H2) as Hk. unfold get in Hk. rewrite Hkv in Hk.
    symmetry in Hk. apply kept_stored in Hk as (_ & Hl' & _). congruence.
Qed.

(** ** One step of the loop *)

Lemma log_nil w : log w [] = w.
Proof. destruct w. unfold log; simpl. rewrite app_nil_r. reflexivity. Qed.

Lemma log_log w a b : log (log w a) b = log w (a ++ b).
Proof. unfold log; simpl. rewrite <- app_assoc. reflexivity. Qed.

Lemma decode_datetime v dt : decode v = DDatetime dt -> v = vDDDTypes (DDatetime dt).
Proof. destruct v; simpl; intros H; try discriminate. congruence. Qed.

Ltac run_monad := cbv [mbind M_bind bind ret mret M_ret print raise lift].

Lemma process_event_skipped E component new_cal w :
  skipped component ->
  process_event E component new_cal w =
  (Return new_cal, log w [skip_message E component]).
Proof.
  unfold skipped, process_event, contains, get.
  intros [H|H]; rewrite H;
    rewrite (bool_decide_eq_false_2 (is_Some None)) by apply is_Some_None;
    cbn [negb orb]; rewrite ?orb_true_r; reflexivity.
Qed.

(** The step for an event with both times given as [datetime] values:
    the conversions of lines 53-67, then the rebuilding of lines
    70-75, then the appending and the line of line 78.  An exception
    of the conversions or of the rebuilding leaves the step before
    anything is appended or printed. *)
Lemma process_event_timed E component new_cal w s e :
  get "DTSTART" component = Some (vDDDTypes (DDatetime s)) ->
  get "DTEND" component = Some (vDDDTypes (DDatetime e)) ->
  process_event E component new_cal w =
  match shift_times (local_zone E) (tz E) s e with
  | Return r =>
      match rebuild_event E component (new_start_utc r) (new_end_utc r) with
      | Return out =>
          (Return (add_component out new_cal),
           log w [adjusted_message E component
                    (sh_start_local r) (sh_end_local r)])
      | Raise x => (Raise x, w)
      end
  | Raise x => (Raise x, w)
  end.
Proof.
  intros Hs He. unfold process_event, contains.
  unfold get in Hs, He |- *. rewrite Hs, He.
  rewrite !bool_decide_eq_true_2 by eauto.
  cbn [negb orb]. unfold decoded_value, get. rewrite Hs, He.
  cbn [decode py_astimezone]. unfold shift_times.
  cbv [mbind M_bind bind ret mret M_ret print lift outcome_bind py_astimezone].
  destruct (astimezone (local_zone E) (tz E) s) as [sl0|x]; [|reflexivity].
  destruct (astimezone (local_zone E) (tz E) e) as [el0|x]; [|reflexivity].
  destruct (adjust_shift sl0 el0) as [sl el].
  destruct (astimezone_utc (local_zone E) sl) as [a|x]; [|reflexivity].
  destruct (astimezone_utc (local_zone E) el) as [b|x]; [|reflexivity].
  cbn [new_start_utc new_end_utc sh_start_local sh_end_local].
  destruct (rebuild_event E component a b) as [out|x]; reflexivity.
Qed.

Lemma process_event_writes E component new_cal w s e r out :
  get "DTSTART" component = Some (vDDDTypes (DDatetime s)) ->
  get "DTEND" component = Some (vDDDTypes (DDatetime e)) ->
  shift_times (local_zone E) (tz E) s e = Return r ->
  rebuild_event E component (new_start_utc r) (new_end_utc r) = Return out ->
  process_event E component new_cal w =
  (Return (add_component out new_cal),
   log w [adjusted_message E component (sh_start_local r) (sh_end_local r)]).
Proof.
  intros Hs He Hr Ho. rewrite (process_event_timed E _ _ _ s e Hs He), Hr, Ho.
  reflexivity.
Qed.

(** A step that returns for such an event: the conversions stayed
    within the days of [datetime], the event was rebuilt with the new
    times read in UTC and appended, and one line was printed. *)
Lemma process_event_written E component new_cal w s e nc w' :
  get "DTSTART" component = Some (vDDDTypes (DDatetime s)) ->
  get "DTEND" component = Some (vDDDTypes (DDatetime e)) ->
  process_event E component new_cal w = (Return nc, w') ->
  let r := shift_readings (local_zone E) (tz E) s e in
  exists out,
    convertible (local_zone E) (tz E) s e /\
    shift_times (local_zone E) (tz E) s e = Return r /\
    rebuild_event E component (new_start_utc r) (new_end_utc r) = Return out /\
    nc = add_component out new_cal /\
    w' = log w [adjusted_message E component (sh_start_local r) (sh_end_local r)].
Proof.
  intros Hs He. rewrite (process_event_timed E _ _ _ s e Hs He).
  destruct (shift_times_cases (local_zone E) (tz E) s e) as [[Hc Hr]|[_ Hr]];
    rewrite Hr; [|discriminate].
  destruct (rebuild_event E component _ _) as [out|x] eqn:Ho; [|discriminate].
  intros [= <- <-] r. exists out. auto.
Qed.

(** An event both of whose times are [datetime] values is written
    when its conversions stay within the days of [datetime] and none
    of its other properties holds a non-empty list under RDATE or
    EXDATE. *)
Lemma process_event_returns_when E component new_cal w s e :
  get "DTSTART" component = Some (vDDDTypes (DDatetime s)) ->
  get "DTEND" component = Some (vDDDTypes (DDatetime e)) ->
  convertible (local_zone E) (tz E) s e ->
  (forall k v, get k component = Some v -> k <> "DTSTART" -> k <> "DTEND" ->
     list_of_dates k v = false) ->
  exists out w',
    process_event E component new_cal w = (Return (add_component out new_cal), w').
Proof.
  intros Hs He Hc Hok.
  destruct (shift_times_cases (local_zone E) (tz E) s e) as [[_ Hr]|[N _]];
    [|contradiction].
  destruct (copy_properties_returns E component) as [ev Hev].
  { intros k v Hkv Hsk. apply is_time_key_spec in Hsk as [H1 H2]. eauto. }
  set (r := shift_readings (local_zone E) (tz E) s e) in *.
  destruct (rebuild_event_cases E component (new_start_utc r) (new_end_utc r))
    as [(ev' & _ & Ho)|[Hx _]]; [|congruence].
  eexists _, _. apply (process_event_writes E _ _ _ s e r _ Hs He Hr Ho).
Qed.

(** ** Zones whose transitions leave the two windows alone *)

Lemma info_at_same cur trs u u' :
  Forall (fun tr => (u <? fst tr) = (u' <? fst tr)) trs ->
  info_at cur trs u = info_at cur trs u'.
Proof.
  intros H. revert cur. induction H as [|[t inf] rest Ht _ IH]; intros cur.
  - reflexivity.
  - simpl in *. rewrite Ht. destruct (u' <? t); [reflexivity|apply IH].
Qed.

Lemma info_at_in cur trs u : info_at cur trs u ∈ cur :: map snd trs.
Proof.
  revert cur. induction trs as [|[t inf] rest IH]; intros cur.
  - apply list_elem_of_singleton. reflexivity.
  - simpl. destruct (u <? t); [apply list_elem_of_here|].
    apply list_elem_of_further, IH.
Qed.

Lemma zone_offset_in tz u : zone_offset tz u ∈ zone_offsets tz.
Proof. apply info_at_in. Qed.

Lemma clear_windows_spec tz :
  clear_windows tz = true ->
  (forall off, off ∈ zone_offsets tz -> - hours 3 <= off <= hours 3) /\
  (forall t inf off, (t, inf) ∈ transitions tz -> off ∈ zone_offsets tz ->
     harmless t off = true).
Proof.
  unfold clear_windows. rewrite andb_true_iff, !forallb_forall.
  intros [H1 H2]. split.
  - intros off Hin. apply list_elem_of_In, H1 in Hin. lia.
  - intros t inf off Ht Hoff. apply list_elem_of_In, H2 in Ht.
    rewrite forallb_forall in Ht. apply (Ht off), list_elem_of_In, Hoff.
Qed.

Lemma zone_offset_bounds tz u :
  clear_windows tz = true -> - hours 3 <= zone_offset tz u <= hours 3.
Proof.
  intros H. apply clear_windows_spec in H as [H _].
  apply H, zone_offset_in.
Qed.

(** In such a zone the rewritten start has the offset of the original
    start: the quarter of an hour after a reading of 08:45 and the
    three quarters before a reading of 13:45 hold no transition. *)
Lemma quarter_after_0845 tz dt u :
  clear_windows tz = true -> valid_datetime dt -> is_0845 dt ->
  wall_us dt = u + zone_offset tz u ->
  zone_offset tz (u + minutes 15) = zone_offset tz u.
Proof.
  intros Hclear (_ & _ & Hsec & Hus) [Hh Hm] Hwall.
  apply clear_windows_spec in Hclear as [_ Hclear].
  unfold wall_us in Hwall. rewrite Hh, Hm in Hwall.
  apply info_at_same, Forall_forall. intros [t inf] Hin.
  specialize (Hclear t inf _ Hin (zone_offset_in tz u)).
  unfold harmless in Hclear. cbn [fst].
  revert Hclear Hwall. generalize (zone_offset tz u). intros off Hclear Hwall.
  unfold hours, minutes in *. unfold_units.
  pose proof (Z.div_mod (t + off) 86400000000 ltac:(lia)) as Hd.
  pose proof (Z.mod_pos_bound (t + off) 86400000000 ltac:(lia)) as Hb.
  revert Hclear Hd Hb. generalize ((t + off) mod 86400000000).
  generalize ((t + off) / 86400000000). intros q x Hclear Hd Hb.
  rewrite andb_true_iff, !negb_true_iff, !andb_false_iff in Hclear.
  destruct (u + 15 * 60000000 <? t) eqn:E1, (u <? t) eqn:E2;
    try reflexivity; exfalso; lia.
Qed.

Lemma three_quarters_before_1345 tz dt u :
  clear_windows tz = true -> valid_datetime dt -> is_1345 dt ->
  wall_us dt = u + zone_offset tz u ->
  zone_offset tz (u - minutes 45) = zone_offset tz u.
Proof.
  intros Hclear (_ & _ & Hsec & Hus) [Hh Hm] Hwall.
  apply clear_windows_spec in Hclear as [_ Hclear].
  unfold wall_us in Hwall. rewrite Hh, Hm in Hwall.
  apply info_at_same, Forall_forall. intros [t inf] Hin.
  specialize (Hclear t inf _ Hin (zone_offset_in tz u)).
  unfold harmless in Hclear. cbn [fst].
  revert Hclear Hwall. generalize (zone_offset tz u). intros off Hclear Hwall.
  unfold hours, minutes in *. unfold_units.
  pose proof (Z.div_mod (t + off) 86400000000 ltac:(lia)) as Hd.
  pose proof (Z.mod_pos_bound (t + off) 86400000000 ltac:(lia)) as Hb.
  revert Hclear Hd Hb. generalize ((t + off) mod 86400000000).
  generalize ((t + off) / 86400000000). intros q x Hclear Hd Hb.
  rewrite andb_true_iff, !negb_true_iff, !andb_false_iff in Hclear.
  destruct (u - 45 * 60000000 <? t) eqn:E1, (u <? t) eqn:E2;
    try reflexivity; exfalso; lia.
Qed.

Lemma start_offset_stable lz tz s e :
  clear_windows tz = true ->
  zone_offset tz (timestamp lz (new_start_utc (shift_readings lz tz s e))) =
  zone_offset tz (timestamp lz s).
Proof.
  intros Hclear.
  destruct (adjust_shift_cases (zone_reading lz tz s) (zone_reading lz tz e))
    as [[H _]|[(H1 & H2 & _)|(H1 & H2 & _)]].
  - destruct (morning_instants lz tz s e H) as [-> _].
    apply (quarter_after_0845 tz (zone_reading lz tz s));
      auto using valid_zone_reading, wall_us_zone_reading.
  - destruct (afternoon_instants lz tz s e H2) as [-> _].
    apply (three_quarters_before_1345 tz (zone_reading lz tz s));
      auto using valid_zone_reading, wall_us_zone_reading.
  - rewrite (shift_readings_other _ _ _ _ H1 H2). cbn [new_start_utc].
    rewrite timestamp_utc_reading, timestamp_zone_reading. reflexivity.
Qed.

(** Some entries of the table by their dates: the start of 32-bit
    time, the armistice of 1918, the begin and the end of summer time
    in 2024. *)
Example Europe_Amsterdam_dates :
  transitions Europe_Amsterdam !! 0%nat =
    Some (wall_us (utc_datetime 1901 12 13 20 45 52), 0) /\
  transitions Europe_Amsterdam !! 8%nat =
    Some (wall_us (utc_datetime 1918 11 11 11 0 0), 0) /\
  transitions Europe_Amsterdam !! 156%nat =
    Some (wall_us (utc_datetime 2024 3 31 1 0 0), hours 2) /\
  transitions Europe_Amsterdam !! 157%nat =
    Some (wall_us (utc_datetime 2024 10 27 1 0 0), hours 1) /\
  zone_offsets Europe_Amsterdam ⊆ [minutes 18; 0; hours 1; hours 2].
Proof.
  repeat split; try (vm_compute; reflexivity).
  intros off Hin. apply list_elem_of_In in Hin. apply list_elem_of_In.
  vm_compute in Hin. vm_compute. tauto.
Qed.

(** The transition of 1918-11-11 at 11:00 UTC is the only one by day:
    it is harmless at each offset of the zone, the latest reading
    being 13:00:00. *)
Example armistice_transition_is_harmless :
  forallb (harmless (wall_us (utc_datetime 1918 11 11 11 0 0)))
    [minutes 18; 0; hours 1; hours 2] = true.
Proof. vm_compute. reflexivity. Qed.

Example Europe_Amsterdam_clear : clear_windows Europe_Amsterdam = true.
Proof. vm_compute. reflexivity. Qed.

(** ** Idempotence of the time rewrite *)

Lemma representable_wall dt :
  valid_datetime dt ->
  (representable (wall_us dt) <-> 0 < toordinal dt <= MAXORDINAL).
Proof.
  intros (Hh & Hm & Hs & Hu). unfold representable, wall_us, MAXORDINAL.
  unfold_units. lia.
Qed.

Lemma representable_replace_hm dt h m :
  valid_datetime dt -> 0 <= h < 24 -> 0 <= m < 60 ->
  representable (wall_us dt) -> representable (wall_us (replace_hm dt h m)).
Proof.
  intros Hv Hh Hm. rewrite !representable_wall; auto using valid_replace_hm.
Qed.

Lemma shift_readings_start lz tz s e :
  let sl := sh_start_local (shift_readings lz tz s e) in
  valid_datetime sl /\
  tzinfo sl = Some (zone_offset tz (timestamp lz s)) /\
  ~ is_0845 sl /\ ~ is_1345 sl /\
  (representable (wall_us (zone_reading lz tz s)) -> representable (wall_us sl)).
Proof.
  destruct (adjust_shift_cases (zone_reading lz tz s) (zone_reading lz tz e))
    as [[H _]|[(H1 & H2 & _)|(H1 & H2 & _)]].
  - rewrite (shift_readings_morning _ _ _ _ H). cbn [sh_start_local].
    split; [apply valid_replace_hm; [apply valid_zone_reading|lia..]|].
    split; [reflexivity|]. unfold is_0845, is_1345. cbn [replace_hm hour minute].
    split; [lia|]. split; [lia|].
    apply representable_replace_hm; [apply valid_zone_reading|lia..].
  - rewrite (shift_readings_afternoon _ _ _ _ H2). cbn [sh_start_local].
    split; [apply valid_replace_hm; [apply valid_zone_reading|lia..]|].
    split; [reflexivity|]. unfold is_0845, is_1345. cbn [replace_hm hour minute].
    split; [lia|]. split; [lia|].
    apply representable_replace_hm; [apply valid_zone_reading|lia..].
  - rewrite (shift_readings_other _ _ _ _ H1 H2). cbn [sh_start_local].
    split; [apply valid_zone_reading|]. split; [reflexivity|]. auto.
Qed.

(** An end that was moved to 13:00 or 17:00, seen again at an offset
    within three hours of UTC, stays on its day. *)
Lemma replaced_end_representable lz el h oe o :
  valid_datetime el -> tzinfo el = Some oe -> representable (wall_us el) ->
  13 <= h <= 17 -> - hours 3 <= oe <= hours 3 -> - hours 3 <= o <= hours 3 ->
  representable (timestamp lz (replace_hm el h 0) + o).
Proof.
  destruct el as [d hh mm ss us tzi].
  unfold valid_datetime, representable, timestamp, utcoffset, wall_us, hours,
    MAXORDINAL.
  cbn [replace_hm toordinal hour minute second microsecond tzinfo].
  intros (Hh & Hm & Hs & Hu) -> Hr Hrange Hoe Ho. unfold_units. lia.
Qed.

Lemma end_again_representable lz tz s e :
  clear_windows tz = true ->
  representable (wall_us (zone_reading lz tz e)) ->
  representable
    (timestamp lz (sh_end_local (shift_readings lz tz s e)) +
     zone_offset tz (timestamp lz (sh_end_local (shift_readings lz tz s e)))).
Proof.
  intros Hclear Hr.
  destruct (adjust_shift_cases (zone_reading lz tz s) (zone_reading lz tz e))
    as [[H _]|[(H1 & H2 & _)|(H1 & H2 & _)]].
  - rewrite (shift_readings_morning _ _ _ _ H). cbn [sh_end_local].
    apply (replaced_end_representable lz _ 13 (zone_offset tz (timestamp lz e)));
      auto using valid_zone_reading, zone_offset_bounds; lia.
  - rewrite (shift_readings_afternoon _ _ _ _ H2). cbn [sh_end_local].
    apply (replaced_end_representable lz _ 17 (zone_offset tz (timestamp lz e)));
      auto using valid_zone_reading, zone_offset_bounds; lia.
  - rewrite (shift_readings_other _ _ _ _ H1 H2). cbn [sh_end_local].
    rewrite timestamp_zone_reading. rewrite wall_us_zone_reading in Hr.
    exact Hr.
Qed.

(** Lines 53-67 on what they returned, in a zone whose transitions
    leave the two windows alone: the start reads neither 08:45 nor
    13:45, every conversion stays within the days of [datetime], and
    the same two values in UTC come out. *)
Lemma shift_readings_again lz tz s e :
  let r := shift_readings lz tz s e in
  clear_windows tz = true ->
  zone_reading lz tz (new_start_utc r) = sh_start_local r /\
  ~ is_0845 (sh_start_local r) /\ ~ is_1345 (sh_start_local r) /\
  shift_readings lz tz (new_start_utc r) (new_end_utc r) =
  {| sh_start_local := sh_start_local r;
     sh_end_local := zone_reading lz tz (new_end_utc r);
     new_start_utc := new_start_utc r;
     new_end_utc := new_end_utc r |}.
Proof.
  intros r Hclear.
  pose proof (start_offset_stable lz tz s e Hclear) as Hoff. fold r in Hoff.
  destruct (shift_readings_utc lz tz s e) as [Hns Hne]. fold r in Hns, Hne.
  destruct (shift_readings_start lz tz s e) as (Hv & Htz & N1 & N2 & _).
  fold r in Hv, Htz, N1, N2.
  assert (zone_reading lz tz (new_start_utc r) = sh_start_local r) as Hback.
  { rewrite Hns. apply (relocalize _ _ _ _ Hv Htz).
    rewrite Hns, timestamp_utc_reading in Hoff. exact Hoff. }
  split; [exact Hback|]. split; [exact N1|]. split; [exact N2|].
  rewrite shift_readings_other by (rewrite Hback; assumption).
  rewrite Hback. f_equal; [symmetry; exact Hns|].
  rewrite Hne. generalize (sh_end_local r). intros el.
  change (utc_reading lz el) with (from_wall_us (timestamp lz el) (Some 0)).
  apply utc_round_trip.
Qed.

Lemma convertible_again lz tz s e :
  let r := shift_readings lz tz s e in
  clear_windows tz = true ->
  convertible lz tz s e ->
  convertible lz tz (new_start_utc r) (new_end_utc r).
Proof.
  intros r Hclear (R1 & R2 & R3 & R4 & R5 & R6). fold r in R5, R6.
  destruct (shift_readings_again lz tz s e Hclear) as (Hback & _ & _ & Hr2).
  fold r in Hback, Hr2.
  destruct (shift_readings_utc lz tz s e) as [Hns Hne]. fold r in Hns, Hne.
  destruct (shift_readings_start lz tz s e) as (_ & _ & _ & _ & Hrs).
  fold r in Hrs.
  assert (timestamp lz (new_start_utc r) = timestamp lz (sh_start_local r))
    as Hts by (rewrite Hns; apply timestamp_utc_reading).
  assert (timestamp lz (new_end_utc r) = timestamp lz (sh_end_local r))
    as Hte by (rewrite Hne; apply timestamp_utc_reading).
  unfold convertible. rewrite Hr2. cbn [sh_start_local sh_end_local].
  rewrite timestamp_zone_reading, Hts, Hte.
  split; [exact R5|]. split; [|split; [exact R6|split; [|auto]]].
  - rewrite <- Hts, <- wall_us_zone_reading, Hback.
    apply Hrs. rewrite wall_us_zone_reading. exact R2.
  - apply end_again_representable; [exact Hclear|].
    rewrite wall_us_zone_reading. exact R4.
Qed.

(** ** The shift normalizer on events *)

(** What a calendar client shows for a rewritten morning shift: when
    the zone has the same offset at the new instants as at the old
    ones, the output reads 09:00 and 13:00 in the zone, on the local
    days of the input, with its seconds and microseconds. *)
Lemma morning_shift_in_zone lz tz s e :
  let r := shift_readings lz tz s e in
  is_0845 (zone_reading lz tz s) ->
  zone_offset tz (timestamp lz (new_start_utc r)) = zone_offset tz (timestamp lz s) ->
  zone_offset tz (timestamp lz (new_end_utc r)) = zone_offset tz (timestamp lz e) ->
  zone_reading lz tz (new_start_utc r) = replace_hm (zone_reading lz tz s) 9 0 /\
  zone_reading lz tz (new_end_utc r) = replace_hm (zone_reading lz tz e) 13 0.
Proof.
  intros r H. subst r. rewrite (shift_readings_morning _ _ _ _ H).
  cbn [new_start_utc new_end_utc]. rewrite !timestamp_utc_reading.
  intros H1 H2. split; apply rewritten_local; (lia || assumption).
Qed.

Lemma afternoon_shift_in_zone lz tz s e :
  let r := shift_readings lz tz s e in
  is_1345 (zone_reading lz tz s) ->
  zone_offset tz (timestamp lz (new_start_utc r)) = zone_offset tz (timestamp lz s) ->
  zone_offset tz (timestamp lz (new_end_utc r)) = zone_offset tz (timestamp lz e) ->
  zone_reading lz tz (new_start_utc r) = replace_hm (zone_reading lz tz s) 13 0 /\
  zone_reading lz tz (new_end_utc r) = replace_hm (zone_reading lz tz e) 17 0.
Proof.
  intros r H. subst r. rewrite (shift_readings_afternoon _ _ _ _ H).
  cbn [new_start_utc new_end_utc]. rewrite !timestamp_utc_reading.
  intros H1 H2. split; apply rewritten_local; (lia || assumption).
Qed.

(** In a zone whose transitions leave the two windows alone, the start
    of a rewritten event reads 09:00 (morning) or 13:00 (afternoon) in
    the zone, on the local day of the input and with its seconds and
    microseconds. *)
Lemma morning_start_in_clear_zone lz tz s e :
  clear_windows tz = true -> is_0845 (zone_reading lz tz s) ->
  zone_reading lz tz (new_start_utc (shift_readings lz tz s e)) =
  replace_hm (zone_reading lz tz s) 9 0.
Proof.
  intros Hclear H.
  destruct (shift_readings_again lz tz s e Hclear) as [-> _].
  rewrite (shift_readings_morning _ _ _ _ H). reflexivity.
Qed.

Lemma afternoon_start_in_clear_zone lz tz s e :
  clear_windows tz = true -> is_1345 (zone_reading lz tz s) ->
  zone_reading lz tz (new_start_utc (shift_readings lz tz s e)) =
  replace_hm (zone_reading lz tz s) 13 0.
Proof.
  intros Hclear H.
  destruct (shift_readings_again lz tz s e Hclear) as [-> _].
  rewrite (shift_readings_afternoon _ _ _ _ H). reflexivity.
Qed.

(** C1, at an event that starts at 08:45 on Saturday 2024-03-30 and
    ends at 01:30 on the Sunday on which summer time begins: the end is
    rewritten to 13:00 at the winter offset the converted end carries,
    so the event that is written ends at 12:00 UTC, which is 14:00 in
    Europe/Amsterdam and not 13:00. *)
Theorem morning_rule_end_on_dst_day :
  let E := example_env (inr ok_response) Calendar in
  (exists start_local,
     astimezone (local_zone E) (tz E) (utc_datetime 2024 3 30 7 45 0) =
       Return start_local /\
     is_0845 start_local) /\
  exists out w',
    process_event E event_night_morning Calendar empty_world =
      (Return (add_component out Calendar), w') /\
    get "DTSTART" out =
      Some (vDDDTypes (DDatetime (utc_datetime 2024 3 30 8 0 0))) /\
    get "DTEND" out =
      Some (vDDDTypes (DDatetime (utc_datetime 2024 3 31 12 0 0))) /\
    exists seen,
      astimezone (local_zone E) (tz E) (utc_datetime 2024 3 31 12 0 0) =
        Return seen /\
      hour seen = 14.
Proof.
  intros E. split.
  { eexists. split; [vm_compute; reflexivity|]. split; reflexivity. }
  assert (shift_times (local_zone E) (tz E) (utc_datetime 2024 3 30 7 45 0)
            (utc_datetime 2024 3 31 0 30 0) =
          Return {| sh_start_local := local_datetime 2024 3 30 9 0 0 (hours 1);
                    sh_end_local := local_datetime 2024 3 31 13 0 0 (hours 1);
                    new_start_utc := utc_datetime 2024 3 30 8 0 0;
                    new_end_utc := utc_datetime 2024 3 31 12 0 0 |}) as Hr
    by (vm_compute; reflexivity).
  destruct (rebuild_event E event_night_morning (utc_datetime 2024 3 30 8 0 0)
              (utc_datetime 2024 3 31 12 0 0)) as [out|x] eqn:Ho;
    [|vm_compute in Ho; discriminate Ho].
  exists out. eexists. split.
  - apply (process_event_writes E event_night_morning Calendar empty_world
             _ _ _ out eq_refl eq_refl Hr Ho).
  - apply rebuild_event_Return in Ho as (_ & _ & Hst & Hen & _).
    split; [exact Hst|]. split; [exact Hen|].
    eexists. split; [vm_compute; reflexivity|reflexivity].
Qed.

(** C2, at an event that starts at 13:45 on Saturday 2024-03-30 and
    ends at 01:30 on the Sunday on which summer time begins: the event
    that is written ends at 16:00 UTC, which is 18:00 in
    Europe/Amsterdam and not 17:00. *)
Theorem afternoon_rule_end_on_dst_day :
  let E := example_env (inr ok_response) Calendar in
  (exists start_local,
     astimezone (local_zone E) (tz E) (utc_datetime 2024 3 30 12 45 0) =
       Return start_local /\
     is_1345 start_local) /\
  exists out w',
    process_event E event_night_afternoon Calendar empty_world =
      (Return (add_component out Calendar), w') /\
    get "DTSTART" out =
      Some (vDDDTypes (DDatetime (utc_datetime 2024 3 30 12 0 0))) /\
    get "DTEND" out =
      Some (vDDDTypes (DDatetime (utc_datetime 2024 3 31 16 0 0))) /\
    exists seen,
      astimezone (local_zone E) (tz E) (utc_datetime 2024 3 31 16 0 0) =
        Return seen /\
      hour seen = 18.
Proof.
  intros E. split.
  { eexists. split; [vm_compute; reflexivity|]. split; reflexivity. }
  assert (shift_times (local_zone E) (tz E) (utc_datetime 2024 3 30 12 45 0)
            (utc_datetime 2024 3 31 0 30 0) =
          Return {| sh_start_local := local_datetime 2024 3 30 13 0 0 (hours 1);
                    sh_end_local := local_datetime 2024 3 31 17 0 0 (hours 1);
                    new_start_utc := utc_datetime 2024 3 30 12 0 0;
                    new_end_utc := utc_datetime 2024 3 31 16 0 0 |}) as Hr
    by (vm_compute; reflexivity).
  destruct (rebuild_event E event_night_afternoon (utc_datetime 2024 3 30 12 0 0)
              (utc_datetime 2024 3 31 16 0 0)) as [out|x] eqn:Ho;
    [|vm_compute in Ho; discriminate Ho].
  exists out. eexists. split.
  - apply (process_event_writes E event_night_afternoon Calendar empty_world
             _ _ _ out eq_refl eq_refl Hr Ho).
  - apply rebuild_event_Return in Ho as (_ & _ & Hst & Hen & _).
    split; [exact Hst|]. split; [exact Hen|].
    eexists. split; [vm_compute; reflexivity|reflexivity].
Qed.

Lemma unmatched_instants lz tz s e :
  ~ is_0845 (zone_reading lz tz s) -> ~ is_1345 (zone_reading lz tz s) ->
  let r := shift_readings lz tz s e in
  tzinfo (new_start_utc r) = Some 0 /\ tzinfo (new_end_utc r) = Some 0 /\
  timestamp lz (new_start_utc r) = timestamp lz s /\
  timestamp lz (new_end_utc r) = timestamp lz e.
Proof.
  intros H1 H2 r. subst r. rewrite (shift_readings_other _ _ _ _ H1 H2).
  cbn [new_start_utc new_end_utc].
  rewrite !timestamp_utc_reading, !timestamp_zone_reading.
  repeat split; reflexivity.
Qed.




(** The part of C5 that holds: a step that returns has appended an
    event in which DTSTART and DTEND hold the new times, a key the
    source does not have is not there, and every other property that
    is no list under RDATE, EXDATE or CATEGORIES has the value of the
    source. *)
Lemma processed_event_keeps_plain_properties E component new_cal w s e nc w' :
  get "DTSTART" component = Some (vDDDTypes (DDatetime s)) ->
  get "DTEND" component = Some (vDDDTypes (DDatetime e)) ->
  process_event E component new_cal w = (Return nc, w') ->
  exists new_event,
    nc = add_component new_event new_cal /\
    (forall k v, k <> "DTSTART" -> k <> "DTEND" ->
       get k component = Some v -> plain_value k v = true ->
       get k new_event = Some v) /\
    (forall k, k <> "DTSTART" -> k <> "DTEND" ->
       get k component = None -> get k new_event = None) /\
    get "DTSTART" new_event =
      Some (vDDDTypes (DDatetime
        (new_start_utc (shift_readings (local_zone E) (tz E) s e)))) /\
    get "DTEND" new_event =
      Some (vDDDTypes (DDatetime
        (new_end_utc (shift_readings (local_zone E) (tz E) s e)))).
Proof.
  intros Hs He Hrun.
  destruct (process_event_written E _ _ _ s e nc w' Hs He Hrun)
    as (out & _ & _ & Ho & -> & _).
  exists out. split; [reflexivity|].
  split; [intros k v H1 H2 Hk Hp; apply (rebuild_event_plain _ _ _ _ _ _ _ Ho H1 H2 Hk Hp)|].
  split; [intros k H1 H2 Hk; apply (rebuild_event_absent _ _ _ _ _ _ Ho H1 H2 Hk)|].
  apply rebuild_event_Return in Ho as (_ & _ & Hst & Hen & _). auto.
Qed.

(** C5, at the meeting of 2024-01-10 with two CATEGORIES lines and at
    the same meeting with two EXDATE lines.  The first is written with
    one CATEGORIES value that holds the [str] of the two values of the
    source, not their texts; for the second the copy of line 73 raises
    and nothing is written. *)
Theorem event_lists_are_not_copied :
  let E := example_env (inr ok_response) Calendar in
  get "CATEGORIES" event_two_categories =
    Some (vList [vCategory ["work"]; vCategory ["roster"]]) /\
  (exists out w',
     process_event E event_two_categories Calendar empty_world =
       (Return (add_component out Calendar), w') /\
     get "CATEGORIES" out = Some (vCategory ["<value>"; "<value>"]) /\
     get "CATEGORIES" out <> get "CATEGORIES" event_two_categories) /\
  get "EXDATE" event_two_exdates = Some two_exdates /\
  (forall new_cal w,
     process_event E event_two_exdates new_cal w = (Raise not_a_date, w)).
Proof.
  intros E. split; [reflexivity|]. split; [|split; [reflexivity|]].
  - assert (exists r, shift_times (local_zone E) (tz E)
              (local_datetime 2024 1 10 10 0 0 (hours 1))
              (local_datetime 2024 1 10 11 0 0 (hours 1)) = Return r)
      as [r Hr] by (eexists; vm_compute; reflexivity).
    destruct (rebuild_event E event_two_categories (new_start_utc r)
                (new_end_utc r)) as [out|x] eqn:Ho.
    + exists out. eexists. split.
      * apply (process_event_writes E event_two_categories Calendar
                 empty_world _ _ _ out eq_refl eq_refl Hr Ho).
      * apply rebuild_event_Return in Ho as (_ & _ & _ & _ & Hk).
        rewrite (Hk "CATEGORIES") by discriminate.
        split; [reflexivity|discriminate].
    + apply rebuild_event_Raise in Ho as (_ & k & v & Hkv & _ & _ & Hl).
      exfalso. revert Hkv Hl. unfold get, event_two_categories, event_E4, event_with.
      cbn [comp_props]. rewrite !lookup_insert_Some, lookup_empty.
      intros [[<- <-]|[_ [[<- <-]|[_ [[<- <-]|[_ [[<- <-]|[_ [[<- <-]|[_ H]]]]]]]]]];
        discriminate.
  - intros new_cal w.
    rewrite (process_event_timed E event_two_exdates new_cal w
               (local_datetime 2024 1 10 10 0 0 (hours 1))
               (local_datetime 2024 1 10 11 0 0 (hours 1)) eq_refl eq_refl).
    destruct (shift_times _ _ _ _) as [r|x] eqn:Hr;
      [|vm_compute in Hr; discriminate Hr].
    destruct (rebuild_event_cases E event_two_exdates (new_start_utc r)
                (new_end_utc r)) as [(ev & Hc & _)|[_ ->]]; [|reflexivity].
    apply copy_properties_Return in Hc as (_ & _ & _ & Hok).
    specialize (Hok "EXDATE" two_exdates eq_refl eq_refl). discriminate Hok.
Qed.

(** C9: in a zone whose transitions leave the quarter of an hour after
    08:45 and the three quarters before 13:45 alone, as those of
    Europe/Amsterdam do, the event a step of the loop has written
    starts, seen in the zone, neither at 08:45 nor at 13:45, and the
    step on that event returns and writes the very same event: same
    start, same end, same other properties. *)
Theorem normalizer_idempotent E component new_cal w s e nc w' :
  clear_windows (tz E) = true ->
  get "DTSTART" component = Some (vDDDTypes (DDatetime s)) ->
  get "DTEND" component = Some (vDDDTypes (DDatetime e)) ->
  process_event E component new_cal w = (Return nc, w') ->
  exists out s' e' start_local,
    nc = add_component out new_cal /\
    get "DTSTART" out = Some (vDDDTypes (DDatetime s')) /\
    get "DTEND" out = Some (vDDDTypes (DDatetime e')) /\
    astimezone (local_zone E) (tz E) s' = Return start_local /\
    ~ is_0845 start_local /\ ~ is_1345 start_local /\
    forall new_cal2 w2, exists out2 w2',
      process_event E out new_cal2 w2 =
        (Return (add_component out2 new_cal2), w2') /\
      out2 = out /\
      get "DTSTART" out2 = Some (vDDDTypes (DDatetime s')) /\
      get "DTEND" out2 = Some (vDDDTypes (DDatetime e')).
Proof.
  intros Hclear Hs He Hrun.
  destruct (process_event_written E _ _ _ s e nc w' Hs He Hrun)
    as (out & Hc & _ & Ho & -> & _).
  pose proof (rebuild_event_again _ _ _ _ _ Ho) as Hagain.
  apply rebuild_event_Return in Ho as (_ & _ & Hst & Hen & _).
  destruct (shift_readings_again (local_zone E) (tz E) s e Hclear)
    as (Hback & N1 & N2 & Hr2).
  pose proof (convertible_again (local_zone E) (tz E) s e Hclear Hc) as Hc2.
  destruct (convertible_start _ _ _ _ Hc2) as [Hconv _].
  rewrite Hback in Hconv.
  destruct (shift_times_cases (local_zone E) (tz E)
              (new_start_utc (shift_readings (local_zone E) (tz E) s e))
              (new_end_utc (shift_readings (local_zone E) (tz E) s e)))
    as [[_ Hst2]|[N _]]; [|contradiction].
  rewrite Hr2 in Hst2.
  exists out. eexists _, _, _.
  split; [reflexivity|]. split; [exact Hst|]. split; [exact Hen|].
  split; [exact Hconv|]. split; [exact N1|]. split; [exact N2|].
  intros new_cal2 w2. exists out. eexists.
  split; [|split; [reflexivity|split; [exact Hst|exact Hen]]].
  apply (process_event_writes E out new_cal2 w2 _ _ _ out Hst Hen Hst2 Hagain).
Qed.

Lemma normalizer_idempotent_witness :
  let E := example_env (inr ok_response) Calendar in
  let run := process_event E event_E1 Calendar empty_world in
  let nc := match fst run with Return nc => nc | Raise _ => Calendar end in
  exists out s' e' start_local,
    nc = add_component out Calendar /\
    get "DTSTART" out = Some (vDDDTypes (DDatetime s')) /\
    get "DTEND" out = Some (vDDDTypes (DDatetime e')) /\
    astimezone (local_zone E) (tz E) s' = Return start_local /\
    ~ is_0845 start_local /\ ~ is_1345 start_local /\
    forall new_cal2 w2, exists out2 w2',
      process_event E out new_cal2 w2 =
        (Return (add_component out2 new_cal2), w2') /\
      out2 = out /\
      get "DTSTART" out2 = Some (vDDDTypes (DDatetime s')) /\
      get "DTEND" out2 = Some (vDDDTypes (DDatetime e')).
Proof.
  intros E run nc.
  apply (normalizer_idempotent E event_E1 Calendar empty_world
           (local_datetime 2024 1 10 8 45 0 (hours 1))
           (local_datetime 2024 1 10 9 30 0 (hours 1)) nc (snd run)).
  - vm_compute. reflexivity.
  - reflexivity.
  - reflexivity.
  - vm_compute. reflexivity.
Defined.

(** ** The loop over the events *)

(** An event whose start is there but is not a [datetime] makes the
    conversion of line 53 raise before anything is printed. *)
Lemma process_event_bad_start E component new_cal v1 v2 :
  get "DTSTART" component = Some v1 ->
  get "DTEND" component = Some v2 ->
  (forall dt, decode v1 <> DDatetime dt) ->
  exists m, forall w, process_event E component new_cal w = (Raise (AttributeError m), w).
Proof.
  unfold process_event, contains, get. intros H1 H2 Hbad. rewrite H1, H2.
  rewrite !bool_decide_eq_true_2 by eauto. cbn [negb orb].
  unfold decoded_value, get. rewrite H1, H2. run_monad.
  unfold py_astimezone.
  destruct (decode v1) as [s|d|n] eqn:D1.
  - exfalso; apply (Hbad s); reflexivity.
  - eexists. intros w. reflexivity.
  - eexists. intros w. reflexivity.
Qed.

(** With a start that is a [datetime] and an end that is there but is
    not one, the step raises as well: the [OverflowError] of the
    conversion of the start, or the [AttributeError] of line 54. *)
Lemma process_event_bad_end E component new_cal s v2 :
  get "DTSTART" component = Some (vDDDTypes (DDatetime s)) ->
  get "DTEND" component = Some v2 ->
  (forall dt, decode v2 <> DDatetime dt) ->
  exists x, unexpected x /\
    forall w, process_event E component new_cal w = (Raise x, w).
Proof.
  unfold process_event, contains, get. intros H1 H2 Hbad. rewrite H1, H2.
  rewrite !bool_decide_eq_true_2 by eauto. cbn [negb orb].
  unfold decoded_value, get. rewrite H1, H2. run_monad.
  cbn [decode py_astimezone]. run_monad.
  destruct (astimezone_cases (local_zone E) (tz E) s) as [(_ & _ & ->)|[_ ->]].
  - unfold py_astimezone. destruct (decode v2) as [e|d|n] eqn:D2.
    + exfalso; apply (Hbad e); reflexivity.
    + eexists. split; [|intros w; reflexivity]. intros msg; discriminate.
    + eexists. split; [|intros w; reflexivity]. intros msg; discriminate.
  - eexists. split; [|intros w; reflexivity]. intros msg; discriminate.
Qed.

(** Every step returns the calendar as it was or with one more event,
    or raises an exception that is not of the fetch; what it returns or
    raises does not depend on the world, to which it only adds
    lines. *)
Lemma process_event_form E component new_cal :
  exists o lines,
    (forall w, process_event E component new_cal w = (o, log w lines)) /\
    (o = Return new_cal \/
     (exists new_event, o = Return (add_component new_event new_cal)) \/
     (exists x, o = Raise x /\ unexpected x)).
Proof.
  destruct (get "DTSTART" component) as [v1|] eqn:H1;
    [destruct (get "DTEND" component) as [v2|] eqn:H2|].
  - destruct (decode v1) as [s|d|n] eqn:D1;
      [destruct (decode v2) as [e|d|n] eqn:D2|..].
    + apply decode_datetime in D1, D2. subst v1 v2.
      pose proof (fun w => process_event_timed E component new_cal w s e H1 H2)
        as Hrun.
      destruct (shift_times (local_zone E) (tz E) s e) as [r|x] eqn:Hr.
      * destruct (rebuild_event E component (new_start_utc r) (new_end_utc r))
          as [out|x] eqn:Ho.
        -- eexists _, _. split; [exact Hrun|]. right; left. eauto.
        -- apply rebuild_event_Raise in Ho as [-> _].
           exists (Raise not_a_date), []. split.
           ++ intros w. rewrite log_nil. apply Hrun.
           ++ right; right. eexists. split; [reflexivity|].
              intros msg; discriminate.
      * apply shift_times_Raise in Hr as ->.
        exists (Raise out_of_range), []. split.
        -- intros w. rewrite log_nil. apply Hrun.
        -- right; right. eexists. split; [reflexivity|].
           intros msg; discriminate.
    + apply decode_datetime in D1. subst v1.
      destruct (process_event_bad_end E component new_cal s v2 H1 H2)
        as (x & Hx & Hrun); [intros dt; congruence|].
      exists (Raise x), []. split; [|right; right; eauto].
      intros w. rewrite log_nil. apply Hrun.
    + apply decode_datetime in D1. subst v1.
      destruct (process_event_bad_end E component new_cal s v2 H1 H2)
        as (x & Hx & Hrun); [intros dt; congruence|].
      exists (Raise x), []. split; [|right; right; eauto].
      intros w. rewrite log_nil. apply Hrun.
    + destruct (process_event_bad_start E component new_cal v1 v2 H1 H2)
        as [m Hm]; [intros dt; congruence|].
      exists (Raise (AttributeError m)), []. split.
      * intros w. rewrite log_nil. apply Hm.
      * right; right. eexists. split; [reflexivity|]. intros msg; discriminate.
    + destruct (process_event_bad_start E component new_cal v1 v2 H1 H2)
        as [m Hm]; [intros dt; congruence|].
      exists (Raise (AttributeError m)), []. split.
      * intros w. rewrite log_nil. apply Hm.
      * right; right. eexists. split; [reflexivity|]. intros msg; discriminate.
  - exists (Return new_cal), [skip_message E component]. split; [|left; reflexivity].
    intros w. apply process_event_skipped. right. exact H2.
  - exists (Return new_cal), [skip_message E component]. split; [|left; reflexivity].
    intros w. apply process_event_skipped. left. exact H1.
Qed.

Lemma process_events_cons E component rest new_cal w :
  process_events E (component :: rest) new_cal w =
  match process_event E component new_cal w with
  | (Return nc, w') => process_events E rest nc w'
  | (Raise e, w') => (Raise e, w')
  end.
Proof. reflexivity. Qed.

Lemma process_events_form E events :
  forall new_cal, exists o lines,
    (forall w, process_events E events new_cal w = (o, log w lines)) /\
    ((exists nc, o = Return nc /\ comp_name nc = comp_name new_cal /\
                 comp_props nc = comp_props new_cal /\
                 exists added, subcomponents nc = subcomponents new_cal ++ added) \/
     (exists x, o = Raise x /\ unexpected x)).
Proof.
  induction events as [|c rest IH]; intros new_cal.
  - exists (Return new_cal), []. split.
    + intros w. rewrite log_nil. reflexivity.
    + left. exists new_cal. repeat split. exists []. rewrite app_nil_r. reflexivity.
  - destruct (process_event_form E c new_cal) as (o & lines & Hrun & Ho).
    destruct Ho as [->|[[ev ->]|(x & -> & Hx)]].
    + destruct (IH new_cal) as (o' & lines' & Hrun' & Ho').
      exists o', (lines ++ lines'). split; [|exact Ho'].
      intros w. rewrite process_events_cons, Hrun, Hrun', log_log. reflexivity.
    + destruct (IH (add_component ev new_cal)) as (o' & lines' & Hrun' & Ho').
      exists o', (lines ++ lines'). split.
      * intros w. rewrite process_events_cons, Hrun, Hrun', log_log. reflexivity.
      * destruct Ho' as [(nc & -> & Hn & Hp & added & Hs)|Hr]; [left|right; exact Hr].
        exists nc. repeat split; try assumption.
        exists (ev :: added). rewrite Hs. simpl. rewrite <- app_assoc. reflexivity.
    + exists (Raise x), lines. split; [|right; eauto].
      intros w. rewrite process_events_cons, Hrun. reflexivity.
Qed.

Lemma process_events_app E pre post new_cal w :
  process_events E (pre ++ post) new_cal w =
  match process_events E pre new_cal w with
  | (Return nc, w') => process_events E post nc w'
  | (Raise e, w') => (Raise e, w')
  end.
Proof.
  revert new_cal w. induction pre as [|c pre IH]; intros new_cal w.
  - reflexivity.
  - simpl app. rewrite !process_events_cons.
    destruct (process_event E c new_cal w) as [[nc|e] w1]; [apply IH|reflexivity].
Qed.

Lemma process_events_outcome E events new_cal w1 w2 :
  fst (process_events E events new_cal w1) =
  fst (process_events E events new_cal w2).
Proof.
  destruct (process_events_form E events new_cal) as (o & lines & Hrun & _).
  rewrite !Hrun. reflexivity.
Qed.

Lemma process_events_stdout E events new_cal w :
  exists lines,
    stdout (snd (process_events E events new_cal w)) = stdout w ++ lines /\
    dirs (snd (process_events E events new_cal w)) = dirs w /\
    files (snd (process_events E events new_cal w)) = files w.
Proof.
  destruct (process_events_form E events new_cal) as (o & lines & Hrun & _).
  exists lines. rewrite Hrun. auto.
Qed.

(** A list of events each of which lacks a time or is written is
    processed to its end. *)
Lemma process_events_succeeds E events :
  Forall (fun c => skipped c \/ writable E c) events ->
  forall new_cal w, exists nc w',
    process_events E events new_cal w = (Return nc, w').
Proof.
  induction 1 as [|c rest Hc _ IH]; intros new_cal w.
  - eexists _, _. reflexivity.
  - rewrite process_events_cons.
    destruct Hc as [Hc|(s & e & Hs & He & Hconv & Hok)].
    + rewrite (process_event_skipped _ _ _ _ Hc). apply IH.
    + destruct (process_event_returns_when E c new_cal w s e Hs He Hconv Hok)
        as (out & w1 & ->).
      apply IH.
Qed.

(** C4: an event without DTSTART or without DTEND adds nothing to the
    output calendar and raises nothing; one line is printed, which
    names the event by its UID, or by N/A when it has none; the loop over
    the events ends as it does without the event, with the same
    calendar or the same exception. *)
Theorem skipped_event_is_not_fatal E component :
  get "DTSTART" component = None \/ get "DTEND" component = None ->
  (forall new_cal w,
     process_event E component new_cal w =
     (Return new_cal, log w [skip_message E component])) /\
  (get "UID" component = None ->
   skip_message E component =
   "Skipping event with UID 'N/A' because it's missing DTSTART or DTEND.") /\
  (forall uid, get "UID" component = Some (vText uid) ->
   skip_message E component =
   "Skipping event with UID '" +:+ uid +:+
   "' because it's missing DTSTART or DTEND.") /\
  (forall pre post new_cal w,
     fst (process_events E (pre ++ component :: post) new_cal w) =
     fst (process_events E (pre ++ post) new_cal w)) /\
  (forall pre post new_cal w nc w',
     process_events E (pre ++ component :: post) new_cal w = (Return nc, w') ->
     skip_message E component ∈ stdout w').
Proof.
  intros Hskip. split; [|split; [|split; [|split]]].
  - intros new_cal w. apply process_event_skipped, Hskip.
  - intros H. unfold skip_message. rewrite H. reflexivity.
  - intros uid H. unfold skip_message. rewrite H. reflexivity.
  - intros pre post new_cal w. rewrite !process_events_app.
    destruct (process_events E pre new_cal w) as [[nc|e] w1]; [|reflexivity].
    rewrite process_events_cons, (process_event_skipped _ _ _ _ Hskip).
    apply process_events_outcome.
  - intros pre post new_cal w nc w'. rewrite process_events_app.
    destruct (process_events E pre new_cal w) as [[nc1|e] w1]; [|discriminate].
    rewrite process_events_cons, (process_event_skipped _ _ _ _ Hskip).
    intros Hrun.
    destruct (process_events_stdout E post nc1 (log w1 [skip_message E component]))
      as (lines & Hout & _).
    rewrite Hrun in Hout. simpl in Hout. rewrite Hout.
    apply elem_of_app. left. apply elem_of_app. right. apply list_elem_of_singleton.
    reflexivity.
Qed.

Lemma skipped_event_is_not_fatal_witness :
  let E := example_env (inr ok_response) Calendar in
  (forall new_cal w,
     process_event E event_E3 new_cal w =
     (Return new_cal, log w [skip_message E event_E3])) /\
  (get "UID" event_E3 = None ->
   skip_message E event_E3 =
   "Skipping event with UID 'N/A' because it's missing DTSTART or DTEND.") /\
  (forall uid, get "UID" event_E3 = Some (vText uid) ->
   skip_message E event_E3 =
   "Skipping event with UID '" +:+ uid +:+
   "' because it's missing DTSTART or DTEND.") /\
  (forall pre post new_cal w,
     fst (process_events E (pre ++ event_E3 :: post) new_cal w) =
     fst (process_events E (pre ++ post) new_cal w)) /\
  (forall pre post new_cal w nc w',
     process_events E (pre ++ event_E3 :: post) new_cal w = (Return nc, w') ->
     skip_message E event_E3 ∈ stdout w').
Proof.
  intros E. apply (skipped_event_is_not_fatal E event_E3).
  right. reflexivity.
Defined.

(** ** The whole run *)

Lemma http_error_msg_some resp :
  400 <= status_code resp < 600 -> exists msg, http_error_msg resp = Some msg.
Proof.
  intros H. unfold http_error_msg.
  destruct (400 <=? status_code resp) eqn:E1; [|lia].
  destruct (status_code resp <? 500) eqn:E2; simpl; [eauto|].
  destruct (500 <=? status_code resp) eqn:E3; [|lia].
  destruct (status_code resp <? 600) eqn:E4; simpl; [eauto|lia].
Qed.

Lemma http_error_msg_none resp :
  ~ 400 <= status_code resp < 600 -> http_error_msg resp = None.
Proof.
  intros H. unfold http_error_msg.
  destruct (400 <=? status_code resp) eqn:E1,
    (status_code resp <? 500) eqn:E2, (500 <=? status_code resp) eqn:E3,
    (status_code resp <? 600) eqn:E4; simpl; try reflexivity; lia.
Qed.

Lemma main_body_fetch_fails E msg w :
  fetch_fails E msg ->
  main_body E w = (Raise (RequestException msg), log w [fetching_line E]).
Proof.
  intros H. unfold main_body, fetching_line, requests_get, raise_for_status.
  destruct H as [Hu|u msg Hu Hn|u resp msg Hu Hn _ Hm]; rewrite Hu.
  - reflexivity.
  - run_monad. rewrite Hn. reflexivity.
  - run_monad. rewrite Hn, Hm. reflexivity.
Qed.

Lemma main_body_fetched E u resp cal w :
  URL E = Some u -> network E u 15 = inr resp ->
  http_error_msg resp = None ->
  from_ical E (sanitize (text resp)) = inr cal ->
  main_body E w =
  match copy_metadata E cal Calendar with
  | Return new_cal =>
      match process_events E (walk "VEVENT" cal) new_cal
              (log w (prelude E cal)) with
      | (Return nc, w') => publish E nc w'
      | (Raise e, w') => (Raise e, w')
      end
  | Raise e => (Raise e, log w [fetching_line E])
  end.
Proof.
  intros Hu Hn Hm Hc. unfold main_body, fetching_line, requests_get, raise_for_status.
  rewrite Hu. run_monad. rewrite Hn, Hm, Hc.
  destruct (copy_metadata E cal Calendar) as [nc0|x]; [|reflexivity].
  unfold log, prelude, fetching_line. cbn [stdout dirs files].
  rewrite Hu. rewrite <- !app_assoc. reflexivity.
Qed.

Lemma main_eq E w :
  main E w =
  match main_body E w with
  | (Raise e, w') => handler e w'
  | r => r
  end.
Proof. reflexivity. Qed.

Lemma handler_request_exception msg w :
  handler (RequestException msg) w =
  (Raise (RequestException msg),
   log w ["Error fetching the iCal file: " +:+ msg]).
Proof. reflexivity. Qed.

Lemma handler_unexpected x w :
  unexpected x ->
  handler x w =
  (Raise x, log w ["An unexpected error occurred: " +:+ exn_str x]).
Proof. intros Hx. destruct x; try reflexivity. exfalso. apply (Hx msg). reflexivity. Qed.

Lemma handler_raises e w : exists w', handler e w = (Raise e, w').
Proof. destruct e; eexists; reflexivity. Qed.

Lemma unexpected_not_a_date : unexpected not_a_date.
Proof. intros msg. discriminate. Qed.



(** The loop over a list that holds, at index [i], an event whose step
    raises: the loop raises an exception that is not of the fetch,
    and it is the one of that event unless an earlier event raises. *)
Lemma process_events_fatal E x0 component :
  unexpected x0 ->
  (forall new_cal w, process_event E component new_cal w = (Raise x0, w)) ->
  forall events i new_cal,
    events !! i = Some component ->
    exists x lines,
      unexpected x /\
      (forall w, process_events E events new_cal w = (Raise x, log w lines)) /\
      (forall w0 nc1 w1,
         process_events E (take i events) new_cal w0 = (Return nc1, w1) ->
         x = x0).
Proof.
  intros Hx0 Hstep events.
  induction events as [|c rest IH]; intros i new_cal Hi; [discriminate|].
  destruct i as [|j].
  - injection Hi as ->. exists x0, []. split; [exact Hx0|]. split; [|auto].
    intros w. rewrite process_events_cons, Hstep, log_nil. reflexivity.
  - cbn [lookup list_lookup] in Hi.
    destruct (process_event_form E c new_cal) as (o & lines & Hrun & Ho).
    destruct Ho as [->|[[ev ->]|(x & -> & Hx)]].
    + destruct (IH j new_cal Hi) as (x & lines' & Hx & Hall & Hfirst).
      exists x, (lines ++ lines'). split; [exact Hx|]. split.
      * intros w. rewrite process_events_cons, Hrun, Hall, log_log. reflexivity.
      * intros w0 nc1 w1. cbn [take]. rewrite process_events_cons, Hrun.
        apply Hfirst.
    + destruct (IH j (add_component ev new_cal) Hi)
        as (x & lines' & Hx & Hall & Hfirst).
      exists x, (lines ++ lines'). split; [exact Hx|]. split.
      * intros w. rewrite process_events_cons, Hrun, Hall, log_log. reflexivity.
      * intros w0 nc1 w1. cbn [take]. rewrite process_events_cons, Hrun.
        apply Hfirst.
    + exists x, lines. split; [exact Hx|]. split.
      * intros w. rewrite process_events_cons, Hrun. reflexivity.
      * intros w0 nc1 w1. cbn [take]. rewrite process_events_cons, Hrun.
        discriminate.
Qed.

(** C10: an event whose DTSTART and DTEND are dates makes the
    conversion raise an AttributeError; nothing is printed or appended
    for it.  A run whose calendar has such an event ends with an
    exception raised again from the handler of unexpected errors,
    whose line is the last one printed, and the directories and files
    are those of before.  The exception is that AttributeError
    whenever the copy of the calendar properties and the events before
    this one get through. *)
Theorem allday_event_is_fatal E component d1 d2 u resp cal i w :
  get "DTSTART" component = Some (vDDDTypes (DDate d1)) ->
  get "DTEND" component = Some (vDDDTypes (DDate d2)) ->
  URL E = Some u -> network E u 15 = inr resp ->
  ~ 400 <= status_code resp < 600 ->
  from_ical E (sanitize (text resp)) = inr cal ->
  walk "VEVENT" cal !! i = Some component ->
  (forall new_cal w0,
     process_event E component new_cal w0 =
     (Raise (AttributeError
        "'datetime.date' object has no attribute 'astimezone'"), w0)) /\
  exists x w',
    main E w = (Raise x, w') /\
    unexpected x /\
    last (stdout w') = Some ("An unexpected error occurred: " +:+ exn_str x) /\
    dirs w' = dirs w /\ files w' = files w /\
    (forall new_cal0 w0 new_cal1 w1,
       copy_metadata E cal Calendar = Return new_cal0 ->
       process_events E (take i (walk "VEVENT" cal)) new_cal0 w0 =
         (Return new_cal1, w1) ->
       x = AttributeError
             "'datetime.date' object has no attribute 'astimezone'").
Proof.
  intros H1 H2 Hu Hn Hst Hc Hin.
  assert (forall new_cal w0,
            process_event E component new_cal w0 =
            (Raise (AttributeError
               "'datetime.date' object has no attribute 'astimezone'"), w0))
    as Hstep.
  { intros new_cal w0. unfold process_event, contains.
    unfold get in H1, H2 |- *. rewrite H1, H2.
    rewrite !bool_decide_eq_true_2 by eauto. cbn [negb orb].
    unfold decoded_value, get. rewrite H1, H2. reflexivity. }
  split; [exact Hstep|].
  rewrite main_eq.
  rewrite (main_body_fetched E u resp cal w Hu Hn (http_error_msg_none _ Hst) Hc).
  destruct (copy_metadata E cal Calendar) as [nc0|x] eqn:Hcopy.
  - assert (unexpected (AttributeError
              "'datetime.date' object has no attribute 'astimezone'")) as Hx0
      by (intros msg; discriminate).
    destruct (process_events_fatal E _ component Hx0 Hstep _ i nc0 Hin)
      as (x & lines & Hx & Hall & Hfirst).
    rewrite Hall, (handler_unexpected _ _ Hx).
    exists x. eexists. split; [reflexivity|]. split; [exact Hx|].
    cbn [log stdout dirs files]. split; [apply last_snoc|].
    split; [reflexivity|]. split; [reflexivity|].
    intros new_cal0 w0 new_cal1 w1 [= <-] Hpre. apply (Hfirst _ _ _ Hpre).
  - pose proof (add_items_spec E (fun _ => false) cal Calendar eq_refl) as Hspec.
    fold (copy_metadata E cal Calendar) in Hspec. rewrite Hcopy in Hspec.
    destruct Hspec as [-> _].
    rewrite (handler_unexpected _ _ unexpected_not_a_date).
    exists not_a_date. eexists. split; [reflexivity|].
    split; [exact unexpected_not_a_date|].
    cbn [log stdout dirs files]. split; [apply last_snoc|].
    split; [reflexivity|]. split; [reflexivity|].
    intros new_cal0 w0 new_cal1 w1 Hd. discriminate Hd.
Qed.

Lemma allday_event_is_fatal_witness :
  let cal := example_calendar [event_E1; event_allday; event_E4] in
  let E := example_env (inr ok_response) cal in
  (forall new_cal w0,
     process_event E event_allday new_cal w0 =
     (Raise (AttributeError
        "'datetime.date' object has no attribute 'astimezone'"), w0)) /\
  exists x w',
    main E empty_world = (Raise x, w') /\
    unexpected x /\
    last (stdout w') = Some ("An unexpected error occurred: " +:+ exn_str x) /\
    dirs w' = dirs empty_world /\ files w' = files empty_world /\
    (forall new_cal0 w0 new_cal1 w1,
       copy_metadata E cal Calendar = Return new_cal0 ->
       process_events E (take 1 (walk "VEVENT" cal)) new_cal0 w0 =
         (Return new_cal1, w1) ->
       x = AttributeError
             "'datetime.date' object has no attribute 'astimezone'").
Proof.
  intros cal E.
  apply (allday_event_is_fatal E event_allday (ymd2ord 2024 1 10)
           (ymd2ord 2024 1 11) "https://example.org/shifts.ics" ok_response
           cal 1%nat empty_world).
  - reflexivity.
  - reflexivity.
  - reflexivity.
  - reflexivity.
  - simpl. lia.
  - reflexivity.
  - reflexivity.
Defined.

(** The all-day event of the example is what ends its run. *)
Example scenario_allday :
  main (example_env (inr ok_response)
          (example_calendar [event_E1; event_allday; event_E4])) empty_world =
  (Raise (AttributeError "'datetime.date' object has no attribute 'astimezone'"),
   log empty_world
     ["Fetching iCal from https://example.org/shifts.ics...";
      "Processing events and adjusting times...";
      "Found 3 events to process.";
      "Shift E1 adjusted to: 09:00 - 13:00 (Local Time)";
      "An unexpected error occurred: 'datetime.date' object has no attribute 'astimezone'"]).
Proof. vm_compute. reflexivity. Qed.

Lemma copy_metadata_cases E cal :
  (exists new_cal,
     copy_metadata E cal Calendar = Return new_cal /\
     comp_name new_cal = "VCALENDAR" /\ subcomponents new_cal = [] /\
     (forall k, get k new_cal = get k cal ≫= kept E (fun _ => false) k) /\
     (forall k v, get k cal = Some v -> list_of_dates k v = false)) \/
  (copy_metadata E cal Calendar = Raise not_a_date /\
   exists k v, get k cal = Some v /\ list_of_dates k v = true).
Proof.
  pose proof (add_items_spec E (fun _ => false) cal Calendar eq_refl) as H.
  fold (copy_metadata E cal Calendar) in H.
  destruct (copy_metadata E cal Calendar) as [nc0|x].
  - left. exists nc0. destruct H as (Hn & Hs & Hk & Hok).
    split; [reflexivity|]. split; [exact Hn|]. split; [exact Hs|].
    split; [exact Hk|]. intros k v Hkv. apply (Hok k v Hkv eq_refl).
  - right. destruct H as (-> & k & v & Hkv & _ & Hl). split; [reflexivity|].
    exists k, v. auto.
Qed.

(** The part of C8 that holds: in a run that returns, the copy of
    lines 32-33 gave a calendar without subcomponents in which every
    property of the parsed calendar that is no list under RDATE,
    EXDATE or CATEGORIES has its value, and no other key is there; the
    loop over the events started from that calendar and kept its
    properties up to the document that was written. *)
Lemma plain_metadata_is_copied E u resp cal w w' :
  URL E = Some u -> network E u 15 = inr resp ->
  from_ical E (sanitize (text resp)) = inr cal ->
  main E w = (Return tt, w') ->
  exists new_cal nc w1 w2,
    copy_metadata E cal Calendar = Return new_cal /\
    subcomponents new_cal = [] /\
    (forall k v, get k cal = Some v -> plain_value k v = true ->
       get k new_cal = Some v) /\
    (forall k, get k cal = None -> get k new_cal = None) /\
    process_events E (walk "VEVENT" cal) new_cal w1 = (Return nc, w2) /\
    comp_props nc = comp_props new_cal /\
    files w' !! output_file_path = Some (to_ical E nc).
Proof.
  intros Hu Hn Hc Hmain. rewrite main_eq in Hmain.
  destruct (http_error_msg resp) as [msg|] eqn:Hst.
  { assert (fetch_fails E msg) as Hf.
    { destruct (decide (400 <= status_code resp < 600)) as [Hr|Hr].
      - apply (fetch_status E u resp msg Hu Hn Hr Hst).
      - rewrite (http_error_msg_none _ Hr) in Hst. discriminate. }
    rewrite (main_body_fetch_fails E msg w Hf) in Hmain.
    rewrite handler_request_exception in Hmain. discriminate. }
  rewrite (main_body_fetched E u resp cal w Hu Hn Hst Hc) in Hmain.
  destruct (copy_metadata_cases E cal)
    as [(nc0 & Hcopy & _ & Hsubs & Hk & _)|[Hcopy _]]; rewrite Hcopy in Hmain.
  2:{ destruct (handler_raises not_a_date (log w [fetching_line E])) as [w0 Hh].
      rewrite Hh in Hmain. discriminate. }
  destruct (process_events_form E (walk "VEVENT" cal) nc0)
    as (o & lines & Hrun & Ho).
  rewrite Hrun in Hmain.
  destruct Ho as [(nc & -> & _ & Hp & _)|(x & -> & _)].
  - exists nc0, nc, w, (log w lines). split; [exact Hcopy|].
    split; [exact Hsubs|]. split; [|split; [|split; [apply Hrun|split; [exact Hp|]]]].
    + intros k v Hkv Hplain. rewrite Hk, Hkv. simpl. unfold kept.
      rewrite (encode_plain E k v Hplain). reflexivity.
    + intros k Hkv. rewrite Hk, Hkv. reflexivity.
    + destruct (publish E nc _) as [[[]|e] wp] eqn:Hpub.
      * injection Hmain as <-. revert Hpub.
        unfold publish, makedirs, write_file. run_monad.
        destruct (bool_decide (is_Some (files _ !! "docs"))); [discriminate|].
        cbn [dirs files stdout].
        destruct (bool_decide (output_file_path ∈ _)); [discriminate|].
        cbn [dirs files stdout].
        destruct (bool_decide (nojekyll_path ∈ _)); [discriminate|].
        intros [= <-]. cbn [files].
        rewrite lookup_insert_ne by discriminate. apply lookup_insert_eq.
      * destruct (handler_raises e wp) as [w0 Hh].
        rewrite Hh in Hmain. discriminate.
  - destruct (handler_raises x (log (log w (prelude E cal)) lines)) as [w0 Hh].
    rewrite Hh in Hmain. discriminate.
Qed.

(** C8, at a calendar that has two CATEGORIES lines of its own: the
    copy of lines 32-33 is through before any event is appended, and
    the run returns, but the calendar that is written has one
    CATEGORIES value that holds the [str] of the two values of the
    source, not their texts. *)
Theorem calendar_categories_are_rewritten :
  let cal := calendar_two_categories in
  let E := example_env (inr ok_response) cal in
  get "CATEGORIES" cal =
    Some (vList [vCategory ["work"]; vCategory ["roster"]]) /\
  exists new_cal nc w',
    copy_metadata E cal Calendar = Return new_cal /\
    subcomponents new_cal = [] /\
    get "VERSION" new_cal = get "VERSION" cal /\
    get "CATEGORIES" new_cal = Some (vCategory ["<value>"; "<value>"]) /\
    get "CATEGORIES" new_cal <> get "CATEGORIES" cal /\
    fst (process_events E (walk "VEVENT" cal) new_cal empty_world) = Return nc /\
    get "CATEGORIES" nc = Some (vCategory ["<value>"; "<value>"]) /\
    main E empty_world = (Return tt, w') /\
    files w' !! output_file_path = Some (to_ical E nc).
Proof.
  intros cal E. split; [reflexivity|].
  eexists _, _, _. split; [vm_compute; reflexivity|].
  split; [reflexivity|].
  split; [vm_compute; reflexivity|].
  split; [vm_compute; reflexivity|].
  split; [vm_compute; discriminate|].
  split; [vm_compute; reflexivity|].
  split; [vm_compute; reflexivity|].
  split; [vm_compute; reflexivity|].
  vm_compute. reflexivity.
Qed.

(** ** The sanitizer *)

Lemma lstrip_spec s :
  exists pre,
    s = pre ++ lstrip s /\ Forall (fun c => is_space c = true) pre /\
    ~ starts_with_space (lstrip s).
Proof.
  induction s as [|c s IH].
  - exists []. repeat split; [constructor|]. intros (c & r & H & _). discriminate.
  - simpl. destruct (is_space c) eqn:Hc.
    + destruct IH as (pre & Hs & Hpre & Hn). exists (c :: pre).
      repeat split; [simpl; congruence | constructor; assumption | exact Hn].
    + exists []. repeat split; [constructor|].
      intros (c' & r & H & Hsp). injection H as <- _. congruence.
Qed.

Lemma rstrip_spec s :
  exists post,
    s = rstrip s ++ post /\ Forall (fun c => is_space c = true) post /\
    ~ ends_with_space (rstrip s).
Proof.
  unfold rstrip. destruct (lstrip_spec (rev s)) as (pre & Hs & Hpre & Hn).
  exists (rev pre). repeat split.
  - rewrite <- rev_app_distr, <- Hs, rev_involutive. reflexivity.
  - apply Forall_rev, Hpre.
  - intros (front & c & H & Hsp). apply Hn. exists c, (rev front). split.
    + rewrite <- (rev_involutive (lstrip (rev s))), H, rev_app_distr.
      reflexivity.
    + exact Hsp.
Qed.




Example sanitize_example :
  sanitize [32; 66; 160; 69; 9; 13; 10; 160; 71; 32; 72; 10] =
  [66; 69; 10; 71; 32; 72].
Proof. vm_compute. reflexivity. Qed.
(** ** Runs that get through *)

Lemma publish_eq E new_cal w :
  files w !! "docs" = None ->
  output_file_path ∉ dirs w -> nojekyll_path ∉ dirs w ->
  publish E new_cal w =
  (Return tt,
   mk_world
     (stdout w ++ ["New iCal file saved to " +:+ output_file_path;
                   "Created " +:+ nojekyll_path +:+ " for GitHub Pages."])
     ({["docs"]} ∪ dirs w)
     (<[nojekyll_path := []]>
        (<[output_file_path := to_ical E new_cal]> (files w)))).
Proof.
  intros Hdocs Hout Hmark. unfold publish, makedirs, write_file. run_monad.
  rewrite Hdocs.
  rewrite (bool_decide_eq_false_2 (is_Some None)) by apply is_Some_None.
  cbn [dirs files stdout].
  rewrite (bool_decide_eq_false_2 (output_file_path ∈ {["docs"]} ∪ dirs w)).
  2:{ rewrite elem_of_union, elem_of_singleton. intros [H|H]; [discriminate H|auto]. }
  cbn [dirs files stdout].
  rewrite (bool_decide_eq_false_2 (nojekyll_path ∈ {["docs"]} ∪ dirs w)).
  2:{ rewrite elem_of_union, elem_of_singleton. intros [H|H]; [discriminate H|auto]. }
  cbn [dirs files stdout]. rewrite <- app_assoc. reflexivity.
Qed.

Lemma event_times_timed c s e :
  get "DTSTART" c = Some (vDDDTypes (DDatetime s)) ->
  get "DTEND" c = Some (vDDDTypes (DDatetime e)) ->
  event_times c = Some (s, e).
Proof. intros Hs He. unfold event_times. rewrite Hs, He. reflexivity. Qed.

Lemma event_times_skipped c : skipped c -> event_times c = None.
Proof.
  unfold event_times. intros [H|H]; rewrite H; simpl; [reflexivity|].
  destruct (as_datetime _); reflexivity.
Qed.

(** A step that returns did what [shifted_event] and [event_line]
    say. *)
Lemma process_event_returns E c new_cal w nc w' :
  process_event E c new_cal w = (Return nc, w') ->
  nc = match shifted_event E c with
       | Some out => add_component out new_cal
       | None => new_cal
       end /\
  w' = log w [event_line E c].
Proof.
  destruct (get "DTSTART" c) as [v1|] eqn:H1;
    [destruct (get "DTEND" c) as [v2|] eqn:H2|].
  - destruct (decode v1) as [s|d|n] eqn:D1;
      [destruct (decode v2) as [e|d|n] eqn:D2|..].
    + apply decode_datetime in D1, D2. subst v1 v2. intros Hrun.
      destruct (process_event_written E _ _ _ s e nc w' H1 H2 Hrun)
        as (out & _ & Hr & Ho & -> & ->).
      unfold shifted_event, event_line.
      rewrite (event_times_timed c s e H1 H2), Hr.
      cbn [mbind outcome_bind]. rewrite Ho. split; reflexivity.
    + apply decode_datetime in D1. subst v1.
      destruct (process_event_bad_end E c new_cal s v2 H1 H2) as (x & _ & Hm);
        [intros dt; congruence|]. rewrite Hm. discriminate.
    + apply decode_datetime in D1. subst v1.
      destruct (process_event_bad_end E c new_cal s v2 H1 H2) as (x & _ & Hm);
        [intros dt; congruence|]. rewrite Hm. discriminate.
    + destruct (process_event_bad_start E c new_cal v1 v2 H1 H2) as [m Hm];
        [intros dt; congruence|]. rewrite Hm. discriminate.
    + destruct (process_event_bad_start E c new_cal v1 v2 H1 H2) as [m Hm];
        [intros dt; congruence|]. rewrite Hm. discriminate.
  - assert (skipped c) as Hsk by (right; exact H2).
    rewrite (process_event_skipped _ _ _ _ Hsk).
    unfold shifted_event, event_line. rewrite (event_times_skipped c Hsk).
    intros [= <- <-]. split; reflexivity.
  - assert (skipped c) as Hsk by (left; exact H1).
    rewrite (process_event_skipped _ _ _ _ Hsk).
    unfold shifted_event, event_line. rewrite (event_times_skipped c Hsk).
    intros [= <- <-]. split; reflexivity.
Qed.

Lemma process_events_returns E events new_cal w nc w' :
  process_events E events new_cal w = (Return nc, w') ->
  comp_name nc = comp_name new_cal /\
  comp_props nc = comp_props new_cal /\
  subcomponents nc = subcomponents new_cal ++ omap (shifted_event E) events /\
  w' = log w (map (event_line E) events).
Proof.
  revert new_cal w. induction events as [|c rest IH]; intros new_cal w.
  - intros [= <- <-]. rewrite log_nil, app_nil_r. auto.
  - rewrite process_events_cons.
    destruct (process_event E c new_cal w) as [[nc1|e1] w1] eqn:Hstep;
      [|discriminate].
    apply process_event_returns in Hstep as [-> ->].
    intros Hrest. apply IH in Hrest as (Hn & Hp & Hs & ->).
    rewrite log_log. cbn [map app omap list_omap].
    destruct (shifted_event E c) as [out|]; simpl in *.
    + rewrite Hs, <- app_assoc. auto.
    + auto.
Qed.

(** The run after a fetch and a parse that succeed, when the copy of
    the calendar properties and the loop over the events get through:
    what is left is the publishing of the calendar the loop built. *)
Lemma main_body_published E u resp cal w new_cal w0 nc :
  URL E = Some u -> network E u 15 = inr resp ->
  ~ 400 <= status_code resp < 600 ->
  from_ical E (sanitize (text resp)) = inr cal ->
  copy_metadata E cal Calendar = Return new_cal ->
  fst (process_events E (walk "VEVENT" cal) new_cal w0) = Return nc ->
  nc = mkComponent "VCALENDAR" (comp_props new_cal)
         (omap (shifted_event E) (walk "VEVENT" cal)) /\
  exists lines, main_body E w = publish E nc (log w lines).
Proof.
  intros Hu Hn Hst Hc Hcopy Hloop.
  rewrite (main_body_fetched E u resp cal w Hu Hn (http_error_msg_none _ Hst) Hc).
  rewrite Hcopy.
  destruct (process_events_form E (walk "VEVENT" cal) new_cal)
    as (o & lines & Hrun & _).
  rewrite Hrun in Hloop. cbn [fst] in Hloop. subst o.
  pose proof (process_events_returns E _ _ _ _ _ (Hrun w0))
    as (Hname & Hprops & Hsubs & _).
  destruct (copy_metadata_cases E cal)
    as [(nc0 & Hcopy' & Hn0 & Hs0 & _)|[Hcopy' _]]; rewrite Hcopy in Hcopy';
    [|discriminate].
  injection Hcopy' as <-. rewrite Hn0 in Hname. rewrite Hs0 in Hsubs.
  split.
  - destruct nc as [n ps subs]; simpl in *. congruence.
  - exists (prelude E cal ++ lines). rewrite Hrun, log_log. reflexivity.
Qed.

(** A run whose fetch and parse succeed, whose calendar holds no
    non-empty list under RDATE or EXDATE, whose events all lack a time
    or are written, and whose output paths are free, returns. *)
Lemma run_succeeds E u resp cal w :
  URL E = Some u -> network E u 15 = inr resp ->
  ~ 400 <= status_code resp < 600 ->
  from_ical E (sanitize (text resp)) = inr cal ->
  (forall k v, get k cal = Some v -> list_of_dates k v = false) ->
  Forall (fun c => skipped c \/ writable E c) (walk "VEVENT" cal) ->
  files w !! "docs" = None ->
  output_file_path ∉ dirs w -> nojekyll_path ∉ dirs w ->
  exists w', main E w = (Return tt, w').
Proof.
  intros Hu Hn Hst Hc Hcal Hev Hdocs Hout Hmark.
  destruct (copy_metadata_cases E cal)
    as [(nc0 & Hcopy & _)|(_ & k & v & Hkv & Hl)];
    [|rewrite (Hcal k v Hkv) in Hl; discriminate].
  destruct (process_events_succeeds E _ Hev nc0 w) as (nc & w1 & Hok).
  destruct (main_body_published E u resp cal w nc0 w nc Hu Hn Hst Hc Hcopy)
    as (_ & lines & Hb); [rewrite Hok; reflexivity|].
  rewrite main_eq, Hb, publish_eq by assumption. eexists. reflexivity.
Qed.

Example scenario_E2 :
  exists r,
    shift_times system_utc Europe_Amsterdam
      (local_datetime 2024 1 10 13 45 0 (hours 1))
      (local_datetime 2024 1 10 14 30 0 (hours 1)) = Return r /\
    strftime_HM (sh_start_local r) = "13:00" /\
    strftime_HM (sh_end_local r) = "17:00" /\
    new_start_utc r = utc_datetime 2024 1 10 12 0 0 /\
    new_end_utc r = utc_datetime 2024 1 10 16 0 0.
Proof. eexists. vm_compute. repeat split; reflexivity. Qed.

Example scenario_E3 :
  process_event (example_env (inr ok_response) Calendar) event_E3 Calendar
    empty_world =
  (Return Calendar,
   log empty_world
     ["Skipping event with UID 'E3' because it's missing DTSTART or DTEND."]).
Proof. vm_compute. reflexivity. Qed.

Example scenario_run :
  let cal := example_calendar [event_E1; event_E2; event_E3; event_E4] in
  let r := main (example_env (inr ok_response) cal) empty_world in
  fst r = Return tt /\
  stdout (snd r) =
  ["Fetching iCal from https://example.org/shifts.ics...";
   "Processing events and adjusting times...";
   "Found 4 events to process.";
   "Shift E1 adjusted to: 09:00 - 13:00 (Local Time)";
   "Shift E2 adjusted to: 13:00 - 17:00 (Local Time)";
   "Skipping event with UID 'E3' because it's missing DTSTART or DTEND.";
   "Shift E4 adjusted to: 10:00 - 11:00 (Local Time)";
   "New iCal file saved to docs/fixed_shifts.ics";
   "Created docs/.nojekyll for GitHub Pages."].
Proof. vm_compute. split; reflexivity. Qed.

(** * Further properties of the run *)

(** ** Failures before the loop *)

(** X1: a feed that is fetched but does not parse ends the run with
    the [ValueError] of the parser raised again from the handler of
    unexpected errors; two lines are printed, and the directories and
    files are those of before. *)
Theorem parse_failure_leaves_files E u resp msg w :
  URL E = Some u -> network E u 15 = inr resp ->
  ~ 400 <= status_code resp < 600 ->
  from_ical E (sanitize (text resp)) = inl msg ->
  main E w =
  (Raise (ValueError msg),
   log w [fetching_line E; "An unexpected error occurred: " +:+ msg]).
Proof.
  intros Hu Hn Hst Hc. rewrite main_eq.
  unfold main_body, requests_get, raise_for_status.
  rewrite Hu. run_monad. rewrite Hn, (http_error_msg_none _ Hst), Hc.
  cbn [handler]. run_monad. unfold log. simpl.
  rewrite <- app_assoc. reflexivity.
Qed.

Lemma parse_failure_leaves_files_witness :
  main broken_feed_env empty_world =
  (Raise (ValueError "Content line could not be parsed into parts"),
   log empty_world
     [fetching_line broken_feed_env;
      "An unexpected error occurred: " +:+
      "Content line could not be parsed into parts"]).
Proof.
  apply (parse_failure_leaves_files broken_feed_env
           "https://example.org/shifts.ics" ok_response
           "Content line could not be parsed into parts" empty_world).
  - reflexivity.
  - reflexivity.
  - simpl. lia.
  - reflexivity.
Defined.

(** X2: whenever the run raises, the exception is the one its body
    raised, and the last line printed is the line of the handler with
    the message of that exception. *)
Theorem failed_run_reports E w e w' :
  main E w = (Raise e, w') ->
  exists w1,
    main_body E w = (Raise e, w1) /\
    w' = log w1 [error_line e] /\
    last (stdout w') = Some (error_line e).
Proof.
  rewrite main_eq. destruct (main_body E w) as [[[]|e1] w1]; [discriminate|].
  intros Hh. exists w1.
  assert (handler e1 w1 = (Raise e1, log w1 [error_line e1])) as Hrun
    by (destruct e1; reflexivity).
  rewrite Hrun in Hh. injection Hh as -> <-.
  repeat split. unfold log; simpl. apply last_snoc.
Qed.

Lemma failed_run_reports_witness :
  exists w1,
    main_body broken_feed_env empty_world =
      (Raise (ValueError "Content line could not be parsed into parts"), w1) /\
    snd (main broken_feed_env empty_world) =
      log w1 [error_line
                (ValueError "Content line could not be parsed into parts")] /\
    last (stdout (snd (main broken_feed_env empty_world))) =
      Some (error_line
              (ValueError "Content line could not be parsed into parts")).
Proof.
  apply (failed_run_reports broken_feed_env empty_world
           (ValueError "Content line could not be parsed into parts")
           (snd (main broken_feed_env empty_world))).
  vm_compute. reflexivity.
Defined.

(** ** The loop, event by event *)

(** X3: a loop that gets through appends to the output calendar, in
    the order of the source, the rewritten event of every event that
    has both times, and nothing for the others; the properties of the
    calendar stay; one line is printed per event, in that order. *)
Theorem loop_appends_in_order E events new_cal w nc w' :
  process_events E events new_cal w = (Return nc, w') ->
  comp_name nc = comp_name new_cal /\
  comp_props nc = comp_props new_cal /\
  subcomponents nc = subcomponents new_cal ++ omap (shifted_event E) events /\
  w' = log w (map (event_line E) events).
Proof. apply process_events_returns. Qed.

Lemma loop_appends_in_order_witness :
  let E := example_env (inr ok_response) Calendar in
  let events := [event_E1; event_E3; event_E4] in
  let r := process_events E events Calendar empty_world in
  let nc := match fst r with Return nc => nc | Raise _ => Calendar end in
  comp_name nc = comp_name Calendar /\
  comp_props nc = comp_props Calendar /\
  subcomponents nc = subcomponents Calendar ++ omap (shifted_event E) events /\
  snd r = log empty_world (map (event_line E) events).
Proof.
  intros E events r nc.
  apply (loop_appends_in_order E events Calendar empty_world nc (snd r)).
  vm_compute. reflexivity.
Defined.

Lemma omap_length_le {A B} (f : A -> option B) (l : list A) :
  (length (omap f l) <= length l)%nat.
Proof.
  induction l as [|x l IH]; [reflexivity|].
  cbn [omap list_omap]. destruct (f x); simpl; lia.
Qed.

Lemma shifted_event_shape E c out :
  shifted_event E c = Some out ->
  comp_name out = "VEVENT" /\ subcomponents out = [].
Proof.
  unfold shifted_event. destruct (event_times c) as [[s e]|]; [|discriminate].
  destruct (shift_times _ _ s e) as [r|x]; cbn [mbind outcome_bind];
    [|discriminate].
  destruct (rebuild_event E c _ _) as [ev|x] eqn:Ho; [|discriminate].
  intros [= <-]. apply rebuild_event_Return in Ho as (Hn & Hs & _). auto.
Qed.

(** X4: the calendar a run builds is flat and holds events only: each
    of its subcomponents is a VEVENT without subcomponents, so neither
    the time zone definitions or to-dos of the source calendar nor the
    alarms of its events are carried over; and there are at most as
    many as the source has events. *)
Theorem output_holds_bare_events E cal new_cal w nc w' :
  copy_metadata E cal Calendar = Return new_cal ->
  process_events E (walk "VEVENT" cal) new_cal w = (Return nc, w') ->
  Forall (fun c => comp_name c = "VEVENT" /\ subcomponents c = [])
    (subcomponents nc) /\
  (length (subcomponents nc) <= length (walk "VEVENT" cal))%nat.
Proof.
  intros Hcopy Hrun. apply process_events_returns in Hrun as (_ & _ & Hs & _).
  destruct (copy_metadata_cases E cal)
    as [(nc0 & Hcopy' & _ & Hs0 & _)|[Hcopy' _]]; rewrite Hcopy in Hcopy';
    [|discriminate].
  injection Hcopy' as <-. rewrite Hs0 in Hs. simpl in Hs. rewrite Hs. split.
  - apply Forall_forall. intros out Hin.
    apply list_elem_of_omap in Hin as (c & _ & Hc).
    apply (shifted_event_shape E c out Hc).
  - apply omap_length_le.
Qed.

Lemma output_holds_bare_events_witness :
  let cal := calendar_with_timezone in
  let E := example_env (inr ok_response) cal in
  let new_cal := match copy_metadata E cal Calendar with
                 | Return c => c
                 | Raise _ => Calendar
                 end in
  let r := process_events E (walk "VEVENT" cal) new_cal empty_world in
  let nc := match fst r with Return nc => nc | Raise _ => Calendar end in
  Forall (fun c => comp_name c = "VEVENT" /\ subcomponents c = [])
    (subcomponents nc) /\
  (length (subcomponents nc) <= length (walk "VEVENT" cal))%nat.
Proof.
  intros cal E new_cal r nc.
  apply (output_holds_bare_events E cal new_cal empty_world nc (snd r)).
  - vm_compute. reflexivity.
  - vm_compute. reflexivity.
Defined.

(** ** The times that are written *)

Lemma shift_readings_written lz tz s e :
  convertible lz tz s e ->
  let r := shift_readings lz tz s e in
  tzinfo (new_start_utc r) = Some 0 /\ tzinfo (new_end_utc r) = Some 0 /\
  valid_datetime (new_start_utc r) /\ valid_datetime (new_end_utc r) /\
  0 < toordinal (new_start_utc r) <= MAXORDINAL /\
  0 < toordinal (new_end_utc r) <= MAXORDINAL.
Proof.
  intros (_ & _ & _ & _ & R5 & R6) r. subst r.
  destruct (shift_readings_utc lz tz s e) as [-> ->].
  apply representable_days in R5, R6.
  unfold utc_reading.
  split; [reflexivity|]. split; [reflexivity|].
  split; [apply valid_from_wall_us|]. split; [apply valid_from_wall_us|].
  split; assumption.
Qed.

(** X5: whatever rule applies, the DTSTART and DTEND a step of the
    loop has written are well-formed values in UTC, on days of the
    years 1..9999. *)
Theorem written_times_are_utc E component new_cal w s e nc w' :
  get "DTSTART" component = Some (vDDDTypes (DDatetime s)) ->
  get "DTEND" component = Some (vDDDTypes (DDatetime e)) ->
  process_event E component new_cal w = (Return nc, w') ->
  exists out s' e',
    nc = add_component out new_cal /\
    get "DTSTART" out = Some (vDDDTypes (DDatetime s')) /\
    get "DTEND" out = Some (vDDDTypes (DDatetime e')) /\
    tzinfo s' = Some 0 /\ tzinfo e' = Some 0 /\
    valid_datetime s' /\ valid_datetime e' /\
    0 < toordinal s' <= MAXORDINAL /\ 0 < toordinal e' <= MAXORDINAL.
Proof.
  intros Hs He Hrun.
  destruct (process_event_written E _ _ _ s e nc w' Hs He Hrun)
    as (out & Hc & _ & Ho & -> & _).
  apply rebuild_event_Return in Ho as (_ & _ & Hst & Hen & _).
  exists out. eexists _, _. split; [reflexivity|].
  split; [exact Hst|]. split; [exact Hen|].
  apply (shift_readings_written _ _ _ _ Hc).
Qed.

Lemma written_times_are_utc_witness :
  let E := example_env (inr ok_response) Calendar in
  let run := process_event E event_E2 Calendar empty_world in
  let nc := match fst run with Return nc => nc | Raise _ => Calendar end in
  exists out s' e',
    nc = add_component out Calendar /\
    get "DTSTART" out = Some (vDDDTypes (DDatetime s')) /\
    get "DTEND" out = Some (vDDDTypes (DDatetime e')) /\
    tzinfo s' = Some 0 /\ tzinfo e' = Some 0 /\
    valid_datetime s' /\ valid_datetime e' /\
    0 < toordinal s' <= MAXORDINAL /\ 0 < toordinal e' <= MAXORDINAL.
Proof.
  intros E run nc.
  apply (written_times_are_utc E event_E2 Calendar empty_world
           (local_datetime 2024 1 10 13 45 0 (hours 1))
           (local_datetime 2024 1 10 14 30 0 (hours 1)) nc (snd run)).
  - reflexivity.
  - reflexivity.
  - vm_compute. reflexivity.
Defined.

Lemma start_delta_cases sl :
  (is_0845 sl /\ start_delta sl = minutes 15) \/
  (~ is_0845 sl /\ is_1345 sl /\ start_delta sl = - minutes 45) \/
  (~ is_0845 sl /\ ~ is_1345 sl /\ start_delta sl = 0).
Proof.
  unfold start_delta, is_0845, is_1345.
  destruct (hour sl =? 8) eqn:E1, (minute sl =? 45) eqn:E2,
    (hour sl =? 13) eqn:E3; simpl; lia.
Qed.

(** X6: in any zone, the start a step of the loop has written is the
    instant of the input start moved by a quarter of an hour forward
    when the converted start reads 08:45, by three quarters of an hour
    back when it reads 13:45, and not at all otherwise. *)
Theorem start_moves_by_rule E component new_cal w s e nc w' :
  get "DTSTART" component = Some (vDDDTypes (DDatetime s)) ->
  get "DTEND" component = Some (vDDDTypes (DDatetime e)) ->
  process_event E component new_cal w = (Return nc, w') ->
  exists out s' start_local,
    nc = add_component out new_cal /\
    astimezone (local_zone E) (tz E) s = Return start_local /\
    get "DTSTART" out = Some (vDDDTypes (DDatetime s')) /\
    timestamp (local_zone E) s' =
      timestamp (local_zone E) s + start_delta start_local.
Proof.
  intros Hs He Hrun.
  destruct (process_event_written E _ _ _ s e nc w' Hs He Hrun)
    as (out & Hc & _ & Ho & -> & _).
  apply rebuild_event_Return in Ho as (_ & _ & Hst & _).
  exists out. eexists _, _. split; [reflexivity|].
  split; [apply (convertible_start _ _ _ _ Hc)|]. split; [exact Hst|].
  destruct (start_delta_cases (zone_reading (local_zone E) (tz E) s))
    as [[H ->]|[(H1 & H2 & ->)|(H1 & H2 & ->)]].
  - apply (morning_instants _ _ s e H).
  - destruct (afternoon_instants _ _ s e H2) as [-> _]. lia.
  - destruct (unmatched_instants _ _ s e H1 H2) as (_ & _ & -> & _). lia.
Qed.

Lemma start_moves_by_rule_witness :
  let E := example_env (inr ok_response) Calendar in
  let run := process_event E event_E2 Calendar empty_world in
  let nc := match fst run with Return nc => nc | Raise _ => Calendar end in
  exists out s' start_local,
    nc = add_component out Calendar /\
    astimezone (local_zone E) (tz E)
      (local_datetime 2024 1 10 13 45 0 (hours 1)) = Return start_local /\
    get "DTSTART" out = Some (vDDDTypes (DDatetime s')) /\
    timestamp (local_zone E) s' =
      timestamp (local_zone E) (local_datetime 2024 1 10 13 45 0 (hours 1)) +
      start_delta start_local.
Proof.
  intros E run nc.
  apply (start_moves_by_rule E event_E2 Calendar empty_world
           (local_datetime 2024 1 10 13 45 0 (hours 1))
           (local_datetime 2024 1 10 14 30 0 (hours 1)) nc (snd run)).
  - reflexivity.
  - reflexivity.
  - vm_compute. reflexivity.
Defined.

Lemma replaced_difference lz sl el h1 h2 off :
  tzinfo sl = Some off -> tzinfo el = Some off ->
  toordinal el = toordinal sl ->
  timestamp lz (replace_hm el h2 0) - timestamp lz (replace_hm sl h1 0) =
  (h2 - h1) * US_PER_HOUR + (second el - second sl) * US_PER_SECOND +
  (microsecond el - microsecond sl).
Proof.
  intros H1 H2 Hd. unfold timestamp, utcoffset, wall_us.
  cbn [replace_hm toordinal hour minute second microsecond tzinfo].
  rewrite H1, H2, Hd. lia.
Qed.

(** X7: when one of the two rules applies and the converted end lies
    on the local day of the converted start, at the same offset, the
    event a step of the loop has written lasts four hours, up to the
    difference between the seconds and microseconds of the two inputs,
    which the rules keep. *)
Theorem same_day_shift_lasts_four_hours E component new_cal w s e nc w' :
  let start_local := zone_reading (local_zone E) (tz E) s in
  let end_local := zone_reading (local_zone E) (tz E) e in
  get "DTSTART" component = Some (vDDDTypes (DDatetime s)) ->
  get "DTEND" component = Some (vDDDTypes (DDatetime e)) ->
  is_0845 start_local \/ is_1345 start_local ->
  toordinal end_local = toordinal start_local ->
  tzinfo end_local = tzinfo start_local ->
  process_event E component new_cal w = (Return nc, w') ->
  astimezone (local_zone E) (tz E) s = Return start_local /\
  astimezone (local_zone E) (tz E) e = Return end_local /\
  exists out s' e',
    nc = add_component out new_cal /\
    get "DTSTART" out = Some (vDDDTypes (DDatetime s')) /\
    get "DTEND" out = Some (vDDDTypes (DDatetime e')) /\
    timestamp (local_zone E) e' - timestamp (local_zone E) s' =
      hours 4 +
      (second end_local - second start_local) * US_PER_SECOND +
      (microsecond end_local - microsecond start_local).
Proof.
  intros sl el Hs He Hrule Hday Htz Hrun.
  destruct (process_event_written E _ _ _ s e nc w' Hs He Hrun)
    as (out & Hc & _ & Ho & -> & _).
  apply rebuild_event_Return in Ho as (_ & _ & Hst & Hen & _).
  destruct (convertible_start _ _ _ _ Hc) as [Hcs Hce].
  split; [exact Hcs|]. split; [exact Hce|].
  exists out. eexists _, _. split; [reflexivity|].
  split; [exact Hst|]. split; [exact Hen|].
  subst sl el. rewrite (tzinfo_zone_reading _ _ s) in Htz.
  pose proof (fun h1 h2 =>
    replaced_difference (local_zone E) _ _ h1 h2 _
      (tzinfo_zone_reading (local_zone E) (tz E) s) Htz Hday) as Hdiff.
  destruct Hrule as [H|H].
  - rewrite (shift_readings_morning _ _ _ _ H).
    cbn [new_start_utc new_end_utc].
    rewrite !timestamp_utc_reading, Hdiff. unfold hours. lia.
  - rewrite (shift_readings_afternoon _ _ _ _ H).
    cbn [new_start_utc new_end_utc].
    rewrite !timestamp_utc_reading, Hdiff. unfold hours. lia.
Qed.

Lemma same_day_shift_lasts_four_hours_witness :
  let E := example_env (inr ok_response) Calendar in
  let s := local_datetime 2024 1 10 8 45 0 (hours 1) in
  let e := local_datetime 2024 1 10 9 30 0 (hours 1) in
  let start_local := zone_reading (local_zone E) (tz E) s in
  let end_local := zone_reading (local_zone E) (tz E) e in
  let run := process_event E event_E1 Calendar empty_world in
  let nc := match fst run with Return nc => nc | Raise _ => Calendar end in
  astimezone (local_zone E) (tz E) s = Return start_local /\
  astimezone (local_zone E) (tz E) e = Return end_local /\
  exists out s' e',
    nc = add_component out Calendar /\
    get "DTSTART" out = Some (vDDDTypes (DDatetime s')) /\
    get "DTEND" out = Some (vDDDTypes (DDatetime e')) /\
    timestamp (local_zone E) e' - timestamp (local_zone E) s' =
      hours 4 +
      (second end_local - second start_local) * US_PER_SECOND +
      (microsecond end_local - microsecond start_local).
Proof.
  intros E s e start_local end_local run nc.
  apply (same_day_shift_lasts_four_hours E event_E1 Calendar empty_world
           s e nc (snd run)).
  - reflexivity.
  - reflexivity.
  - left. vm_compute. split; reflexivity.
  - vm_compute. reflexivity.
  - vm_compute. reflexivity.
  - vm_compute. reflexivity.
Defined.

(** ** The lines that are printed *)

(** X8: the line a step of the loop has printed for an event with
    both times names it by its UID, or by None when it has none, and
    reports 09:00 - 13:00 when the converted start reads 08:45 and
    13:00 - 17:00 when it reads 13:45, whatever the date, the seconds
    and the zone. *)
Theorem rewritten_event_line E component new_cal w s e nc w' :
  get "DTSTART" component = Some (vDDDTypes (DDatetime s)) ->
  get "DTEND" component = Some (vDDDTypes (DDatetime e)) ->
  process_event E component new_cal w = (Return nc, w') ->
  let uid := match get "UID" component with
             | Some v => py_str E v
             | None => "None"
             end in
  exists start_local,
    astimezone (local_zone E) (tz E) s = Return start_local /\
    (is_0845 start_local ->
     last (stdout w') =
       Some ("Shift " +:+ uid +:+ " adjusted to: 09:00 - 13:00 (Local Time)")) /\
    (is_1345 start_local ->
     last (stdout w') =
       Some ("Shift " +:+ uid +:+ " adjusted to: 13:00 - 17:00 (Local Time)")).
Proof.
  intros Hs He Hrun uid.
  destruct (process_event_written E _ _ _ s e nc w' Hs He Hrun)
    as (out & Hc & _ & _ & _ & ->).
  eexists. split; [apply (convertible_start _ _ _ _ Hc)|].
  cbn [log stdout]. rewrite last_snoc. split; intros H.
  - rewrite (shift_readings_morning _ _ _ _ H). reflexivity.
  - rewrite (shift_readings_afternoon _ _ _ _ H). reflexivity.
Qed.

Lemma rewritten_event_line_witness :
  let E := example_env (inr ok_response) Calendar in
  let run := process_event E event_E1 Calendar empty_world in
  let nc := match fst run with Return nc => nc | Raise _ => Calendar end in
  let uid := match get "UID" event_E1 with
             | Some v => py_str E v
             | None => "None"
             end in
  exists start_local,
    astimezone (local_zone E) (tz E)
      (local_datetime 2024 1 10 8 45 0 (hours 1)) = Return start_local /\
    (is_0845 start_local ->
     last (stdout (snd run)) =
       Some ("Shift " +:+ uid +:+ " adjusted to: 09:00 - 13:00 (Local Time)")) /\
    (is_1345 start_local ->
     last (stdout (snd run)) =
       Some ("Shift " +:+ uid +:+ " adjusted to: 13:00 - 17:00 (Local Time)")).
Proof.
  intros E run nc.
  apply (rewritten_event_line E event_E1 Calendar empty_world
           (local_datetime 2024 1 10 8 45 0 (hours 1))
           (local_datetime 2024 1 10 9 30 0 (hours 1)) nc (snd run)).
  - reflexivity.
  - reflexivity.
  - vm_compute. reflexivity.
Defined.

(** ** Publishing *)

(** X9: when the fetch gives a response with a status outside
    400..599 that parses, the copy of the calendar properties and the
    loop over the events get through, and the output paths are free,
    the run returns; it has made the directory [docs], written the
    calendar the loop built, with the properties the copy gave and the
    rewritten events, to [docs/fixed_shifts.ics] and an empty
    [docs/.nojekyll], left every other file as it was, and printed the
    line of the marker last. *)
Theorem run_publishes E u resp cal w new_cal w0 nc :
  URL E = Some u -> network E u 15 = inr resp ->
  ~ 400 <= status_code resp < 600 ->
  from_ical E (sanitize (text resp)) = inr cal ->
  copy_metadata E cal Calendar = Return new_cal ->
  fst (process_events E (walk "VEVENT" cal) new_cal w0) = Return nc ->
  files w !! "docs" = None ->
  output_file_path ∉ dirs w -> nojekyll_path ∉ dirs w ->
  nc = mkComponent "VCALENDAR" (comp_props new_cal)
         (omap (shifted_event E) (walk "VEVENT" cal)) /\
  exists w',
    main E w = (Return tt, w') /\
    dirs w' = {["docs"]} ∪ dirs w /\
    files w' =
      <[nojekyll_path := []]>
        (<[output_file_path := to_ical E nc]> (files w)) /\
    last (stdout w') = Some "Created docs/.nojekyll for GitHub Pages.".
Proof.
  intros Hu Hn Hst Hc Hcopy Hloop Hdocs Hout Hmark.
  destruct (main_body_published E u resp cal w new_cal w0 nc
              Hu Hn Hst Hc Hcopy Hloop) as (Hnc & lines & Hb).
  split; [exact Hnc|].
  rewrite main_eq, Hb, publish_eq by assumption.
  eexists. split; [reflexivity|]. cbn [dirs files stdout log].
  split; [reflexivity|]. split; [reflexivity|].
  rewrite last_app. reflexivity.
Qed.

Lemma run_publishes_witness :
  let cal := example_calendar [event_E1; event_E3; event_E4] in
  let E := example_env (inr ok_response) cal in
  let new_cal := match copy_metadata E cal Calendar with
                 | Return c => c
                 | Raise _ => Calendar
                 end in
  let r := process_events E (walk "VEVENT" cal) new_cal empty_world in
  let nc := match fst r with Return nc => nc | Raise _ => Calendar end in
  nc = mkComponent "VCALENDAR" (comp_props new_cal)
         (omap (shifted_event E) (walk "VEVENT" cal)) /\
  exists w',
    main E empty_world = (Return tt, w') /\
    dirs w' = {["docs"]} ∪ dirs empty_world /\
    files w' =
      <[nojekyll_path := []]>
        (<[output_file_path := to_ical E nc]> (files empty_world)) /\
    last (stdout w') = Some "Created docs/.nojekyll for GitHub Pages.".
Proof.
  intros cal E new_cal r nc.
  apply (run_publishes E "https://example.org/shifts.ics" ok_response cal
           empty_world new_cal empty_world nc).
  - reflexivity.
  - reflexivity.
  - simpl. lia.
  - reflexivity.
  - vm_compute. reflexivity.
  - vm_compute. reflexivity.
  - reflexivity.
  - apply not_elem_of_empty.
  - apply not_elem_of_empty.
Defined.

(** ** What a run leaves untouched *)

Lemma touches_refl w : touches_only_output w w.
Proof.
  unfold touches_only_output. split; [|split; [|split; [|split]]].
  - reflexivity.
  - apply union_subseteq_r.
  - reflexivity.
  - auto.
  - exists []. rewrite app_nil_r. reflexivity.
Qed.

Lemma touches_trans w1 w2 w3 :
  touches_only_output w1 w2 -> touches_only_output w2 w3 ->
  touches_only_output w1 w3.
Proof.
  intros (D1 & D2 & F1 & K1 & l1 & S1) (D3 & D4 & F2 & K2 & l2 & S2).
  unfold touches_only_output. split; [|split; [|split; [|split]]].
  - etransitivity; eassumption.
  - intros x Hx. apply D4, elem_of_union in Hx as [Hx|Hx].
    + apply elem_of_union. left. exact Hx.
    + apply D2, Hx.
  - intros p H1 H2. rewrite F2, F1 by assumption. reflexivity.
  - intros p H. apply K2, K1, H.
  - exists (l1 ++ l2). rewrite S2, S1, app_assoc. reflexivity.
Qed.

Lemma touches_log w lines : touches_only_output w (log w lines).
Proof.
  unfold touches_only_output, log; simpl. split; [|split; [|split; [|split]]].
  - reflexivity.
  - apply union_subseteq_r.
  - reflexivity.
  - auto.
  - exists lines. reflexivity.
Qed.

Lemma keeps_ret {A} (a : A) : keeps_world (ret a).
Proof. intros w. apply touches_refl. Qed.

Lemma keeps_raise {A} e : keeps_world (@raise A e).
Proof. intros w. apply touches_refl. Qed.

Lemma keeps_lift {A} (o : outcome A) : keeps_world (lift o).
Proof. intros w. apply touches_refl. Qed.

Lemma keeps_print line : keeps_world (print line).
Proof. intros w. apply (touches_log w [line]). Qed.

Lemma keeps_bind {A B} (m : M A) (k : A -> M B) :
  keeps_world m -> (forall a, keeps_world (k a)) -> keeps_world (m ≫= k).
Proof.
  intros Hm Hk w. unfold mbind, M_bind, bind.
  specialize (Hm w). destruct (m w) as [[a|e] w1]; simpl in *.
  - eapply touches_trans; [exact Hm|apply Hk].
  - exact Hm.
Qed.

Lemma keeps_try {A} (m : M A) h :
  keeps_world m -> (forall e, keeps_world (h e)) -> keeps_world (try_except m h).
Proof.
  intros Hm Hh w. unfold try_except.
  specialize (Hm w). destruct (m w) as [[a|e] w1]; simpl in *.
  - exact Hm.
  - eapply touches_trans; [exact Hm|apply Hh].
Qed.

Lemma keeps_makedirs : keeps_world (makedirs "docs").
Proof.
  intros w. unfold makedirs. destruct (bool_decide _); simpl.
  - apply touches_refl.
  - unfold touches_only_output; simpl. split; [|split; [|split; [|split]]].
    + apply union_subseteq_r.
    + reflexivity.
    + reflexivity.
    + auto.
    + exists []. rewrite app_nil_r. reflexivity.
Qed.

Lemma keeps_write_file path data :
  path = output_file_path \/ path = nojekyll_path ->
  keeps_world (write_file path data).
Proof.
  intros Hpath w. unfold write_file. destruct (bool_decide _); simpl.
  - apply touches_refl.
  - unfold touches_only_output; simpl. split; [|split; [|split; [|split]]].
    + reflexivity.
    + apply union_subseteq_r.
    + intros p H1 H2. apply lookup_insert_ne. destruct Hpath; congruence.
    + intros p Hp. destruct (decide (path = p)) as [->|Hne].
      * rewrite lookup_insert_eq. eauto.
      * rewrite lookup_insert_ne by assumption. exact Hp.
    + exists []. rewrite app_nil_r. reflexivity.
Qed.

Lemma keeps_process_events E events new_cal :
  keeps_world (process_events E events new_cal).
Proof.
  intros w. destruct (process_events_form E events new_cal)
    as (o & lines & Hrun & _).
  rewrite Hrun. apply touches_log.
Qed.

Lemma keeps_publish E new_cal : keeps_world (publish E new_cal).
Proof.
  unfold publish.
  repeat (apply keeps_bind; [|intros _]);
    auto using keeps_makedirs, keeps_print, keeps_write_file.
Qed.

Lemma keeps_main_body E : keeps_world (main_body E).
Proof.
  unfold main_body.
  apply keeps_bind; [apply keeps_print|intros _].
  apply keeps_bind.
  { unfold requests_get. destruct (URL E) as [u|]; [|apply keeps_raise].
    destruct (network E u 15); [apply keeps_raise|apply keeps_ret]. }
  intros resp. apply keeps_bind.
  { unfold raise_for_status.
    destruct (http_error_msg resp); [apply keeps_raise|apply keeps_ret]. }
  intros _. apply keeps_bind.
  { destruct (from_ical E _); [apply keeps_raise|apply keeps_ret]. }
  intros cal. apply keeps_bind; [apply keeps_lift|intros new_cal].
  apply keeps_bind; [apply keeps_print|intros _].
  apply keeps_bind; [apply keeps_print|intros _].
  apply keeps_bind; [apply keeps_process_events|intros nc].
  apply keeps_publish.
Qed.

Lemma keeps_handler e : keeps_world (handler e).
Proof.
  destruct e; unfold handler;
    (apply keeps_bind; [apply keeps_print|intros _; apply keeps_raise]).
Qed.

(** X10: however a run ends, it has removed no file and no directory,
    has changed no file other than [docs/fixed_shifts.ics] and
    [docs/.nojekyll], has made no directory other than [docs], and
    has only added lines to the standard output. *)
Theorem run_touches_only_output E w :
  touches_only_output w (snd (main E w)).
Proof.
  apply (keeps_try (main_body E) handler).
  - apply keeps_main_body.
  - apply keeps_handler.
Qed.

(** X11: when [docs] is a regular file, a run that gets through the
    copy of the calendar properties and the loop ends with the
    [OSError] of [makedirs] raised again from the handler of
    unexpected errors, and the directories and files are those of
    before. *)
Theorem docs_file_blocks_publishing E u resp cal w new_cal w0 nc data :
  URL E = Some u -> network E u 15 = inr resp ->
  ~ 400 <= status_code resp < 600 ->
  from_ical E (sanitize (text resp)) = inr cal ->
  copy_metadata E cal Calendar = Return new_cal ->
  fst (process_events E (walk "VEVENT" cal) new_cal w0) = Return nc ->
  files w !! "docs" = Some data ->
  exists w',
    main E w = (Raise (OSError "[Errno 17] File exists: 'docs'"), w') /\
    dirs w' = dirs w /\ files w' = files w /\
    last (stdout w') =
      Some "An unexpected error occurred: [Errno 17] File exists: 'docs'".
Proof.
  intros Hu Hn Hst Hc Hcopy Hloop Hdocs.
  destruct (main_body_published E u resp cal w new_cal w0 nc
              Hu Hn Hst Hc Hcopy Hloop) as (_ & lines & Hb).
  rewrite main_eq, Hb. unfold publish, makedirs. run_monad.
  cbn [files log]. rewrite Hdocs.
  rewrite bool_decide_eq_true_2 by eauto.
  eexists. split; [reflexivity|]. cbn [dirs files stdout].
  split; [reflexivity|]. split; [reflexivity|]. apply last_snoc.
Qed.

Lemma docs_file_blocks_publishing_witness :
  let cal := example_calendar [event_E1; event_E3; event_E4] in
  let E := example_env (inr ok_response) cal in
  exists w',
    main E world_docs_file =
      (Raise (OSError "[Errno 17] File exists: 'docs'"), w') /\
    dirs w' = dirs world_docs_file /\ files w' = files world_docs_file /\
    last (stdout w') =
      Some "An unexpected error occurred: [Errno 17] File exists: 'docs'".
Proof.
  intros cal E.
  apply (docs_file_blocks_publishing E "https://example.org/shifts.ics"
           ok_response cal world_docs_file
           (match copy_metadata E cal Calendar with
            | Return c => c
            | Raise _ => Calendar
            end)
           empty_world
           (match fst (process_events E (walk "VEVENT" cal)
                         (match copy_metadata E cal Calendar with
                          | Return c => c
                          | Raise _ => Calendar
                          end) empty_world) with
            | Return nc => nc
            | Raise _ => Calendar
            end) []).
  - reflexivity.
  - reflexivity.
  - simpl. lia.
  - reflexivity.
  - vm_compute. reflexivity.
  - vm_compute. reflexivity.
  - reflexivity.
Defined.

(** X12: publishing is not atomic: when [docs/.nojekyll] is a
    directory and the other paths are free, a run that gets through
    the copy of the calendar properties and the loop writes the
    calendar file and then ends with the [OSError] of the second
    [open] raised again; the marker is not written. *)
Theorem marker_directory_leaves_calendar E u resp cal w new_cal w0 nc :
  URL E = Some u -> network E u 15 = inr resp ->
  ~ 400 <= status_code resp < 600 ->
  from_ical E (sanitize (text resp)) = inr cal ->
  copy_metadata E cal Calendar = Return new_cal ->
  fst (process_events E (walk "VEVENT" cal) new_cal w0) = Return nc ->
  files w !! "docs" = None -> output_file_path ∉ dirs w ->
  nojekyll_path ∈ dirs w ->
  exists w',
    main E w =
      (Raise (OSError "[Errno 21] Is a directory: 'docs/.nojekyll'"), w') /\
    files w' = <[output_file_path := to_ical E nc]> (files w) /\
    last (stdout w') =
      Some "An unexpected error occurred: [Errno 21] Is a directory: 'docs/.nojekyll'".
Proof.
  intros Hu Hn Hst Hc Hcopy Hloop Hdocs Hout Hmark.
  destruct (main_body_published E u resp cal w new_cal w0 nc
              Hu Hn Hst Hc Hcopy Hloop) as (_ & lines & Hb).
  rewrite main_eq, Hb. unfold publish, makedirs, write_file. run_monad.
  cbn [files dirs stdout log]. rewrite Hdocs.
  rewrite (bool_decide_eq_false_2 (is_Some None)) by apply is_Some_None.
  cbn [dirs files stdout].
  rewrite (bool_decide_eq_false_2 (output_file_path ∈ {["docs"]} ∪ dirs w)).
  2:{ rewrite elem_of_union, elem_of_singleton. intros [H|H]; [discriminate H|auto]. }
  cbn [dirs files stdout].
  rewrite (bool_decide_eq_true_2 (nojekyll_path ∈ {["docs"]} ∪ dirs w))
    by (apply elem_of_union; right; exact Hmark).
  eexists. split; [reflexivity|]. cbn [dirs files stdout].
  split; [reflexivity|]. apply last_snoc.
Qed.

Lemma marker_directory_leaves_calendar_witness :
  let cal := example_calendar [event_E1; event_E3; event_E4] in
  let E := example_env (inr ok_response) cal in
  let new_cal := match copy_metadata E cal Calendar with
                 | Return c => c
                 | Raise _ => Calendar
                 end in
  let r := process_events E (walk "VEVENT" cal) new_cal empty_world in
  let nc := match fst r with Return nc => nc | Raise _ => Calendar end in
  exists w',
    main E world_marker_dir =
      (Raise (OSError "[Errno 21] Is a directory: 'docs/.nojekyll'"), w') /\
    files w' = <[output_file_path := to_ical E nc]> (files world_marker_dir) /\
    last (stdout w') =
      Some "An unexpected error occurred: [Errno 21] Is a directory: 'docs/.nojekyll'".
Proof.
  intros cal E new_cal r nc.
  apply (marker_directory_leaves_calendar E "https://example.org/shifts.ics"
           ok_response cal world_marker_dir new_cal empty_world nc).
  - reflexivity.
  - reflexivity.
  - simpl. lia.
  - reflexivity.
  - vm_compute. reflexivity.
  - vm_compute. reflexivity.
  - reflexivity.
  - cbn [dirs world_marker_dir].
    rewrite !elem_of_union, !elem_of_singleton.
    intros [H|H]; discriminate H.
  - cbn [dirs world_marker_dir]. apply elem_of_union. left.
    apply elem_of_singleton. reflexivity.
Defined.

(** ** More on the sanitizer *)

(** Induction on a list with the hypothesis for the tail and for the
    tail of the tail, as [splitlines_from] recurses. *)
Lemma list_ind_two {A} (P : list A -> Prop) :
  P [] ->
  (forall x l, P l -> (forall y l', l = y :: l' -> P l') -> P (x :: l)) ->
  forall l, P l.
Proof.
  intros Hnil Hcons l.
  assert (P l /\ (forall y l', l = y :: l' -> P l')) as [H _]; [|exact H].
  induction l as [|x l [IH1 IH2]].
  - split; [exact Hnil|]. intros y l' H. discriminate H.
  - split; [apply Hcons; assumption|]. intros y l' [= <- <-]. exact IH1.
Qed.

Lemma splitlines_from_step cur c rest :
  splitlines_from cur (c :: rest) =
  if is_linebreak c then
    cur :: (if c =? CR then
              match rest with
              | c' :: rest' =>
                  if c' =? LF then splitlines_from [] rest'
                  else splitlines_from [] rest
              | [] => splitlines_from [] rest
              end
            else splitlines_from [] rest)
  else splitlines_from (cur ++ [c]) rest.
Proof. reflexivity. Qed.

Lemma splitlines_from_no_break s :
  forall cur,
    Forall (fun c => is_linebreak c = false) cur ->
    Forall (Forall (fun c => is_linebreak c = false)) (splitlines_from cur s).
Proof.
  induction s as [|c rest IH IH'] using list_ind_two; intros cur Hcur.
  - simpl. destruct cur; repeat constructor.
    + apply (Forall_inv Hcur).
    + apply (Forall_inv_tail Hcur).
  - rewrite splitlines_from_step. destruct (is_linebreak c) eqn:Hc.
    + constructor; [exact Hcur|].
      destruct (c =? CR); [|apply IH; constructor].
      destruct rest as [|c' rest']; [apply IH; constructor|].
      destruct (c' =? LF); [|apply IH; constructor].
      apply (IH' c' rest' eq_refl). constructor.
    + apply IH. apply Forall_app. split; [exact Hcur|]. repeat constructor.
      exact Hc.
Qed.

Lemma lstrip_Forall (P : Z -> Prop) s : Forall P s -> Forall P (lstrip s).
Proof.
  induction 1 as [|c s Hc Hs IH]; simpl; [constructor|].
  destruct (is_space c); [exact IH|constructor; assumption].
Qed.

Lemma strip_Forall (P : Z -> Prop) s : Forall P s -> Forall P (strip s).
Proof.
  intros H. unfold strip, rstrip.
  apply Forall_rev, lstrip_Forall, Forall_rev, lstrip_Forall, H.
Qed.

Lemma filter_keeps_head (s : list Z) :
  ~ starts_with_space s ->
  ~ starts_with_space (filter (fun c => c <> NBSP) s).
Proof.
  intros Hn (c & rest & Hf & Hsp). destruct s as [|h s]; [discriminate Hf|].
  destruct (decide (h = NBSP)) as [->|Hh].
  - apply Hn. exists NBSP, s. split; reflexivity.
  - rewrite filter_cons_True in Hf by exact Hh. injection Hf as -> _.
    apply Hn. exists c, s. split; [reflexivity|exact Hsp].
Qed.

Lemma filter_keeps_last (s : list Z) :
  ~ ends_with_space s ->
  ~ ends_with_space (filter (fun c => c <> NBSP) s).
Proof.
  intros Hn (front & c & Hf & Hsp).
  destruct s as [|h s _] using rev_ind; [destruct front; discriminate Hf|].
  rewrite filter_app in Hf.
  destruct (decide (h = NBSP)) as [->|Hh].
  - apply Hn. exists s, NBSP. split; reflexivity.
  - rewrite (filter_cons_True _ h []) in Hf by exact Hh.
    rewrite filter_nil in Hf. apply app_inj_tail in Hf as [_ ->].
    apply Hn. exists s, c. split; [reflexivity|exact Hsp].
Qed.

Lemma strip_edges line :
  ~ starts_with_space (strip line) /\ ~ ends_with_space (strip line).
Proof.
  destruct (lstrip_spec line) as (pre & Hl & Hpre & Hn).
  destruct (rstrip_spec (lstrip line)) as (post & Hr & Hpost & Hm).
  unfold strip. split; [|exact Hm].
  intros (c & rest & H & Hsp). apply Hn. exists c, (rest ++ post).
  split; [|exact Hsp]. rewrite Hr at 1. rewrite H. reflexivity.
Qed.

Lemma strip_clean_line line :
  Forall (fun c => is_linebreak c = false) line ->
  clean_line (remove_char NBSP (strip line)).
Proof.
  intros Hb. destruct (strip_edges line) as [Hn Hm].
  unfold clean_line, remove_char, str in *. repeat split.
  - apply Forall_forall. intros c Hc. apply list_elem_of_filter in Hc as [_ Hc].
    apply strip_Forall in Hb. rewrite Forall_forall in Hb. apply Hb, Hc.
  - apply Forall_forall. intros c Hc. apply list_elem_of_filter in Hc. apply Hc.
  - apply filter_keeps_head, Hn.
  - apply filter_keeps_last, Hm.
Qed.

Lemma clean_lines_of_text text :
  Forall clean_line
    (map (fun line => remove_char NBSP (strip line)) (splitlines text)).
Proof.
  apply Forall_map. simpl.
  eapply Forall_impl; [apply splitlines_from_no_break; constructor|].
  intros line Hline. apply strip_clean_line, Hline.
Qed.

(** X13: every line the sanitizer joins is clean: it holds no line
    boundary and no U+00A0, and neither begins nor ends with
    whitespace, so a continuation line of a folded content line loses
    the blank it begins with. *)
Theorem sanitized_lines_are_clean text :
  Forall clean_line
    (map (fun line => remove_char NBSP (strip line)) (splitlines text)).
Proof. apply clean_lines_of_text. Qed.

Lemma join_Forall (P : Z -> Prop) sep parts :
  Forall P sep -> Forall (Forall P) parts -> Forall P (join sep parts).
Proof.
  intros Hsep. induction 1 as [|p rest Hp Hrest IH]; [constructor|].
  simpl. destruct rest as [|q rest']; [exact Hp|].
  apply Forall_app. split; [exact Hp|]. apply Forall_app. split; assumption.
Qed.

(** X14: the only line boundary left in the output of the sanitizer is
    the line feed: CR LF pairs, lone carriage returns and the other
    boundaries of [splitlines] all become one line feed. *)
Theorem sanitize_normalizes_line_endings text :
  Forall (fun c => is_linebreak c = true -> c = LF) (sanitize text).
Proof.
  unfold sanitize. apply join_Forall.
  - repeat constructor.
  - pose proof (clean_lines_of_text text) as H.
    eapply Forall_impl; [exact H|]. intros line (Hb & _).
    eapply Forall_impl; [exact Hb|]. intros c Hc Ht. congruence.
Qed.

Lemma splitlines_from_app cur l rest :
  Forall (fun c => is_linebreak c = false) l ->
  splitlines_from cur (l ++ rest) = splitlines_from (cur ++ l) rest.
Proof.
  intros H. revert cur. induction H as [|c l Hc _ IH]; intros cur.
  - rewrite app_nil_r. reflexivity.
  - simpl app. rewrite splitlines_from_step, Hc, IH, <- app_assoc. reflexivity.
Qed.

Lemma splitlines_join lines :
  Forall (Forall (fun c => is_linebreak c = false)) lines ->
  last lines <> Some [] ->
  splitlines (join [LF] lines) = lines.
Proof.
  unfold splitlines. induction 1 as [|p rest Hp Hrest IH]; intros Hlast.
  - reflexivity.
  - destruct rest as [|q rest'].
    + simpl. rewrite <- (app_nil_r p) at 1.
      rewrite (splitlines_from_app [] p [] Hp). simpl.
      destruct p; [exfalso; apply Hlast; reflexivity|reflexivity].
    + change (join [LF] (p :: q :: rest'))
        with (p ++ LF :: join [LF] (q :: rest')).
      rewrite (splitlines_from_app [] p _ Hp), splitlines_from_step. simpl.
      f_equal. apply IH. exact Hlast.
Qed.

Lemma lstrip_id s : ~ starts_with_space s -> lstrip s = s.
Proof.
  intros Hn. destruct s as [|c s]; [reflexivity|]. simpl.
  destruct (is_space c) eqn:Hc; [|reflexivity].
  exfalso. apply Hn. exists c, s. split; [reflexivity|exact Hc].
Qed.

Lemma rstrip_id s : ~ ends_with_space s -> rstrip s = s.
Proof.
  intros Hn. unfold rstrip. rewrite lstrip_id; [apply rev_involutive|].
  intros (c & rest & H & Hc). apply Hn. exists (rev rest), c.
  split; [|exact Hc]. rewrite <- (rev_involutive s), H. reflexivity.
Qed.

Lemma filter_all (l : list Z) :
  Forall (fun c => c <> NBSP) l -> filter (fun c => c <> NBSP) l = l.
Proof.
  induction 1 as [|c l Hc _ IH]; [reflexivity|].
  rewrite filter_cons_True by exact Hc. f_equal. exact IH.
Qed.

Lemma clean_line_fixed line :
  clean_line line -> remove_char NBSP (strip line) = line.
Proof.
  intros (_ & Hnb & Hn & Hm). unfold strip, remove_char.
  rewrite (lstrip_id line Hn), (rstrip_id line Hm).
  apply filter_all, Hnb.
Qed.

Lemma sanitize_join lines :
  Forall clean_line lines -> last lines <> Some [] ->
  sanitize (join [LF] lines) = join [LF] lines.
Proof.
  intros Hclean Hlast. unfold sanitize.
  rewrite splitlines_join.
  - f_equal. induction Hclean as [|p rest Hp _ IH]; [reflexivity|].
    simpl. rewrite (clean_line_fixed p Hp). f_equal. apply IH.
    destruct rest as [|q rest']; [discriminate|exact Hlast].
  - eapply Forall_impl; [exact Hclean|]. intros line H. apply H.
  - exact Hlast.
Qed.

(** X15: the sanitizer leaves clean text as it is: the join by line
    feeds of clean lines, the last of which is not empty, comes out
    unchanged. *)
Theorem sanitize_fixes_clean_text lines :
  Forall clean_line lines -> last lines <> Some [] ->
  sanitize (join [LF] lines) = join [LF] lines.
Proof. apply sanitize_join. Qed.

Lemma clean_lineb_spec line : clean_lineb line = true -> clean_line line.
Proof.
  unfold clean_lineb, clean_line. rewrite !andb_true_iff, !negb_true_iff.
  intros [[Hall Hh] Hl]. rewrite forallb_forall in Hall. repeat split.
  - apply Forall_forall. intros c Hc. apply list_elem_of_In, Hall in Hc.
    apply andb_true_iff in Hc as [Hc _]. apply negb_true_iff, Hc.
  - apply Forall_forall. intros c Hc. apply list_elem_of_In, Hall in Hc.
    apply andb_true_iff in Hc as [_ Hc]. apply negb_true_iff in Hc. lia.
  - intros (c & rest & -> & Hc). simpl in Hh. congruence.
  - intros (front & c & -> & Hc). rewrite rev_app_distr in Hl. simpl in Hl.
    congruence.
Qed.

Lemma sanitize_fixes_clean_text_witness :
  sanitize (join [LF] [[66; 69]; []; [71; 32; 72]]) =
  join [LF] [[66; 69]; []; [71; 32; 72]].
Proof.
  apply (sanitize_fixes_clean_text [[66; 69]; []; [71; 32; 72]]).
  - repeat (constructor; [apply clean_lineb_spec; reflexivity|]).
    constructor.
  - discriminate.
Defined.

(** X16: sanitizing twice is sanitizing once, provided the last line
    of the text is not blank (a blank last line leaves a line feed at
    the end of the output, which a second pass drops). *)
Theorem sanitize_twice text :
  last (map (fun line => remove_char NBSP (strip line)) (splitlines text))
    <> Some [] ->
  sanitize (sanitize text) = sanitize text.
Proof.
  intros Hlast. unfold sanitize at 2 3.
  apply sanitize_join; [apply clean_lines_of_text|exact Hlast].
Qed.

Lemma sanitize_twice_witness :
  sanitize (sanitize [32; 66; 160; 69; 9; 13; 10; 160; 71; 32; 72; 10]) =
  sanitize [32; 66; 160; 69; 9; 13; 10; 160; 71; 32; 72; 10].
Proof.
  apply (sanitize_twice [32; 66; 160; 69; 9; 13; 10; 160; 71; 32; 72; 10]).
  vm_compute. discriminate.
Defined.

Lemma join_cons_length p rest :
  length (join [LF] (p :: rest)) =
  (length p +
   match rest with [] => 0 | _ => 1 + length (join [LF] rest) end)%nat.
Proof.
  destruct rest as [|q rest]; simpl; [lia|].
  rewrite length_app. simpl. lia.
Qed.

Lemma splitlines_from_length s :
  forall cur,
    (length (join [LF] (splitlines_from cur s)) <= length cur + length s)%nat.
Proof.
  induction s as [|c rest IH IH'] using list_ind_two; intros cur.
  - simpl. destruct cur; simpl; lia.
  - rewrite splitlines_from_step. destruct (is_linebreak c).
    + rewrite join_cons_length. simpl length.
      assert (forall l, (length (join [LF] l) <= length rest)%nat ->
        (length cur + match l with
                      | [] => 0
                      | _ => 1 + length (join [LF] l)
                      end <= length cur + S (length rest))%nat) as Hstep.
      { intros l Hl. destruct l; lia. }
      apply Hstep.
      destruct (c =? CR); [|apply (IH [])].
      destruct rest as [|c' rest']; [apply (IH [])|].
      destruct (c' =? LF); [|apply (IH [])].
      pose proof (IH' c' rest' eq_refl []) as H. simpl in *. lia.
    + pose proof (IH (cur ++ [c])) as H. rewrite length_app in H.
      simpl in *. lia.
Qed.

Lemma lstrip_length s : (length (lstrip s) <= length s)%nat.
Proof.
  induction s as [|c s IH]; simpl; [lia|].
  destruct (is_space c); simpl; lia.
Qed.

Lemma clean_length line :
  (length (remove_char NBSP (strip line)) <= length line)%nat.
Proof.
  unfold remove_char, strip, rstrip, str.
  etransitivity; [apply length_filter|].
  rewrite length_rev.
  etransitivity; [apply lstrip_length|].
  rewrite length_rev. apply lstrip_length.
Qed.

Lemma join_map_length (g : str -> str) lines :
  (forall l, (length (g l) <= length l)%nat) ->
  (length (join [LF] (map g lines)) <= length (join [LF] lines))%nat.
Proof.
  intros Hg. induction lines as [|p rest IH]; [reflexivity|].
  cbn [map]. rewrite !join_cons_length. specialize (Hg p).
  destruct rest as [|q rest']; cbn [map] in *; lia.
Qed.

(** X17: the sanitizer never makes the text longer. *)
Theorem sanitize_never_grows text :
  (length (sanitize text) <= length text)%nat.
Proof.
  unfold sanitize, splitlines.
  etransitivity; [apply join_map_length, clean_length|].
  apply (splitlines_from_length text []).
Qed.

(** ** The end that is written *)

Lemma end_delta_cases sl el :
  (is_0845 sl /\
   end_delta sl el = hours (13 - hour el) - minutes (minute el)) \/
  (~ is_0845 sl /\ is_1345 sl /\
   end_delta sl el = hours (17 - hour el) - minutes (minute el)) \/
  (~ is_0845 sl /\ ~ is_1345 sl /\ end_delta sl el = 0).
Proof.
  unfold end_delta, is_0845, is_1345.
  destruct (hour sl =? 8) eqn:E1, (minute sl =? 45) eqn:E2,
    (hour sl =? 13) eqn:E3; simpl; lia.
Qed.

(** X18: in any zone, the end a step of the loop has written is the
    instant of the input end moved by the time from the hour and minute
    the converted end reads to 13:00 (start at 08:45) or to 17:00 (start
    at 13:45), counted at one fixed offset, and not moved otherwise. *)
Theorem end_moves_by_rule E component new_cal w s e nc w' :
  get "DTSTART" component = Some (vDDDTypes (DDatetime s)) ->
  get "DTEND" component = Some (vDDDTypes (DDatetime e)) ->
  process_event E component new_cal w = (Return nc, w') ->
  exists out e' start_local end_local,
    nc = add_component out new_cal /\
    astimezone (local_zone E) (tz E) s = Return start_local /\
    astimezone (local_zone E) (tz E) e = Return end_local /\
    get "DTEND" out = Some (vDDDTypes (DDatetime e')) /\
    timestamp (local_zone E) e' =
      timestamp (local_zone E) e + end_delta start_local end_local.
Proof.
  intros Hs He Hrun.
  destruct (process_event_written E _ _ _ s e nc w' Hs He Hrun)
    as (out & Hc & _ & Ho & -> & _).
  apply rebuild_event_Return in Ho as (_ & _ & _ & Hen & _).
  destruct (convertible_start _ _ _ _ Hc) as [Hcs Hce].
  exists out. eexists _, _, _. split; [reflexivity|].
  split; [exact Hcs|]. split; [exact Hce|]. split; [exact Hen|].
  destruct (end_delta_cases (zone_reading (local_zone E) (tz E) s)
              (zone_reading (local_zone E) (tz E) e))
    as [[H ->]|[(H1 & H2 & ->)|(H1 & H2 & ->)]].
  - destruct (morning_instants _ _ s e H) as [_ ->].
    unfold hours, minutes. lia.
  - destruct (afternoon_instants _ _ s e H2) as [_ ->].
    unfold hours, minutes. lia.
  - destruct (unmatched_instants _ _ s e H1 H2) as (_ & _ & _ & ->). lia.
Qed.

Lemma end_moves_by_rule_witness :
  let E := example_env (inr ok_response) Calendar in
  let run := process_event E event_night_morning Calendar empty_world in
  let nc := match fst run with Return nc => nc | Raise _ => Calendar end in
  exists out e' start_local end_local,
    nc = add_component out Calendar /\
    astimezone (local_zone E) (tz E) (utc_datetime 2024 3 30 7 45 0) =
      Return start_local /\
    astimezone (local_zone E) (tz E) (utc_datetime 2024 3 31 0 30 0) =
      Return end_local /\
    get "DTEND" out = Some (vDDDTypes (DDatetime e')) /\
    timestamp (local_zone E) e' =
      timestamp (local_zone E) (utc_datetime 2024 3 31 0 30 0) +
      end_delta start_local end_local.
Proof.
  intros E run nc.
  apply (end_moves_by_rule E event_night_morning Calendar empty_world
           (utc_datetime 2024 3 30 7 45 0) (utc_datetime 2024 3 31 0 30 0)
           nc (snd run)).
  - reflexivity.
  - reflexivity.
  - vm_compute. reflexivity.
Defined.
